(** * Concepta front end: a shallow embedding of [src/frontend/app.js]

    The class [ConceptaApp] keeps one mutable [state] object, a table of DOM
    [elements], and talks to three collaborators: the notification container,
    [localStorage] and the network ([fetch]).  The embedding threads all of
    them through one record, [World]; every method of the class becomes a
    function on worlds.

    Conventions
    - JavaScript strings are sequences of UTF-16 code units: [list N].
    - Numbers that index the deck are integers: [Z].
    - A method that can leave through an uncaught exception returns a
      [completion]: the world as mutated so far, tagged [Normal] or [Throws].
    - An [async] method is cut at each [await]: the environment supplies the
      settled value of the awaited promise as an argument.
    - Notifications are recorded in the order [showNotification] is called;
      their timed removal from the page is not part of the model.
    - [console.error] calls are recorded by their first argument. *)

From Stdlib Require Import ZArith NArith List Ascii String.
From stdpp Require Import base option list gmap strings pretty.

Set Warnings "-register-all".
Local Open Scope Z_scope.

(** ** Strings *)

Abbreviation jsstring := (list N).

Definition code_unit (c : ascii) : N := N_of_ascii c.

Fixpoint lit (s : string) : jsstring :=
  match s with
  | EmptyString => []
  | String c s' => code_unit c :: lit s'
  end.

(** Decimal rendering of a number inside a template literal. *)
Definition num (z : Z) : jsstring := lit (pretty z).

Arguments lit : simpl never.
Arguments num : simpl never.

(** ** Data model *)

(** A flashcard is an object received from the backend or read from
    storage, and is never modified afterwards.  The code reads its
    [question] and its [answer], and [JSON.stringify] writes all its own
    properties in the order in which they were created.  The model keeps
    the objects
    - whose property values are strings, booleans or [null],
    - whose keys are distinct, none of them written with digits only
      (among these are the array indices, which are enumerated before
      the other keys whatever the order of creation),
    - with a string under [question] and a string under [answer].
    Any other value is outside the model. *)
Inductive scalar :=
| SNull
| SBool (b : bool)
| SStr (s : jsstring).

(** [object[key]] on a list of own properties. *)
Fixpoint property (key : jsstring) (ps : list (jsstring * scalar)) : option scalar :=
  match ps with
  | [] => None
  | (k, v) :: ps' => if decide (k = key) then Some v else property key ps'
  end.

Definition is_string (v : option scalar) : bool :=
  match v with
  | Some (SStr _) => true
  | _ => false
  end.

Definition digits_only (k : jsstring) : bool :=
  negb (bool_decide (k = [])) && forallb (fun c => (48 <=? c) && (c <=? 57))%N k.

Definition is_card (ps : list (jsstring * scalar)) : bool :=
  bool_decide (NoDup (map fst ps)) &&
  forallb (fun k => negb (digits_only k)) (map fst ps) &&
  is_string (property (lit "question") ps) &&
  is_string (property (lit "answer") ps).

Record Flashcard := mkCard {
  properties : list (jsstring * scalar);
  is_Flashcard : Is_true (is_card properties)
}.

(** The string under a key that [is_card] guarantees to hold one. *)
Definition string_value (v : option scalar) : jsstring :=
  match v with
  | Some (SStr s) => s
  | _ => []
  end.

(** [card.question] and [card.answer] *)
Definition question (c : Flashcard) : jsstring :=
  string_value (property (lit "question") (properties c)).

Definition answer (c : Flashcard) : jsstring :=
  string_value (property (lit "answer") (properties c)).

(** The card [{question: q, answer: a}]. *)
Definition mkFlashcard (q a : jsstring) : Flashcard :=
  mkCard [(lit "question", SStr q); (lit "answer", SStr a)] I.

Record AppState := mkAppState {
  currentTab : jsstring;
  currentDifficulty : jsstring;
  theme : jsstring;
  flashcards : list Flashcard;
  currentFlashcardIndex : Z;
  isFlashcardFlipped : bool;
  connectionStatus : jsstring;
  model : jsstring;
  apiUrl : jsstring;
  backendUrl : jsstring;
  isPhi3 : bool
}.

(** The state built by the constructor. *)
Definition initial_state : AppState :=
  {| currentTab := lit "explainer";
     currentDifficulty := lit "beginner";
     theme := lit "dark";
     flashcards := [];
     currentFlashcardIndex := 0;
     isFlashcardFlipped := false;
     connectionStatus := lit "disconnected";
     model := lit "phi3:mini";
     apiUrl := lit "http://localhost:11434";
     backendUrl := lit "http://localhost:8000";
     isPhi3 := true |}.

(** ** JSON values

    What [JSON.parse] and [response.json()] produce.  A number keeps its
    source text; its IEEE-754 value is not computed. *)

Inductive json :=
| JNull
| JBool (b : bool)
| JNum (lexeme : jsstring)
| JStr (s : jsstring)
| JArr (elems : list json)
| JObj (members : list (jsstring * json)).

(** ** Notifications *)

Inductive kind := success | error | warning | info.

Record Notification := mkNotification {
  message : jsstring;
  type : kind
}.

(** ** The page *)

(** The two branches of [questions.length === 0 ? ... : ...] in the
    template of [renderQuiz]. *)
Inductive quiz_body :=
| NoQuestions
    (* the block "No questions generated. Try more specific content."; it
       borrows the style class error-state but has no Retry button and is
       not written by showError *)
| Questions (items : list json).
    (* the container with one item per question, followed by the tip *)

(** Content of an output region ([explainOutput], [summaryOutput],
    [quizOutput]).  Templates are kept structured: a panel records the
    values interpolated into the markup, not the text they are converted
    to; whether a conversion throws is decided by the render methods,
    before the panel is assigned. *)
Inductive panel :=
| Placeholder
    (* the markup shipped with the page *)
| LoadingState (msg : jsstring)
    (* showLoading *)
| ErrorState (msg : jsstring)
    (* showError: the error block with its Retry button *)
| Explanation (data : json)
    (* renderExplanation *)
| Summary (data : json)
    (* renderSummary *)
| Quiz (count : Z) (difficulty : option json) (body : quiz_body).
    (* renderQuiz: header with the count and the difficulty above one of
       the two bodies *)

(** Content of the start-up status line: set through [textContent] or
    through [innerHTML] (layout whitespace of the template dropped). *)
Inductive status_line :=
| StatusText (t : jsstring)
| StatusHtml (h : jsstring).

Record Elements := mkElements {
  topicInput : jsstring;
  notesInput : jsstring;
  quizInput : jsstring;
  flashcardsInput : jsstring;
  summaryLength : jsstring;
  quizType : jsstring;
  quizDifficulty : jsstring;
  questionCount : jsstring;
  explainOutput : panel;
  summaryOutput : panel;
  quizOutput : panel;
  cardQuestion : jsstring;
  cardAnswer : jsstring;
  currentCard : jsstring;
  totalCards : jsstring;
  flashcard_flipped : bool;
  settingsModal_active : bool;
  modelSelect : jsstring;
  apiUrlField : jsstring;
  statusDot : list jsstring;
  statusText : jsstring;
  loadingStatus : status_line;
  loadingScreen_hidden : bool;
  body_overflow : jsstring
}.

(** ** The network *)

Inductive payload :=
| ExplainBody (topic difficulty model_ : jsstring)
| SummarizeBody (notes length_ model_ : jsstring)
| QuizBody (content type_ difficulty count model_ : jsstring)
    (* count is sent as parseInt of the selector's value *)
| FlashcardsBody (content : jsstring) (count : Z) (model_ : jsstring).

Inductive Request :=
| GET (url : jsstring)
| POST (url : jsstring) (body : payload).

(** The settled value of [await fetch(...)], with the outcome of the
    following [await response.json()] folded in: [body = None] when the
    body does not parse. *)
Inductive fetch_result :=
| NetworkError
| Response (status : Z) (body : option json).

(** [response.ok]: the status is in the range 200-299. *)
Definition response_ok (status : Z) : bool := (200 <=? status) && (status <=? 299).

(** Callbacks queued with [setTimeout]. *)
Inductive timer :=
| RevealApp (ollamaOk : bool).

(** ** The world *)

Record World := mkWorld {
  state : AppState;
  elements : Elements;
  notifications : list Notification;
  localStorage : gmap jsstring jsstring;
  requests : list Request;
  timers : list (Z * timer);
  console : list jsstring
}.

Inductive completion :=
| Normal (w : World)
| Throws (w : World).

Definition world_of (c : completion) : World :=
  match c with Normal w | Throws w => w end.

(** *** Field updates *)

Definition with_state (f : AppState -> AppState) (w : World) : World :=
  {| state := f (state w); elements := elements w;
     notifications := notifications w; localStorage := localStorage w;
     requests := requests w; timers := timers w; console := console w |}.

Definition with_elements (f : Elements -> Elements) (w : World) : World :=
  {| state := state w; elements := f (elements w);
     notifications := notifications w; localStorage := localStorage w;
     requests := requests w; timers := timers w; console := console w |}.

Definition set_flashcards (d : list Flashcard) (s : AppState) : AppState :=
  {| currentTab := currentTab s; currentDifficulty := currentDifficulty s;
     theme := theme s; flashcards := d;
     currentFlashcardIndex := currentFlashcardIndex s;
     isFlashcardFlipped := isFlashcardFlipped s;
     connectionStatus := connectionStatus s; model := model s;
     apiUrl := apiUrl s; backendUrl := backendUrl s; isPhi3 := isPhi3 s |}.

Definition set_currentFlashcardIndex (i : Z) (s : AppState) : AppState :=
  {| currentTab := currentTab s; currentDifficulty := currentDifficulty s;
     theme := theme s; flashcards := flashcards s;
     currentFlashcardIndex := i;
     isFlashcardFlipped := isFlashcardFlipped s;
     connectionStatus := connectionStatus s; model := model s;
     apiUrl := apiUrl s; backendUrl := backendUrl s; isPhi3 := isPhi3 s |}.

Definition set_isFlashcardFlipped (b : bool) (s : AppState) : AppState :=
  {| currentTab := currentTab s; currentDifficulty := currentDifficulty s;
     theme := theme s; flashcards := flashcards s;
     currentFlashcardIndex := currentFlashcardIndex s;
     isFlashcardFlipped := b;
     connectionStatus := connectionStatus s; model := model s;
     apiUrl := apiUrl s; backendUrl := backendUrl s; isPhi3 := isPhi3 s |}.

Definition set_connectionStatus (c : jsstring) (s : AppState) : AppState :=
  {| currentTab := currentTab s; currentDifficulty := currentDifficulty s;
     theme := theme s; flashcards := flashcards s;
     currentFlashcardIndex := currentFlashcardIndex s;
     isFlashcardFlipped := isFlashcardFlipped s;
     connectionStatus := c; model := model s;
     apiUrl := apiUrl s; backendUrl := backendUrl s; isPhi3 := isPhi3 s |}.

Definition set_settings (t m a : jsstring) (p : bool) (s : AppState) : AppState :=
  {| currentTab := currentTab s; currentDifficulty := currentDifficulty s;
     theme := t; flashcards := flashcards s;
     currentFlashcardIndex := currentFlashcardIndex s;
     isFlashcardFlipped := isFlashcardFlipped s;
     connectionStatus := connectionStatus s; model := m;
     apiUrl := a; backendUrl := backendUrl s; isPhi3 := p |}.

Definition set_card_display (q a c t : jsstring) (f : bool) (e : Elements) : Elements :=
  {| topicInput := topicInput e;
     notesInput := notesInput e;
     quizInput := quizInput e;
     flashcardsInput := flashcardsInput e;
     summaryLength := summaryLength e;
     quizType := quizType e;
     quizDifficulty := quizDifficulty e;
     questionCount := questionCount e;
     explainOutput := explainOutput e;
     summaryOutput := summaryOutput e;
     quizOutput := quizOutput e;
     cardQuestion := q;
     cardAnswer := a;
     currentCard := c;
     totalCards := t;
     flashcard_flipped := f;
     settingsModal_active := settingsModal_active e;
     modelSelect := modelSelect e;
     apiUrlField := apiUrlField e;
     statusDot := statusDot e;
     statusText := statusText e;
     loadingStatus := loadingStatus e;
     loadingScreen_hidden := loadingScreen_hidden e;
     body_overflow := body_overflow e |}.

Definition set_topicInput (v : jsstring) (e : Elements) : Elements :=
  {| topicInput := v;
     notesInput := notesInput e;
     quizInput := quizInput e;
     flashcardsInput := flashcardsInput e;
     summaryLength := summaryLength e;
     quizType := quizType e;
     quizDifficulty := quizDifficulty e;
     questionCount := questionCount e;
     explainOutput := explainOutput e;
     summaryOutput := summaryOutput e;
     quizOutput := quizOutput e;
     cardQuestion := cardQuestion e;
     cardAnswer := cardAnswer e;
     currentCard := currentCard e;
     totalCards := totalCards e;
     flashcard_flipped := flashcard_flipped e;
     settingsModal_active := settingsModal_active e;
     modelSelect := modelSelect e;
     apiUrlField := apiUrlField e;
     statusDot := statusDot e;
     statusText := statusText e;
     loadingStatus := loadingStatus e;
     loadingScreen_hidden := loadingScreen_hidden e;
     body_overflow := body_overflow e |}.

Definition set_notesInput (v : jsstring) (e : Elements) : Elements :=
  {| topicInput := topicInput e;
     notesInput := v;
     quizInput := quizInput e;
     flashcardsInput := flashcardsInput e;
     summaryLength := summaryLength e;
     quizType := quizType e;
     quizDifficulty := quizDifficulty e;
     questionCount := questionCount e;
     explainOutput := explainOutput e;
     summaryOutput := summaryOutput e;
     quizOutput := quizOutput e;
     cardQuestion := cardQuestion e;
     cardAnswer := cardAnswer e;
     currentCard := currentCard e;
     totalCards := totalCards e;
     flashcard_flipped := flashcard_flipped e;
     settingsModal_active := settingsModal_active e;
     modelSelect := modelSelect e;
     apiUrlField := apiUrlField e;
     statusDot := statusDot e;
     statusText := statusText e;
     loadingStatus := loadingStatus e;
     loadingScreen_hidden := loadingScreen_hidden e;
     body_overflow := body_overflow e |}.

Definition set_quizInput (v : jsstring) (e : Elements) : Elements :=
  {| topicInput := topicInput e;
     notesInput := notesInput e;
     quizInput := v;
     flashcardsInput := flashcardsInput e;
     summaryLength := summaryLength e;
     quizType := quizType e;
     quizDifficulty := quizDifficulty e;
     questionCount := questionCount e;
     explainOutput := explainOutput e;
     summaryOutput := summaryOutput e;
     quizOutput := quizOutput e;
     cardQuestion := cardQuestion e;
     cardAnswer := cardAnswer e;
     currentCard := currentCard e;
     totalCards := totalCards e;
     flashcard_flipped := flashcard_flipped e;
     settingsModal_active := settingsModal_active e;
     modelSelect := modelSelect e;
     apiUrlField := apiUrlField e;
     statusDot := statusDot e;
     statusText := statusText e;
     loadingStatus := loadingStatus e;
     loadingScreen_hidden := loadingScreen_hidden e;
     body_overflow := body_overflow e |}.

Definition set_flashcardsInput (v : jsstring) (e : Elements) : Elements :=
  {| topicInput := topicInput e;
     notesInput := notesInput e;
     quizInput := quizInput e;
     flashcardsInput := v;
     summaryLength := summaryLength e;
     quizType := quizType e;
     quizDifficulty := quizDifficulty e;
     questionCount := questionCount e;
     explainOutput := explainOutput e;
     summaryOutput := summaryOutput e;
     quizOutput := quizOutput e;
     cardQuestion := cardQuestion e;
     cardAnswer := cardAnswer e;
     currentCard := currentCard e;
     totalCards := totalCards e;
     flashcard_flipped := flashcard_flipped e;
     settingsModal_active := settingsModal_active e;
     modelSelect := modelSelect e;
     apiUrlField := apiUrlField e;
     statusDot := statusDot e;
     statusText := statusText e;
     loadingStatus := loadingStatus e;
     loadingScreen_hidden := loadingScreen_hidden e;
     body_overflow := body_overflow e |}.

Definition set_explainOutput (p : panel) (e : Elements) : Elements :=
  {| topicInput := topicInput e;
     notesInput := notesInput e;
     quizInput := quizInput e;
     flashcardsInput := flashcardsInput e;
     summaryLength := summaryLength e;
     quizType := quizType e;
     quizDifficulty := quizDifficulty e;
     questionCount := questionCount e;
     explainOutput := p;
     summaryOutput := summaryOutput e;
     quizOutput := quizOutput e;
     cardQuestion := cardQuestion e;
     cardAnswer := cardAnswer e;
     currentCard := currentCard e;
     totalCards := totalCards e;
     flashcard_flipped := flashcard_flipped e;
     settingsModal_active := settingsModal_active e;
     modelSelect := modelSelect e;
     apiUrlField := apiUrlField e;
     statusDot := statusDot e;
     statusText := statusText e;
     loadingStatus := loadingStatus e;
     loadingScreen_hidden := loadingScreen_hidden e;
     body_overflow := body_overflow e |}.

Definition set_summaryOutput (p : panel) (e : Elements) : Elements :=
  {| topicInput := topicInput e;
     notesInput := notesInput e;
     quizInput := quizInput e;
     flashcardsInput := flashcardsInput e;
     summaryLength := summaryLength e;
     quizType := quizType e;
     quizDifficulty := quizDifficulty e;
     questionCount := questionCount e;
     explainOutput := explainOutput e;
     summaryOutput := p;
     quizOutput := quizOutput e;
     cardQuestion := cardQuestion e;
     cardAnswer := cardAnswer e;
     currentCard := currentCard e;
     totalCards := totalCards e;
     flashcard_flipped := flashcard_flipped e;
     settingsModal_active := settingsModal_active e;
     modelSelect := modelSelect e;
     apiUrlField := apiUrlField e;
     statusDot := statusDot e;
     statusText := statusText e;
     loadingStatus := loadingStatus e;
     loadingScreen_hidden := loadingScreen_hidden e;
     body_overflow := body_overflow e |}.

Definition set_quizOutput (p : panel) (e : Elements) : Elements :=
  {| topicInput := topicInput e;
     notesInput := notesInput e;
     quizInput := quizInput e;
     flashcardsInput := flashcardsInput e;
     summaryLength := summaryLength e;
     quizType := quizType e;
     quizDifficulty := quizDifficulty e;
     questionCount := questionCount e;
     explainOutput := explainOutput e;
     summaryOutput := summaryOutput e;
     quizOutput := p;
     cardQuestion := cardQuestion e;
     cardAnswer := cardAnswer e;
     currentCard := currentCard e;
     totalCards := totalCards e;
     flashcard_flipped := flashcard_flipped e;
     settingsModal_active := settingsModal_active e;
     modelSelect := modelSelect e;
     apiUrlField := apiUrlField e;
     statusDot := statusDot e;
     statusText := statusText e;
     loadingStatus := loadingStatus e;
     loadingScreen_hidden := loadingScreen_hidden e;
     body_overflow := body_overflow e |}.

Definition set_settingsModal_active (b : bool) (e : Elements) : Elements :=
  {| topicInput := topicInput e;
     notesInput := notesInput e;
     quizInput := quizInput e;
     flashcardsInput := flashcardsInput e;
     summaryLength := summaryLength e;
     quizType := quizType e;
     quizDifficulty := quizDifficulty e;
     questionCount := questionCount e;
     explainOutput := explainOutput e;
     summaryOutput := summaryOutput e;
     quizOutput := quizOutput e;
     cardQuestion := cardQuestion e;
     cardAnswer := cardAnswer e;
     currentCard := currentCard e;
     totalCards := totalCards e;
     flashcard_flipped := flashcard_flipped e;
     settingsModal_active := b;
     modelSelect := modelSelect e;
     apiUrlField := apiUrlField e;
     statusDot := statusDot e;
     statusText := statusText e;
     loadingStatus := loadingStatus e;
     loadingScreen_hidden := loadingScreen_hidden e;
     body_overflow := body_overflow e |}.

Definition set_settings_fields (m a : jsstring) (e : Elements) : Elements :=
  {| topicInput := topicInput e;
     notesInput := notesInput e;
     quizInput := quizInput e;
     flashcardsInput := flashcardsInput e;
     summaryLength := summaryLength e;
     quizType := quizType e;
     quizDifficulty := quizDifficulty e;
     questionCount := questionCount e;
     explainOutput := explainOutput e;
     summaryOutput := summaryOutput e;
     quizOutput := quizOutput e;
     cardQuestion := cardQuestion e;
     cardAnswer := cardAnswer e;
     currentCard := currentCard e;
     totalCards := totalCards e;
     flashcard_flipped := flashcard_flipped e;
     settingsModal_active := settingsModal_active e;
     modelSelect := m;
     apiUrlField := a;
     statusDot := statusDot e;
     statusText := statusText e;
     loadingStatus := loadingStatus e;
     loadingScreen_hidden := loadingScreen_hidden e;
     body_overflow := body_overflow e |}.

Definition set_status (dot : list jsstring) (text : jsstring) (e : Elements) : Elements :=
  {| topicInput := topicInput e;
     notesInput := notesInput e;
     quizInput := quizInput e;
     flashcardsInput := flashcardsInput e;
     summaryLength := summaryLength e;
     quizType := quizType e;
     quizDifficulty := quizDifficulty e;
     questionCount := questionCount e;
     explainOutput := explainOutput e;
     summaryOutput := summaryOutput e;
     quizOutput := quizOutput e;
     cardQuestion := cardQuestion e;
     cardAnswer := cardAnswer e;
     currentCard := currentCard e;
     totalCards := totalCards e;
     flashcard_flipped := flashcard_flipped e;
     settingsModal_active := settingsModal_active e;
     modelSelect := modelSelect e;
     apiUrlField := apiUrlField e;
     statusDot := dot;
     statusText := text;
     loadingStatus := loadingStatus e;
     loadingScreen_hidden := loadingScreen_hidden e;
     body_overflow := body_overflow e |}.

Definition set_loadingStatus (l : status_line) (e : Elements) : Elements :=
  {| topicInput := topicInput e;
     notesInput := notesInput e;
     quizInput := quizInput e;
     flashcardsInput := flashcardsInput e;
     summaryLength := summaryLength e;
     quizType := quizType e;
     quizDifficulty := quizDifficulty e;
     questionCount := questionCount e;
     explainOutput := explainOutput e;
     summaryOutput := summaryOutput e;
     quizOutput := quizOutput e;
     cardQuestion := cardQuestion e;
     cardAnswer := cardAnswer e;
     currentCard := currentCard e;
     totalCards := totalCards e;
     flashcard_flipped := flashcard_flipped e;
     settingsModal_active := settingsModal_active e;
     modelSelect := modelSelect e;
     apiUrlField := apiUrlField e;
     statusDot := statusDot e;
     statusText := statusText e;
     loadingStatus := l;
     loadingScreen_hidden := loadingScreen_hidden e;
     body_overflow := body_overflow e |}.

Definition set_revealed  (e : Elements) : Elements :=
  {| topicInput := topicInput e;
     notesInput := notesInput e;
     quizInput := quizInput e;
     flashcardsInput := flashcardsInput e;
     summaryLength := summaryLength e;
     quizType := quizType e;
     quizDifficulty := quizDifficulty e;
     questionCount := questionCount e;
     explainOutput := explainOutput e;
     summaryOutput := summaryOutput e;
     quizOutput := quizOutput e;
     cardQuestion := cardQuestion e;
     cardAnswer := cardAnswer e;
     currentCard := currentCard e;
     totalCards := totalCards e;
     flashcard_flipped := flashcard_flipped e;
     settingsModal_active := settingsModal_active e;
     modelSelect := modelSelect e;
     apiUrlField := apiUrlField e;
     statusDot := statusDot e;
     statusText := statusText e;
     loadingStatus := loadingStatus e;
     loadingScreen_hidden := true;
     body_overflow := lit "auto" |}.

(** *** Sequencing of completions *)

Definition andThen (c : completion) (k : World -> completion) : completion :=
  match c with
  | Normal w => k w
  | Throws w => Throws w
  end.

(** ** Notification service *)

Definition showNotification (msg : jsstring) (t : kind) (w : World) : World :=
  {| state := state w; elements := elements w;
     notifications := notifications w ++ [mkNotification msg t];
     localStorage := localStorage w;
     requests := requests w; timers := timers w; console := console w |}.

(** ** Flashcard deck *)

(** [deck[i]] for a JavaScript number [i] that is an integer: [undefined]
    (here [None]) outside [0 .. length-1]. *)
Definition item {A} (l : list A) (i : Z) : option A :=
  if i <? 0 then None else l !! Z.to_nat i.

Definition len {A} (l : list A) : Z := Z.of_nat (length l).

Definition updateFlashcardDisplay (w : World) : completion :=
  let s := state w in
  if len (flashcards s) =? 0 then
    Normal (with_elements
      (set_card_display (lit "<p>Generate or load flashcards to begin.</p>")
                        (lit "<p>Flip to see answer.</p>")
                        (lit "0") (lit "0") false) w)
  else
    match item (flashcards s) (currentFlashcardIndex s) with
    | None => Throws w          (* card is undefined: card.question throws *)
    | Some card =>
        Normal (with_elements
          (set_card_display (lit "<p>" ++ question card ++ lit "</p>")
                            (lit "<p>" ++ answer card ++ lit "</p>")
                            (num (currentFlashcardIndex s + 1))
                            (num (len (flashcards s)))
                            (isFlashcardFlipped s)) w)
    end.

Definition navigateFlashcard (direction : Z) (w : World) : completion :=
  let n := len (flashcards (state w)) in
  if n =? 0 then Normal w
  else
    let newIndex := currentFlashcardIndex (state w) + direction in
    let newIndex := if newIndex <? 0 then n - 1 else newIndex in
    let newIndex := if newIndex >=? n then 0 else newIndex in
    updateFlashcardDisplay
      (with_state (set_isFlashcardFlipped false)
        (with_state (set_currentFlashcardIndex newIndex) w)).

Definition flipFlashcard (w : World) : completion :=
  updateFlashcardDisplay
    (with_state (fun s => set_isFlashcardFlipped (negb (isFlashcardFlipped s)) s) w).

(** [[a[i], a[j]] = [a[j], a[i]]] on an array whose slots [i] and [j]
    exist.  The shuffle only calls it with [j <= i < length]
    (see [random_index_ok]); indices outside the array, which in
    JavaScript would read [undefined] and grow the array, leave the list
    as it is here and are never used. *)
Definition swap {A} (a : list A) (i j : nat) : list A :=
  match a !! i, a !! j with
  | Some x, Some y => <[j:=x]> (<[i:=y]> a)
  | _, _ => a
  end.

(** The random source.  [random_index i] is the value of
    [Math.floor(Math.random() * (i + 1))] at the iteration with loop
    counter [i]; each counter value occurs once per shuffle, so one such
    function describes the whole sequence of draws.  [Math.random()] lies
    in [0, 1), hence the draw lies in [0 .. i]. *)
Definition random_index_ok (random_index : nat -> nat) : Prop :=
  forall i, (random_index i <= i)%nat.

(** [for (let i = length - 1; i > 0; i--) { j = ...; swap }] *)
Fixpoint shuffle_loop {A} (random_index : nat -> nat) (i : nat) (a : list A) : list A :=
  match i with
  | O => a
  | S i' => shuffle_loop random_index i' (swap a i (random_index i))
  end.

Definition shuffleFlashcards (random_index : nat -> nat) (w : World) : completion :=
  let d := flashcards (state w) in
  if len d =? 0 then Normal w
  else
    let w := with_state (set_flashcards
                 (shuffle_loop random_index (length d - 1) d)) w in
    let w := with_state (set_currentFlashcardIndex 0) w in
    let w := with_state (set_isFlashcardFlipped false) w in
    andThen (updateFlashcardDisplay w) (fun w =>
    Normal (showNotification (lit "Flashcards shuffled!") success w)).

Definition markFlashcardDifficulty (difficulty : jsstring) (w : World) : World :=
  if len (flashcards (state w)) =? 0 then w
  else showNotification (lit "Marked as " ++ difficulty) success w.

(** [op] called [n] times in a row; an uncaught exception ends the run. *)
Fixpoint times (n : nat) (op : World -> completion) (w : World) : completion :=
  match n with
  | O => Normal w
  | S n' => andThen (op w) (times n' op)
  end.

(** ** JSON text

    [JSON.stringify] on the values the application serialises, and
    [JSON.parse] on arbitrary text. *)

Module JSON.

(** *** Serialisation (QuoteJSONString and SerializeJSONArray/Object) *)

Definition hex_digit (d : N) : N :=
  (if d <? 10 then 48 + d else 87 + d)%N.

(** [\uXXXX] with lower-case digits. *)
Definition unicode_escape (c : N) : jsstring :=
  [92; 117; hex_digit (c / 4096 mod 16); hex_digit (c / 256 mod 16);
   hex_digit (c / 16 mod 16); hex_digit (c mod 16)]%N.

Definition is_leading_surrogate (c : N) : bool := ((55296 <=? c) && (c <=? 56319))%N.
Definition is_trailing_surrogate (c : N) : bool := ((56320 <=? c) && (c <=? 57343))%N.

(** One code point that is a single code unit and not the first half of a
    pair. *)
Definition quote_unit (c : N) : jsstring :=
  (if c =? 8 then [92; 98]            (* \b *)
   else if c =? 9 then [92; 116]      (* \t *)
   else if c =? 10 then [92; 110]     (* \n *)
   else if c =? 12 then [92; 102]     (* \f *)
   else if c =? 13 then [92; 114]     (* \r *)
   else if c =? 34 then [92; 34]      (* backslash, double quote *)
   else if c =? 92 then [92; 92]      (* backslash, backslash *)
   else if (c <? 32) || is_trailing_surrogate c then unicode_escape c
   else [c])%N.

(** The string is read by code points: a leading surrogate followed by a
    trailing one is one code point and is copied; a surrogate on its own
    is escaped. *)
Fixpoint quote_units (s : jsstring) : jsstring :=
  match s with
  | [] => []
  | c :: rest =>
      if is_leading_surrogate c then
        match rest with
        | d :: rest' =>
            if is_trailing_surrogate d then c :: d :: quote_units rest'
            else unicode_escape c ++ quote_units rest
        | [] => unicode_escape c
        end
      else quote_unit c ++ quote_units rest
  end.

Definition quote (s : jsstring) : jsstring :=
  [34%N] ++ quote_units s ++ [34%N].

(** A property value of a card. *)
Definition stringify_scalar (v : scalar) : jsstring :=
  match v with
  | SNull => lit "null"
  | SBool true => lit "true"
  | SBool false => lit "false"
  | SStr s => quote s
  end.

Definition stringify_property (p : jsstring * scalar) : jsstring :=
  quote (fst p) ++ lit ":" ++ stringify_scalar (snd p).

(** The parts, separated by commas. *)
Fixpoint join (parts : list jsstring) : jsstring :=
  match parts with
  | [] => []
  | [p] => p
  | p :: parts' => p ++ lit "," ++ join parts'
  end.

(** A card is written with all its own properties, in their order. *)
Definition stringify_card (c : Flashcard) : jsstring :=
  lit "{" ++ join (map stringify_property (properties c)) ++ lit "}".

(** [JSON.stringify(this.state.flashcards)] *)
Definition stringify_deck (d : list Flashcard) : jsstring :=
  lit "[" ++ join (map stringify_card d) ++ lit "]".

(** [JSON.stringify({theme, model, apiUrl})] *)
Definition stringify_settings (t m a : jsstring) : jsstring :=
  lit "{" ++ quote (lit "theme") ++ lit ":" ++ quote t ++
  lit "," ++ quote (lit "model") ++ lit ":" ++ quote m ++
  lit "," ++ quote (lit "apiUrl") ++ lit ":" ++ quote a ++ lit "}".

(** *** Lexical analysis

    One transition per code unit. *)

Inductive token :=
| TLBrace | TRBrace | TLBracket | TRBracket | TColon | TComma
| TString (s : jsstring)
| TNumber (lexeme : jsstring)
| TTrue | TFalse | TNull.

Inductive numstate :=
| NMinus       (* after the sign: a digit must follow *)
| NZero        (* integer part is the single digit 0 *)
| NInt         (* integer part, first digit 1-9 *)
| NDot         (* after the point: a digit must follow *)
| NFrac        (* fraction digits *)
| NExp         (* after e or E: a sign or a digit must follow *)
| NExpSign     (* after the exponent sign: a digit must follow *)
| NExpDigits.  (* exponent digits *)

Inductive lexstate :=
| LStart
| LString (rev_units : jsstring)
| LEscape (rev_units : jsstring)
| LUnicode (rev_units : jsstring) (seen : nat) (value : N)
| LNumber (ns : numstate) (rev_lexeme : jsstring)
| LLiteral (expected : jsstring) (tok : token).

Definition is_json_space (c : N) : bool :=
  ((c =? 9) || (c =? 10) || (c =? 13) || (c =? 32))%N.

Definition is_digit (c : N) : bool := ((48 <=? c) && (c <=? 57))%N.

Definition hex_value (c : N) : option N :=
  (if (48 <=? c) && (c <=? 57) then Some (c - 48)
   else if (97 <=? c) && (c <=? 102) then Some (c - 87)
   else if (65 <=? c) && (c <=? 70) then Some (c - 55)
   else None)%N.

(** A code unit met between tokens. *)
Definition lex_start (c : N) (toks : list token) : option (lexstate * list token) :=
  (if is_json_space c then Some (LStart, toks)
   else if c =? 123 then Some (LStart, TLBrace :: toks)
   else if c =? 125 then Some (LStart, TRBrace :: toks)
   else if c =? 91 then Some (LStart, TLBracket :: toks)
   else if c =? 93 then Some (LStart, TRBracket :: toks)
   else if c =? 58 then Some (LStart, TColon :: toks)
   else if c =? 44 then Some (LStart, TComma :: toks)
   else if c =? 34 then Some (LString [], toks)
   else if c =? 45 then Some (LNumber NMinus [c], toks)
   else if c =? 48 then Some (LNumber NZero [c], toks)
   else if is_digit c then Some (LNumber NInt [c], toks)
   else if c =? 116 then Some (LLiteral (lit "rue") TTrue, toks)
   else if c =? 102 then Some (LLiteral (lit "alse") TFalse, toks)
   else if c =? 110 then Some (LLiteral (lit "ull") TNull, toks)
   else None)%N.

Definition is_exp_mark (c : N) : bool := ((c =? 101) || (c =? 69))%N.

(** [Some (Some ns')]: the unit continues the number; [Some None]: the
    number ends before the unit; [None]: the number is malformed. *)
Definition num_step (ns : numstate) (c : N) : option (option numstate) :=
  match ns with
  | NMinus => if (c =? 48)%N then Some (Some NZero)
              else if is_digit c then Some (Some NInt) else None
  | NZero => if (c =? 46)%N then Some (Some NDot)
             else if is_exp_mark c then Some (Some NExp) else Some None
  | NInt => if is_digit c then Some (Some NInt)
            else if (c =? 46)%N then Some (Some NDot)
            else if is_exp_mark c then Some (Some NExp) else Some None
  | NDot => if is_digit c then Some (Some NFrac) else None
  | NFrac => if is_digit c then Some (Some NFrac)
             else if is_exp_mark c then Some (Some NExp) else Some None
  | NExp => if ((c =? 43) || (c =? 45))%N then Some (Some NExpSign)
            else if is_digit c then Some (Some NExpDigits) else None
  | NExpSign => if is_digit c then Some (Some NExpDigits) else None
  | NExpDigits => if is_digit c then Some (Some NExpDigits) else Some None
  end.

Definition num_complete (ns : numstate) : bool :=
  match ns with
  | NZero | NInt | NFrac | NExpDigits => true
  | NMinus | NDot | NExp | NExpSign => false
  end.

Definition unescape (c : N) : option N :=
  (if c =? 34 then Some 34          (* double quote *)
   else if c =? 92 then Some 92     (* backslash *)
   else if c =? 47 then Some 47     (* solidus *)
   else if c =? 98 then Some 8      (* \b *)
   else if c =? 102 then Some 12    (* \f *)
   else if c =? 110 then Some 10    (* \n *)
   else if c =? 114 then Some 13    (* \r *)
   else if c =? 116 then Some 9     (* \t *)
   else None)%N.

Definition lex_step (st : lexstate) (toks : list token) (c : N)
  : option (lexstate * list token) :=
  match st with
  | LStart => lex_start c toks
  | LString acc =>
      (if c =? 34 then Some (LStart, TString (rev acc) :: toks)
       else if c =? 92 then Some (LEscape acc, toks)
       else if c <? 32 then None
       else Some (LString (c :: acc), toks))%N
  | LEscape acc =>
      if (c =? 117)%N then Some (LUnicode acc 0 0%N, toks)
      else match unescape c with
           | Some u => Some (LString (u :: acc), toks)
           | None => None
           end
  | LUnicode acc seen v =>
      match hex_value c with
      | Some h =>
          let v' := (16 * v + h)%N in
          if (seen =? 3)%nat then Some (LString (v' :: acc), toks)
          else Some (LUnicode acc (S seen) v', toks)
      | None => None
      end
  | LNumber ns lx =>
      match num_step ns c with
      | Some (Some ns') => Some (LNumber ns' (c :: lx), toks)
      | Some None => lex_start c (TNumber (rev lx) :: toks)
      | None => None
      end
  | LLiteral expected tok =>
      match expected with
      | e :: expected' =>
          if (c =? e)%N then
            match expected' with
            | [] => Some (LStart, tok :: toks)
            | _ :: _ => Some (LLiteral expected' tok, toks)
            end
          else None
      | [] => None
      end
  end.

(** At the end of the text. *)
Definition lex_end (st : lexstate) (toks : list token) : option (list token) :=
  match st with
  | LStart => Some (rev toks)
  | LNumber ns lx =>
      if num_complete ns then Some (rev (TNumber (rev lx) :: toks)) else None
  | _ => None
  end.

Fixpoint lex_run (st : lexstate) (toks : list token) (text : jsstring)
  : option (list token) :=
  match text with
  | [] => lex_end st toks
  | c :: text' =>
      match lex_step st toks c with
      | Some (st', toks') => lex_run st' toks' text'
      | None => None
      end
  end.

Definition lex (text : jsstring) : option (list token) := lex_run LStart [] text.

(** *** Syntactic analysis

    A pushdown automaton over the tokens: a frame per open array or
    object. *)

Inductive frame :=
| FArr (rev_elems : list json)
| FObj (rev_members : list (jsstring * json)) (key : jsstring).

Inductive pstate :=
| PValue (stk : list frame)
    (* a value must come *)
| PArrOpen (stk : list frame)
    (* after [: a value or ] *)
| PObjOpen (stk : list frame)
    (* after {: a key or } *)
| PKey (rev_members : list (jsstring * json)) (stk : list frame)
    (* after a comma inside an object: a key must come *)
| PColon (rev_members : list (jsstring * json)) (key : jsstring) (stk : list frame)
    (* after a key: a colon must come *)
| PDone (v : json) (stk : list frame).
    (* a value is complete *)

Definition start_value (t : token) (stk : list frame) : option pstate :=
  match t with
  | TString s => Some (PDone (JStr s) stk)
  | TNumber lx => Some (PDone (JNum lx) stk)
  | TTrue => Some (PDone (JBool true) stk)
  | TFalse => Some (PDone (JBool false) stk)
  | TNull => Some (PDone JNull stk)
  | TLBracket => Some (PArrOpen stk)
  | TLBrace => Some (PObjOpen stk)
  | _ => None
  end.

Definition parse_step (st : pstate) (t : token) : option pstate :=
  match st with
  | PValue stk => start_value t stk
  | PArrOpen stk =>
      match t with
      | TRBracket => Some (PDone (JArr []) stk)
      | _ => start_value t (FArr [] :: stk)
      end
  | PObjOpen stk =>
      match t with
      | TRBrace => Some (PDone (JObj []) stk)
      | TString k => Some (PColon [] k stk)
      | _ => None
      end
  | PKey ms stk =>
      match t with
      | TString k => Some (PColon ms k stk)
      | _ => None
      end
  | PColon ms k stk =>
      match t with
      | TColon => Some (PValue (FObj ms k :: stk))
      | _ => None
      end
  | PDone v stk =>
      match stk with
      | [] => None
      | FArr acc :: stk' =>
          match t with
          | TComma => Some (PValue (FArr (v :: acc) :: stk'))
          | TRBracket => Some (PDone (JArr (rev (v :: acc))) stk')
          | _ => None
          end
      | FObj ms k :: stk' =>
          match t with
          | TComma => Some (PKey ((k, v) :: ms) stk')
          | TRBrace => Some (PDone (JObj (rev ((k, v) :: ms))) stk')
          | _ => None
          end
      end
  end.

Fixpoint parse_run (st : pstate) (toks : list token) : option json :=
  match toks with
  | [] => match st with
          | PDone v [] => Some v
          | _ => None
          end
  | t :: toks' =>
      match parse_step st t with
      | Some st' => parse_run st' toks'
      | None => None
      end
  end.

(** [JSON.parse(text)]: [None] stands for the [SyntaxError]. *)
Definition parse (text : jsstring) : option json :=
  match lex text with
  | Some toks => parse_run (PValue []) toks
  | None => None
  end.

End JSON.

(** ** Reading JSON values the way the code does *)

(** The value of [v.key] for a key that no built-in prototype defines
    (all keys the application reads are of this kind): [None] when the
    access throws ([v] is [null]), [Some None] for [undefined].  A repeated
    key of an object holds the value given last. *)
Fixpoint last_member (key : jsstring) (ms : list (jsstring * json)) : option json :=
  match ms with
  | [] => None
  | (k, v) :: ms' =>
      match last_member key ms' with
      | Some v' => Some v'
      | None => if decide (k = key) then Some v else None
      end
  end.

Definition get (v : json) (key : jsstring) : option (option json) :=
  match v with
  | JNull => None
  | JObj ms => Some (last_member key ms)
  | _ => Some None
  end.

(** Truthiness of a property value.  A number is falsy exactly when its
    IEEE-754 value is zero or NaN, which the model does not compute:
    [None]. *)
Definition truthy (v : option json) : option bool :=
  match v with
  | None | Some JNull => Some false
  | Some (JBool b) => Some b
  | Some (JStr s) => Some (negb (bool_decide (s = [])))
  | Some (JNum _) => None
  | Some (JArr _) | Some (JObj _) => Some true
  end.

(** ** Conversion to text

    [${v}] converts [v] to a string.  Primitive values always convert.
    An array is converted by joining the conversions of its elements
    ([null] elements give the empty string).  An object is converted by
    the method found under [toString]: the inherited one, unless the
    object has an own property of that name.  A parsed value is never
    callable, so with such a property the conversion goes on to
    [valueOf], which yields no primitive either (an own property is not
    callable, the inherited method returns the object itself), and ends
    in a [TypeError].  [converts v] tells whether the conversion
    returns. *)
Fixpoint converts (v : json) : bool :=
  match v with
  | JArr elems => forallb converts elems
  | JObj ms =>
      match last_member (lit "toString") ms with
      | Some _ => false
      | None => true
      end
  | _ => true
  end.

(** ** Parsed values as cards *)

Definition scalar_of_json (v : json) : option scalar :=
  match v with
  | JNull => Some SNull
  | JBool b => Some (SBool b)
  | JStr s => Some (SStr s)
  | _ => None
  end.

Definition own_property (m : jsstring * json) : option (jsstring * scalar) :=
  match scalar_of_json (snd m) with
  | Some v => Some (fst m, v)
  | None => None
  end.

(** A parsed value seen as a flashcard: an object that [is_card] admits. *)
Definition card_of_json (v : json) : option Flashcard :=
  match v with
  | JObj ms =>
      match mapM own_property ms with
      | Some ps =>
          match decide (Is_true (is_card ps)) with
          | left H => Some (mkCard ps H)
          | right _ => None
          end
      | None => None
      end
  | _ => None
  end.

(** A parsed value seen as a deck: an array of flashcards. *)
Definition deck_of_json (v : json) : option (list Flashcard) :=
  match v with
  | JArr vs => mapM card_of_json vs
  | _ => None
  end.

(** ** World updates used by the methods *)

Definition log_console (label : jsstring) (w : World) : World :=
  {| state := state w; elements := elements w;
     notifications := notifications w; localStorage := localStorage w;
     requests := requests w; timers := timers w;
     console := console w ++ [label] |}.

Definition issue (r : Request) (w : World) : World :=
  {| state := state w; elements := elements w;
     notifications := notifications w; localStorage := localStorage w;
     requests := requests w ++ [r]; timers := timers w;
     console := console w |}.

Definition setTimeout (cb : timer) (delay : Z) (w : World) : World :=
  {| state := state w; elements := elements w;
     notifications := notifications w; localStorage := localStorage w;
     requests := requests w; timers := timers w ++ [(delay, cb)];
     console := console w |}.

Definition store (key value : jsstring) (w : World) : World :=
  {| state := state w; elements := elements w;
     notifications := notifications w;
     localStorage := <[key := value]> (localStorage w);
     requests := requests w; timers := timers w;
     console := console w |}.

(** Whether one access to [localStorage] goes through or throws (storage
    disabled, quota exceeded). *)
Inductive storage_io := StorageOk | StorageThrows.

(** Methods that read JSON can meet values outside the typed data model
    (a deck that is not an array of cards, a setting
    that is not a string, a number whose truthiness is asked): the model
    stops there with [OutsideModel]. *)
Inductive outcome :=
| InModel (c : completion)
| OutsideModel.

(** [try { body } catch (error) { handler }] around a body that is already
    evaluated to a completion. *)
Definition try_catch (body : completion) (handler : World -> World) : completion :=
  match body with
  | Normal w => Normal w
  | Throws w => Normal (handler w)
  end.

Definition try_catch_outcome (body : outcome) (handler : World -> World) : outcome :=
  match body with
  | InModel c => InModel (try_catch c handler)
  | OutsideModel => OutsideModel
  end.

(** ** Utilities *)

Definition showLoading (set_region : panel -> Elements -> Elements)
    (msg : jsstring) (w : World) : World :=
  with_elements (set_region (LoadingState msg)) w.

Definition showError (set_region : panel -> Elements -> Elements)
    (msg : jsstring) (w : World) : World :=
  with_elements (set_region (ErrorState msg)) w.

(** ** Input limits *)

(** White space and line terminators removed by [String.prototype.trim]. *)
Definition is_trim_space (c : N) : bool :=
  ((c =? 9) || (c =? 10) || (c =? 11) || (c =? 12) || (c =? 13) || (c =? 32)
   || (c =? 160) || (c =? 5760) || ((8192 <=? c) && (c <=? 8202))
   || (c =? 8232) || (c =? 8233) || (c =? 8239) || (c =? 8287)
   || (c =? 12288) || (c =? 65279))%N.

Fixpoint trim_start (s : jsstring) : jsstring :=
  match s with
  | [] => []
  | c :: s' => if is_trim_space c then trim_start s' else s
  end.

Definition trim (s : jsstring) : jsstring :=
  rev (trim_start (rev (trim_start s))).

(** [s.substring(0, n)] for an integer [n >= 0]. *)
Definition substring0 (n : Z) (s : jsstring) : jsstring := take (Z.to_nat n) s.

Inductive input_field := TopicInput | NotesInput | QuizInput | FlashcardsInput.

Definition value (f : input_field) (e : Elements) : jsstring :=
  match f with
  | TopicInput => topicInput e
  | NotesInput => notesInput e
  | QuizInput => quizInput e
  | FlashcardsInput => flashcardsInput e
  end.

Definition set_value (f : input_field) (v : jsstring) : Elements -> Elements :=
  match f with
  | TopicInput => set_topicInput v
  | NotesInput => set_notesInput v
  | QuizInput => set_quizInput v
  | FlashcardsInput => set_flashcardsInput v
  end.

(** The limit each field is registered with in [setupInputListeners] and
    tested against in its generation method. *)
Definition limit (f : input_field) : Z :=
  match f with
  | TopicInput => 500
  | NotesInput => 2000
  | QuizInput => 1000
  | FlashcardsInput => 800
  end.

(** The [input] event listener. *)
Definition validateInput (f : input_field) (max : Z) (w : World) : World :=
  if len (value f (elements w)) >? max then
    showNotification
      (lit "Limited to " ++ num max ++ lit " characters for Phi-3 optimization")
      warning
      (with_elements (set_value f (substring0 max (value f (elements w)))) w)
  else w.

(** ** Generation calls

    Each method runs up to its [await fetch(...)] ([_submit]) and, when the
    promise settles, from there to its end ([_receive]). *)

Inductive submission :=
| Returned (w : World)    (* the method returned without calling fetch *)
| Awaiting (w : World).   (* fetch was called (the request is the last one
                             of [requests w]) and the method is suspended *)

(** Evaluation of a template fragment: [Some true] it evaluates,
    [Some false] it throws, [None] it cannot be decided in the model. *)
Definition evaluation := option bool.

Definition and_then (a b : evaluation) : evaluation :=
  match a with
  | Some true => b
  | _ => a
  end.

Fixpoint all_evaluate (check : json -> evaluation) (vs : list json) : evaluation :=
  match vs with
  | [] => Some true
  | v :: vs' => and_then (check v) (all_evaluate check vs')
  end.

(** [v.map(item => ...)], where only arrays have a [map] method. *)
Definition map_call (check : json -> evaluation) (v : option json) : evaluation :=
  match v with
  | Some (JArr vs) => all_evaluate check vs
  | _ => Some false
  end.

(** [${e}] for a property access [e]: [None] when the access itself
    throws, [Some None] for [undefined]. *)
Definition interpolate (v : option (option json)) : evaluation :=
  match v with
  | None => Some false
  | Some None => Some true
  | Some (Some v) => Some (converts v)
  end.

(** [${v.length}]: a number for a string or an array, [undefined] for a
    boolean or a number, the member of that name for an object. *)
Definition interpolate_length (v : option json) : evaluation :=
  match v with
  | None | Some JNull => Some false
  | Some (JObj ms) => interpolate (Some (last_member (lit "length") ms))
  | Some _ => Some true
  end.

(** [${e || 'text'}] and [${e ? `... ${e} ...` : ''}]: [e] is converted
    only when it is truthy.  A number converts whether or not it is
    zero. *)
Definition interpolate_truthy (v : option (option json)) : evaluation :=
  match v with
  | None => Some false
  | Some v =>
      match truthy v with
      | Some false => Some true
      | _ => interpolate (Some v)
      end
  end.

(** [`<li>${item}</li>`] *)
Definition list_item (v : json) : evaluation := Some (converts v).

(** *** Concept explainer *)

Definition generateExplanation_submit (w : World) : submission :=
  let topic := trim (topicInput (elements w)) in
  if bool_decide (topic = []) then
    Returned (showNotification (lit "Please enter a topic to explain") warning w)
  else if len topic >? 500 then
    let w := showNotification
               (lit "Topic too long. Limited to 500 chars for Phi-3.") warning w in
    Returned (with_elements (set_topicInput (substring0 500 topic)) w)
  else
    let w := showLoading set_explainOutput (lit "Generating with Phi-3 Mini...") w in
    Awaiting (issue (POST (backendUrl (state w) ++ lit "/explain")
                          (ExplainBody topic (currentDifficulty (state w))
                                       (model (state w)))) w).

(** [renderExplanation].  The template is evaluated from left to right
    and in full before it is assigned to [innerHTML], so a throw leaves
    the region as it was. *)
Definition renderExplanation (data : json) (w : World) : completion :=
  match
    and_then (interpolate (get data (lit "topic")))
   (and_then (interpolate (get data (lit "difficulty")))
   (and_then (interpolate (get data (lit "simple_explanation")))
   (and_then (map_call list_item (default None (get data (lit "steps"))))
   (and_then (interpolate (get data (lit "analogy")))
             (map_call list_item (default None (get data (lit "key_points"))))))))
  with
  | Some true => Normal (with_elements (set_explainOutput (Explanation data)) w)
  | _ => Throws w
  end.

Definition failed_explanation : jsstring :=
  lit "<h4>Failed to generate explanation</h4><p>Try:</p><ul><li>Shorter topic (under 500 chars)</li><li>Check backend is running</li><li>Ensure Ollama is running</li></ul>".

Definition generateExplanation_receive (resp : fetch_result) (w : World) : completion :=
  try_catch
    match resp with
    | NetworkError => Throws w
    | Response status body =>
        if negb (response_ok status) then Throws w
        else match body with
             | None => Throws w
             | Some data =>
                 andThen (renderExplanation data w) (fun w =>
                 Normal (showNotification
                           (lit "Explanation generated with Phi-3!") success w))
             end
    end
    (fun w =>
       let w := log_console (lit "Error:") w in
       let w := showError set_explainOutput failed_explanation w in
       showNotification (lit "Generation failed. Check console.") error w).

Definition generateExplanation (resp : fetch_result) (w : World) : completion :=
  match generateExplanation_submit w with
  | Returned w' => Normal w'
  | Awaiting w' => generateExplanation_receive resp w'
  end.

(** *** Notes summariser *)

Definition summarizeNotes_submit (w : World) : submission :=
  let notes := trim (notesInput (elements w)) in
  if bool_decide (notes = []) then
    Returned (showNotification (lit "Please enter notes to summarize") warning w)
  else if len notes >? 2000 then
    let w := showNotification (lit "Notes too long. Limited to 2000 chars.") info w in
    Returned (with_elements (set_notesInput (substring0 2000 notes)) w)
  else
    let w := showLoading set_summaryOutput (lit "Summarizing with Phi-3...") w in
    Awaiting (issue (POST (backendUrl (state w) ++ lit "/summarize")
                          (SummarizeBody notes (summaryLength (elements w))
                                         (model (state w)))) w).

(** [${v.length ? `... ${v.map(item => ...)} ...` : ''}] *)
Definition optional_list (check : json -> evaluation) (v : option json) : evaluation :=
  match v with
  | None | Some JNull => Some false                (* .length of undefined or null *)
  | Some (JArr vs) => all_evaluate check vs
  | Some (JStr s) => Some (bool_decide (s = []))   (* a non-empty string has no map *)
  | Some (JNum _) | Some (JBool _) => Some true    (* .length is undefined *)
  | Some (JObj ms) =>
      match truthy (last_member (lit "length") ms) with
      | None => None
      | Some true => Some false                    (* an object has no map *)
      | Some false => Some true
      end
  end.

(** [`<li><strong>${def.term}:</strong> ${def.definition}</li>`] *)
Definition definition_item (def : json) : evaluation :=
  and_then (interpolate (get def (lit "term")))
           (interpolate (get def (lit "definition"))).

(** [renderSummary]: [${data.length}], [${data.summary}], then the three
    optional lists. *)
Definition renderSummary (data : json) (w : World) : outcome :=
  match
    and_then (interpolate_length (Some data))
   (and_then (interpolate (get data (lit "summary")))
   (and_then (optional_list list_item (default None (get data (lit "key_points"))))
   (and_then (optional_list definition_item
                (default None (get data (lit "definitions"))))
             (optional_list list_item (default None (get data (lit "exam_tips")))))))
  with
  | Some true => InModel (Normal (with_elements (set_summaryOutput (Summary data)) w))
  | Some false => InModel (Throws w)
  | None => OutsideModel
  end.

Definition summarizeNotes_receive (resp : fetch_result) (w : World) : outcome :=
  try_catch_outcome
    match resp with
    | NetworkError => InModel (Throws w)
    | Response status body =>
        if negb (response_ok status) then InModel (Throws w)
        else match body with
             | None => InModel (Throws w)
             | Some data =>
                 match renderSummary data w with
                 | InModel c =>
                     InModel (andThen c (fun w =>
                       Normal (showNotification (lit "Notes summarized!") success w)))
                 | OutsideModel => OutsideModel
                 end
             end
    end
    (fun w =>
       let w := log_console (lit "Error:") w in
       let w := showError set_summaryOutput
                  (lit "Failed to summarize. Try shorter notes.") w in
       showNotification (lit "Summary failed") error w).

Definition summarizeNotes (resp : fetch_result) (w : World) : outcome :=
  match summarizeNotes_submit w with
  | Returned w' => InModel (Normal w')
  | Awaiting w' => summarizeNotes_receive resp w'
  end.

(** *** Quiz generator *)

Definition generateQuiz_submit (w : World) : submission :=
  let content := trim (quizInput (elements w)) in
  if bool_decide (content = []) then
    Returned (showNotification (lit "Please enter content for quiz") warning w)
  else if len content >? 1000 then
    let w := showNotification (lit "Content too long. Limited to 1000 chars.") info w in
    Returned (with_elements (set_quizInput (substring0 1000 content)) w)
  else
    let w := showLoading set_quizOutput (lit "Creating quiz with Phi-3...") w in
    Awaiting (issue (POST (backendUrl (state w) ++ lit "/quiz")
                          (QuizBody content (quizType (elements w))
                                    (quizDifficulty (elements w))
                                    (questionCount (elements w))
                                    (model (state w)))) w).

(** One item of [questions.map((q, i) => ...)], in the order of the
    template: [${q.type || 'question'}], [${q.question}], the options when
    [q.options] is truthy, [${q.answer}], and the explanation when
    [q.explanation] is truthy. *)
Definition question_item (q : json) : evaluation :=
  and_then (interpolate_truthy (get q (lit "type")))
 (and_then (interpolate (get q (lit "question")))
 (and_then
    match get q (lit "options") with
    | None => Some false
    | Some options =>
        match truthy options with
        | None => None
        | Some false => Some true
        | Some true => map_call list_item options
        end
    end
 (and_then (interpolate (get q (lit "answer")))
           (interpolate_truthy (get q (lit "explanation")))))).

(** [renderQuiz].  The template is evaluated from left to right and in
    full before it is assigned to [innerHTML], so a throw leaves the
    region as it was. *)
Definition renderQuiz (data : json) (w : World) : outcome :=
  match get data (lit "questions") with
  | None => InModel (Throws w)
  | Some qs =>
      let difficulty := default None (get data (lit "difficulty")) in
      let shown (count : Z) (body : quiz_body) :=
        InModel (Normal (with_elements
                   (set_quizOutput (Quiz count difficulty body)) w)) in
      (* the header: ${questions.length} for data.questions || [], then
         ${data.difficulty} *)
      match and_then (match truthy qs with
                      | Some false => Some true
                      | _ => interpolate_length qs
                      end)
                     (interpolate (get data (lit "difficulty")))
      with
      | Some true =>
          match truthy qs with
          | None => OutsideModel
          | Some false => shown 0 NoQuestions            (* data.questions || [] *)
          | Some true =>
              match qs with
              | Some (JArr questions) =>
                  if len questions =? 0 then shown 0 NoQuestions
                  else match all_evaluate question_item questions with
                       | Some true => shown (len questions) (Questions questions)
                       | Some false => InModel (Throws w)
                       | None => OutsideModel
                       end
              | Some (JObj ms) =>
                  (* questions.length === 0 asks whether a number is zero *)
                  match last_member (lit "length") ms with
                  | Some (JNum _) => OutsideModel
                  | _ => InModel (Throws w)              (* no map method *)
                  end
              | _ => InModel (Throws w)                  (* no map method *)
              end
          end
      | _ => InModel (Throws w)
      end
  end.

(** The text of [${data.questions.length}] in the closing notification:
    [Some None] when reading it throws, [None] for an object, whose
    member is not converted to text in the model. *)
Definition questions_length (data : json) : option (option jsstring) :=
  match get data (lit "questions") with
  | None | Some None | Some (Some JNull) => Some None
  | Some (Some (JArr questions)) => Some (Some (num (len questions)))
  | Some (Some (JStr s)) => Some (Some (num (len s)))
  | Some (Some (JBool _)) | Some (Some (JNum _)) => Some (Some (lit "undefined"))
  | Some (Some (JObj _)) => None
  end.

Definition generateQuiz_receive (resp : fetch_result) (w : World) : outcome :=
  try_catch_outcome
    match resp with
    | NetworkError => InModel (Throws w)
    | Response status body =>
        if negb (response_ok status) then InModel (Throws w)
        else match body with
             | None => InModel (Throws w)
             | Some data =>
                 match renderQuiz data w with
                 | InModel (Normal w) =>
                     match questions_length data with
                     | Some (Some n) =>
                         InModel (Normal
                           (showNotification
                              (lit "Quiz generated with " ++ n ++ lit " questions!")
                              success w))
                     | Some None => InModel (Throws w)
                     | None => OutsideModel
                     end
                 | InModel (Throws w) => InModel (Throws w)
                 | OutsideModel => OutsideModel
                 end
             end
    end
    (fun w =>
       let w := log_console (lit "Error:") w in
       let w := showError set_quizOutput
                  (lit "Failed to generate quiz. Try more focused content.") w in
       showNotification (lit "Quiz generation failed") error w).

Definition generateQuiz (resp : fetch_result) (w : World) : outcome :=
  match generateQuiz_submit w with
  | Returned w' => InModel (Normal w')
  | Awaiting w' => generateQuiz_receive resp w'
  end.

(** *** Flashcards *)

(** Deck replacement as written in [generateFlashcards], [loadFlashcards]
    and [clearFlashcards]: three assignments. *)
Definition replace_deck (d : list Flashcard) (w : World) : World :=
  with_state (set_isFlashcardFlipped false)
    (with_state (set_currentFlashcardIndex 0)
      (with_state (set_flashcards d) w)).

Definition generateFlashcards_submit (w : World) : submission :=
  let content := trim (flashcardsInput (elements w)) in
  if bool_decide (content = []) then
    Returned (showNotification (lit "Please enter content for flashcards") warning w)
  else if len content >? 800 then
    let w := showNotification (lit "Content too long. Limited to 800 chars.") info w in
    Returned (with_elements (set_flashcardsInput (substring0 800 content)) w)
  else
    Awaiting (issue (POST (backendUrl (state w) ++ lit "/flashcards")
                          (FlashcardsBody content 6 (model (state w)))) w).

(** [data.flashcards || []] as a deck. *)
Definition response_deck (data : json) : option (option (list Flashcard)) :=
  match get data (lit "flashcards") with
  | None => Some None                         (* the access throws *)
  | Some v =>
      match truthy v with
      | None => None
      | Some false => Some (Some [])
      | Some true =>
          match deck_of_json (default JNull v) with
          | Some d => Some (Some d)
          | None => None
          end
      end
  end.

Definition generateFlashcards_receive (resp : fetch_result) (w : World) : outcome :=
  try_catch_outcome
    match resp with
    | NetworkError => InModel (Throws w)
    | Response status body =>
        if negb (response_ok status) then InModel (Throws w)
        else match body with
             | None => InModel (Throws w)
             | Some data =>
                 match response_deck data with
                 | None => OutsideModel
                 | Some None => InModel (Throws w)
                 | Some (Some d) =>
                     InModel (andThen (updateFlashcardDisplay (replace_deck d w))
                       (fun w =>
                          Normal (showNotification
                                    (lit "Generated " ++ num (len (flashcards (state w)))
                                     ++ lit " flashcards with Phi-3!")
                                    success w)))
                 end
             end
    end
    (fun w =>
       let w := log_console (lit "Error:") w in
       showNotification (lit "Failed to generate flashcards") error w).

Definition generateFlashcards (resp : fetch_result) (w : World) : outcome :=
  match generateFlashcards_submit w with
  | Returned w' => InModel (Normal w')
  | Awaiting w' => generateFlashcards_receive resp w'
  end.

Definition flashcards_key : jsstring := lit "concepta_flashcards".
Definition settings_key : jsstring := lit "concepta_settings".

(** [localStorage.getItem(key)] followed by the test [if (saved)]: an
    absent item ([null]) and the empty string are both falsy. *)
Definition saved_item (key : jsstring) (w : World) : option jsstring :=
  match localStorage w !! key with
  | Some [] | None => None
  | Some text => Some text
  end.

Definition loadFlashcards (io : storage_io) (w : World) : outcome :=
  try_catch_outcome
    match io with
    | StorageThrows => InModel (Throws w)
    | StorageOk =>
        match saved_item flashcards_key w with
        | Some saved =>
            match JSON.parse saved with
            | None => InModel (Throws w)
            | Some v =>
                match deck_of_json v with
                | None => OutsideModel
                | Some d =>
                    InModel (andThen (updateFlashcardDisplay (replace_deck d w))
                      (fun w =>
                         Normal (showNotification
                                   (lit "Loaded " ++ num (len (flashcards (state w)))
                                    ++ lit " flashcards")
                                   success w)))
                end
            end
        | None =>
            InModel (Normal (showNotification (lit "No saved flashcards found") info w))
        end
    end
    (fun w => showNotification (lit "Failed to load flashcards") error w).

Definition saveFlashcards (io : storage_io) (w : World) : World :=
  let d := flashcards (state w) in
  if len d =? 0 then showNotification (lit "No flashcards to save") warning w
  else
    match io with
    | StorageOk =>
        showNotification (lit "Saved " ++ num (len d) ++ lit " flashcards") success
          (store flashcards_key (JSON.stringify_deck d) w)
    | StorageThrows =>
        showNotification (lit "Failed to save flashcards") error w
    end.

(** [confirmed] is the answer to the [confirm(...)] dialog. *)
Definition clearFlashcards (confirmed : bool) (w : World) : completion :=
  if len (flashcards (state w)) =? 0 then Normal w
  else if confirmed then
    andThen (updateFlashcardDisplay (replace_deck [] w)) (fun w =>
    Normal (showNotification (lit "Flashcards cleared") info w))
  else Normal w.

(** ** Settings *)

(** [settings.field || fallback] as a string of the state. *)
Definition setting_or (v : option json) (fallback : jsstring) : option jsstring :=
  match truthy v with
  | None => None
  | Some false => Some fallback
  | Some true =>
      match v with
      | Some (JStr s) => Some s
      | _ => None
      end
  end.

Fixpoint startsWith (prefix s : jsstring) : bool :=
  match prefix, s with
  | [], _ => true
  | p :: prefix', c :: s' => (p =? c)%N && startsWith prefix' s'
  | _ :: _, [] => false
  end.

Definition apply_settings (settings : json) (w : World) : outcome :=
  match settings with
  | JNull => InModel (Throws w)                (* settings.theme throws *)
  | _ =>
      match setting_or (default None (get settings (lit "theme"))) (lit "dark"),
            setting_or (default None (get settings (lit "model"))) (lit "phi3:mini"),
            setting_or (default None (get settings (lit "apiUrl")))
                       (lit "http://localhost:11434") with
      | Some t, Some m, Some a =>
          let w := with_state (set_settings t m a (startsWith (lit "phi3") m)) w in
          InModel (Normal (with_elements (set_settings_fields m a) w))
      | _, _, _ => OutsideModel
      end
  end.

Definition loadSettings (io : storage_io) (w : World) : outcome :=
  try_catch_outcome
    match io with
    | StorageThrows => InModel (Throws w)
    | StorageOk =>
        match saved_item settings_key w with
        | Some saved =>
            match JSON.parse saved with
            | None => InModel (Throws w)
            | Some settings => apply_settings settings w
            end
        | None => InModel (Normal w)
        end
    end
    (fun w => log_console (lit "Error loading settings:") w).

(** ** Connection checks *)

Definition updateConnectionStatus (status : jsstring) (w : World) : World :=
  let w := with_state (set_connectionStatus status) w in
  let connected := bool_decide (status = lit "connected") in
  let phi3 := isPhi3 (state w) in
  let dot := [lit "status-dot"; status] ++
             (if connected && phi3 then [lit "phi3-connected"] else []) in
  let text :=
    if connected then (if phi3 then lit "Phi-3 Ready" else lit "Connected")
    else if bool_decide (status = lit "disconnected") then lit "Disconnected"
    else if bool_decide (status = lit "connecting") then lit "Connecting..."
    else statusText (elements w) in
  with_elements (set_status dot text) w.

(** [resp] settles [fetch(backendUrl + "/health")]. *)
Definition checkBackend (resp : fetch_result) (w : World) : bool * World :=
  let w := issue (GET (backendUrl (state w) ++ lit "/health")) w in
  let failed := log_console (lit "Backend check failed:") in
  match resp with
  | NetworkError => (false, updateConnectionStatus (lit "disconnected") (failed w))
  | Response status body =>
      if response_ok status then
        match body with
        | Some _ => (true, updateConnectionStatus (lit "connected") w)
        | None => (false, updateConnectionStatus (lit "disconnected") (failed w))
        end
      else (false, updateConnectionStatus (lit "disconnected") w)
  end.

(** [resp] settles [fetch(apiUrl + "/api/tags")]. *)
Definition checkOllama (resp : fetch_result) (w : World) : bool * World :=
  let w := issue (GET (apiUrl (state w) ++ lit "/api/tags")) w in
  match resp with
  | Response status _ => (response_ok status, w)
  | NetworkError => (false, w)
  end.

Definition closeSettings (w : World) : World :=
  with_elements (set_settingsModal_active false) w.

Definition openSettings (w : World) : World :=
  with_elements (set_settingsModal_active true) w.

(** [saveSettings]; the call to [checkOllama] at its end is not awaited:
    the request goes out and its result is dropped. *)
Definition saveSettings (io : storage_io) (w : World) : World :=
  let m := modelSelect (elements w) in
  let a := apiUrlField (elements w) in
  match io with
  | StorageOk =>
      let w := store settings_key
                 (JSON.stringify_settings (theme (state w)) m a) w in
      let w := with_state (fun s => set_settings (theme s) m a
                                      (startsWith (lit "phi3") m) s) w in
      let w := closeSettings w in
      let w := showNotification (lit "Using " ++ m) success w in
      issue (GET (apiUrl (state w) ++ lit "/api/tags")) w
  | StorageThrows => showNotification (lit "Failed to save settings") error w
  end.

(** ** Start-up sequence *)

Definition backend_instructions : status_line :=
  StatusHtml (lit "<strong>Backend not connected!</strong><br>Run in terminal: <code>cd backend && python main.py</code>").

Definition ollama_instructions : status_line :=
  StatusHtml (lit "<strong>Ollama not running!</strong><br>Run in another terminal: <code>ollama serve</code><br>Using mock responses for now...").

(** [initializeApp]; [backend] and [ollama] settle the two health requests
    (the second is only looked at when the request is made). *)
Definition initializeApp (backend ollama : fetch_result) (w : World) : World :=
  let w := with_elements
             (set_loadingStatus (StatusText (lit "Checking backend connection..."))) w in
  let (backendOk, w) := checkBackend backend w in
  if negb backendOk then
    with_elements (set_loadingStatus backend_instructions) w
  else
    let w := with_elements (set_loadingStatus (StatusText (lit "Checking Ollama..."))) w in
    let (ollamaOk, w) := checkOllama ollama w in
    let w := if negb ollamaOk
             then with_elements (set_loadingStatus ollama_instructions) w
             else with_elements
                    (set_loadingStatus (StatusText (lit "Loading Phi-3 Mini..."))) w in
    setTimeout (RevealApp ollamaOk) 1000 w.

(** The body of the callback queued by [initializeApp]. *)
Definition run_timer (cb : timer) (w : World) : World :=
  match cb with
  | RevealApp ollamaOk =>
      let w := with_elements set_revealed w in
      if ollamaOk then
        showNotification
          (lit "Concepta ready! Using Phi-3 Mini (3.8B) " ++ [55357; 56960]%N)
          success w
      else
        showNotification
          (lit "Concepta ready! Using mock responses (Start Ollama for AI)")
          warning w
  end.

(** ** The four limited fields, uniformly *)

Definition submit (f : input_field) : World -> submission :=
  match f with
  | TopicInput => generateExplanation_submit
  | NotesInput => summarizeNotes_submit
  | QuizInput => generateQuiz_submit
  | FlashcardsInput => generateFlashcards_submit
  end.

(** Kind of the notification raised by the length test of each method. *)
Definition limit_kind (f : input_field) : kind :=
  match f with
  | TopicInput => warning
  | NotesInput | QuizInput | FlashcardsInput => info
  end.

(** The text a request carries for its field. *)
Definition sent_text (r : Request) : option jsstring :=
  match r with
  | POST _ (ExplainBody topic _ _) => Some topic
  | POST _ (SummarizeBody notes _ _) => Some notes
  | POST _ (QuizBody content _ _ _ _) => Some content
  | POST _ (FlashcardsBody content _ _) => Some content
  | GET _ => None
  end.

(** ** A session: handlers run one after the other

    Each handler runs to completion, or to its next suspension point,
    before another one starts. *)

Definition set_timers (ts : list (Z * timer)) (w : World) : World :=
  {| state := state w; elements := elements w;
     notifications := notifications w; localStorage := localStorage w;
     requests := requests w; timers := ts; console := console w |}.

Inductive event :=
| Navigate (direction : Z)
| Flip
| Shuffle (random_index : nat -> nat)
| Mark (difficulty : jsstring)
| Clear (confirmed : bool)
| SaveDeck (io : storage_io)
| LoadDeck (io : storage_io)
| Typed (f : input_field) (text : jsstring)
| Submit (f : input_field)
| ExplanationArrives (resp : fetch_result)
| SummaryArrives (resp : fetch_result)
| QuizArrives (resp : fetch_result)
| FlashcardsArrive (resp : fetch_result)
| OpenSettings
| CloseSettings
| SaveSettings (io : storage_io)
| TimerFires.

Definition submitted (s : submission) : World :=
  match s with Returned w | Awaiting w => w end.

(** The world after one event; [None] when the handler leaves the typed
    data model, or when no timer is queued for [TimerFires]. *)
Definition react (ev : event) (w : World) : option World :=
  let of_outcome (o : outcome) :=
    match o with
    | InModel c => Some (world_of c)
    | OutsideModel => None
    end in
  match ev with
  | Navigate d => Some (world_of (navigateFlashcard d w))
  | Flip => Some (world_of (flipFlashcard w))
  | Shuffle r => Some (world_of (shuffleFlashcards r w))
  | Mark d => Some (markFlashcardDifficulty d w)
  | Clear c => Some (world_of (clearFlashcards c w))
  | SaveDeck io => Some (saveFlashcards io w)
  | LoadDeck io => of_outcome (loadFlashcards io w)
  | Typed f text =>
      Some (validateInput f (limit f) (with_elements (set_value f text) w))
  | Submit f => Some (submitted (submit f w))
  | ExplanationArrives resp => Some (world_of (generateExplanation_receive resp w))
  | SummaryArrives resp => of_outcome (summarizeNotes_receive resp w)
  | QuizArrives resp => of_outcome (generateQuiz_receive resp w)
  | FlashcardsArrive resp => of_outcome (generateFlashcards_receive resp w)
  | OpenSettings => Some (openSettings w)
  | CloseSettings => Some (closeSettings w)
  | SaveSettings io => Some (saveSettings io w)
  | TimerFires =>
      match timers w with
      | (_, cb) :: rest => Some (run_timer cb (set_timers rest w))
      | [] => None
      end
  end.

Fixpoint run (evs : list event) (w : World) : option World :=
  match evs with
  | [] => Some w
  | ev :: evs' =>
      match react ev w with
      | Some w' => run evs' w'
      | None => None
      end
  end.

(** ** Concrete worlds *)

Definition blank_page : Elements :=
  {| topicInput := []; notesInput := []; quizInput := []; flashcardsInput := [];
     summaryLength := lit "medium"; quizType := lit "mixed";
     quizDifficulty := lit "easy"; questionCount := lit "5";
     explainOutput := Placeholder; summaryOutput := Placeholder;
     quizOutput := Placeholder;
     cardQuestion := []; cardAnswer := []; currentCard := lit "0";
     totalCards := lit "0"; flashcard_flipped := false;
     settingsModal_active := false;
     modelSelect := lit "phi3:mini"; apiUrlField := lit "http://localhost:11434";
     statusDot := [lit "status-dot"]; statusText := [];
     loadingStatus := StatusText []; loadingScreen_hidden := false;
     body_overflow := lit "hidden" |}.

(** The application right after its constructor ran, with empty storage. *)
Definition new_app : World :=
  {| state := initial_state; elements := blank_page; notifications := [];
     localStorage := ∅; requests := []; timers := []; console := [] |}.

Definition with_deck (d : list Flashcard) (i : Z) (w : World) : World :=
  with_state (set_currentFlashcardIndex i) (with_state (set_flashcards d) w).

Definition sample_deck : list Flashcard :=
  [ mkFlashcard (lit "What is ATP?") (lit "The cell's energy currency");
    mkFlashcard (lit "Where does the Calvin cycle run?") (lit "In the stroma");
    mkFlashcard (lit "Say " ++ [34%N] ++ lit "light" ++ [34%N])
                [10; 55357; 56960; 55357; 7]%N ].

(** Text of the notification raised by the length test of each method. *)
Definition limit_message (f : input_field) : jsstring :=
  match f with
  | TopicInput => lit "Topic too long. Limited to 500 chars for Phi-3."
  | NotesInput => lit "Notes too long. Limited to 2000 chars."
  | QuizInput => lit "Content too long. Limited to 1000 chars."
  | FlashcardsInput => lit "Content too long. Limited to 800 chars."
  end.

Definition long_topic : jsstring := repeat 97%N 501.

(** A deck as it can come from the backend: properties in another order,
    and properties the application never reads. *)
Definition received_deck : list Flashcard :=
  [ mkCard [(lit "answer", SStr (lit "A")); (lit "question", SStr (lit "Q"));
            (lit "hint", SStr (lit "h"))] I;
    mkCard [(lit "question", SStr (lit "What is ATP?")); (lit "starred", SBool true);
            (lit "answer", SStr (lit "Energy currency of the cell"));
            (lit "source", SNull)] I ].

(** Text in which the double quotes are written as apostrophes. *)
Definition quoted (s : string) : jsstring :=
  map (fun c => if (c =? 39)%N then 34%N else c) (lit s).

(** ** The serialised deck, token by token and as a value *)

Definition scalar_token (v : scalar) : JSON.token :=
  match v with
  | SNull => JSON.TNull
  | SBool true => JSON.TTrue
  | SBool false => JSON.TFalse
  | SStr s => JSON.TString s
  end.

Definition property_tokens (p : jsstring * scalar) : list JSON.token :=
  [JSON.TString (fst p); JSON.TColon; scalar_token (snd p)].

Fixpoint separated (parts : list (list JSON.token)) : list JSON.token :=
  match parts with
  | [] => []
  | [p] => p
  | p :: parts' => p ++ JSON.TComma :: separated parts'
  end.

Definition card_tokens (c : Flashcard) : list JSON.token :=
  JSON.TLBrace :: separated (map property_tokens (properties c)) ++ [JSON.TRBrace].

Definition deck_tokens (d : list Flashcard) : list JSON.token :=
  JSON.TLBracket :: separated (map card_tokens d) ++ [JSON.TRBracket].

Definition json_of_scalar (v : scalar) : json :=
  match v with
  | SNull => JNull
  | SBool b => JBool b
  | SStr s => JStr s
  end.

Definition json_of_property (p : jsstring * scalar) : jsstring * json :=
  (fst p, json_of_scalar (snd p)).

Definition json_of_card (c : Flashcard) : json :=
  JObj (map json_of_property (properties c)).

Definition json_of_deck (d : list Flashcard) : json :=
  JArr (map json_of_card d).

(** The invariant of the data model: the cursor is on a card, or the deck
    is empty and the cursor is 0. *)
Definition cursor_valid (s : AppState) : Prop :=
  (flashcards s = [] /\ currentFlashcardIndex s = 0) \/
  0 <= currentFlashcardIndex s < len (flashcards s).

(** ** The rest of the page: navigation, theme, counters

    The parts of the page the methods below touch, next to the [World].
    An element that carries a [data-*] attribute (or an id) and may hold
    the class [active] is an [Item]; the attribute is taken as present. *)

Record Item := mkItem {
  key : jsstring;
  active : bool
}.

Record Counter := mkCounter {
  textContent : jsstring;
  className : list jsstring
}.

Record Chrome := mkChrome {
  tabs : list Item;                (* .nav-item, key = data-tab *)
  tabContents : list Item;         (* .tab-content, key = id *)
  difficultyButtons : list Item;   (* .difficulty-btn, key = data-level *)
  themeOptions : list Item;        (* .theme-option, key = data-theme *)
  data_theme : jsstring;           (* attribute data-theme of the root element *)
  topicCharCount : Counter;
  notesCharCount : Counter;
  quizCharCount : Counter;
  flashcardsCharCount : Counter
}.

Record App := mkApp {
  world : World;
  chrome : Chrome
}.

Inductive app_completion :=
| Returns (a : App)
| Raises (a : App).

Definition app_of (c : app_completion) : App :=
  match c with Returns a | Raises a => a end.

(** A method of the [World] run inside the application. *)
Definition lift (c : completion) (ch : Chrome) : app_completion :=
  match c with
  | Normal w => Returns (mkApp w ch)
  | Throws w => Raises (mkApp w ch)
  end.

Definition set_currentTab (t : jsstring) (s : AppState) : AppState :=
  {| currentTab := t; currentDifficulty := currentDifficulty s;
     theme := theme s; flashcards := flashcards s;
     currentFlashcardIndex := currentFlashcardIndex s;
     isFlashcardFlipped := isFlashcardFlipped s;
     connectionStatus := connectionStatus s; model := model s;
     apiUrl := apiUrl s; backendUrl := backendUrl s; isPhi3 := isPhi3 s |}.

Definition set_currentDifficulty (d : jsstring) (s : AppState) : AppState :=
  {| currentTab := currentTab s; currentDifficulty := d;
     theme := theme s; flashcards := flashcards s;
     currentFlashcardIndex := currentFlashcardIndex s;
     isFlashcardFlipped := isFlashcardFlipped s;
     connectionStatus := connectionStatus s; model := model s;
     apiUrl := apiUrl s; backendUrl := backendUrl s; isPhi3 := isPhi3 s |}.

Definition set_theme (t : jsstring) (s : AppState) : AppState :=
  set_settings t (model s) (apiUrl s) (isPhi3 s) s.

Definition set_tabs (ts cs : list Item) (c : Chrome) : Chrome :=
  {| tabs := ts; tabContents := cs;
     difficultyButtons := difficultyButtons c; themeOptions := themeOptions c;
     data_theme := data_theme c;
     topicCharCount := topicCharCount c; notesCharCount := notesCharCount c;
     quizCharCount := quizCharCount c;
     flashcardsCharCount := flashcardsCharCount c |}.

Definition set_difficultyButtons (bs : list Item) (c : Chrome) : Chrome :=
  {| tabs := tabs c; tabContents := tabContents c;
     difficultyButtons := bs; themeOptions := themeOptions c;
     data_theme := data_theme c;
     topicCharCount := topicCharCount c; notesCharCount := notesCharCount c;
     quizCharCount := quizCharCount c;
     flashcardsCharCount := flashcardsCharCount c |}.

Definition set_themeOptions (os : list Item) (c : Chrome) : Chrome :=
  {| tabs := tabs c; tabContents := tabContents c;
     difficultyButtons := difficultyButtons c; themeOptions := os;
     data_theme := data_theme c;
     topicCharCount := topicCharCount c; notesCharCount := notesCharCount c;
     quizCharCount := quizCharCount c;
     flashcardsCharCount := flashcardsCharCount c |}.

Definition set_data_theme (t : jsstring) (c : Chrome) : Chrome :=
  {| tabs := tabs c; tabContents := tabContents c;
     difficultyButtons := difficultyButtons c; themeOptions := themeOptions c;
     data_theme := t;
     topicCharCount := topicCharCount c; notesCharCount := notesCharCount c;
     quizCharCount := quizCharCount c;
     flashcardsCharCount := flashcardsCharCount c |}.

Definition counter (f : input_field) (c : Chrome) : Counter :=
  match f with
  | TopicInput => topicCharCount c
  | NotesInput => notesCharCount c
  | QuizInput => quizCharCount c
  | FlashcardsInput => flashcardsCharCount c
  end.

Definition set_counter (f : input_field) (n : Counter) (c : Chrome) : Chrome :=
  {| tabs := tabs c; tabContents := tabContents c;
     difficultyButtons := difficultyButtons c; themeOptions := themeOptions c;
     data_theme := data_theme c;
     topicCharCount := match f with TopicInput => n | _ => topicCharCount c end;
     notesCharCount := match f with NotesInput => n | _ => notesCharCount c end;
     quizCharCount := match f with QuizInput => n | _ => quizCharCount c end;
     flashcardsCharCount :=
       match f with FlashcardsInput => n | _ => flashcardsCharCount c end |}.

(** [items.forEach(x => x.classList.remove('active'))] followed by
    [items[k].classList.add('active')]. *)
Definition activate_only (k : nat) (items : list Item) : list Item :=
  imap (fun i it => mkItem (key it) (bool_decide (i = k))) items.

(** [items.forEach(x => { x.classList.remove('active');
    if (x.key === id) x.classList.add('active') })]. *)
Definition activate_matching (id : jsstring) (items : list Item) : list Item :=
  map (fun it => mkItem (key it) (bool_decide (key it = id))) items.

(** *** Tabs and difficulty *)

(** [switchTab(e)] for a click on the nav item number [k].  The listener
    is bound to the nav items themselves: without such an item there is
    no event. *)
Definition switchTab (k : nat) (a : App) : app_completion :=
  match tabs (chrome a) !! k with
  | None => Returns a
  | Some tab =>
      let tabId := key tab in
      let ch := set_tabs (activate_only k (tabs (chrome a)))
                         (activate_matching tabId (tabContents (chrome a)))
                         (chrome a) in
      let w := with_state (set_currentTab tabId) (world a) in
      if bool_decide (tabId = lit "flashcards")
      then lift (updateFlashcardDisplay w) ch
      else Returns (mkApp w ch)
  end.

(** [setDifficulty(e)] for a click on the difficulty button number [k]. *)
Definition setDifficulty (k : nat) (a : App) : App :=
  match difficultyButtons (chrome a) !! k with
  | None => a
  | Some btn =>
      mkApp (with_state (set_currentDifficulty (key btn)) (world a))
            (set_difficultyButtons
               (activate_only k (difficultyButtons (chrome a))) (chrome a))
  end.

(** *** Character counters *)

(** The closure [update] of [setupCharCounter(input, counter, max)] for
    the counter of field [f], registered with [max = limit f].  The
    thresholds [max * 0.9] and [max * 0.7] are doubles; for the four
    registered limits they are the integers 450, 1800, 900, 720 and 350,
    1400, 700, 560, so the tests are the integer ones below. *)
Definition update_counter (f : input_field) (a : App) : App :=
  let n := len (value f (elements (world a))) in
  let max := limit f in
  let mark := if 10 * n >? 9 * max then [lit "error"]
              else if 10 * n >? 7 * max then [lit "warning"]
              else [] in
  mkApp (world a)
        (set_counter f (mkCounter (num n ++ lit "/" ++ num max)
                                  (lit "char-count" :: mark)) (chrome a)).

(** An [input] event on field [f] after the user changed its text to
    [text]: the listeners run in the order they were added, the counter's
    [update] first, [validateInput] second. *)
Definition input_event (f : input_field) (text : jsstring) (a : App) : App :=
  let a := mkApp (with_elements (set_value f text) (world a)) (chrome a) in
  let a := update_counter f a in
  mkApp (validateInput f (limit f) (world a)) (chrome a).

(** [setupInputListeners]: each counter is drawn once. *)
Definition setupInputListeners (a : App) : App :=
  update_counter FlashcardsInput
    (update_counter QuizInput
      (update_counter NotesInput (update_counter TopicInput a))).

(** *** Theme *)

Definition theme_key : jsstring := lit "concepta_theme".

(** [setTheme(theme)]; [io] tells whether [localStorage.setItem] goes
    through.  The call is not guarded: when it throws, the option buttons
    are not refreshed and the exception leaves the method. *)
Definition setTheme (io : storage_io) (t : jsstring) (a : App) : app_completion :=
  let w := with_state (set_theme t) (world a) in
  let ch := set_data_theme t (chrome a) in
  match io with
  | StorageThrows => Raises (mkApp w ch)
  | StorageOk =>
      Returns (mkApp (store theme_key t w)
                     (set_themeOptions
                        (activate_matching t (themeOptions ch)) ch))
  end.

Definition toggleTheme (io : storage_io) (a : App) : app_completion :=
  setTheme io
    (if bool_decide (theme (state (world a)) = lit "dark")
     then lit "light" else lit "dark") a.

(** [selectThemeOption(e)] for a click on the theme option number [k]. *)
Definition selectThemeOption (io : storage_io) (k : nat) (a : App) : app_completion :=
  match themeOptions (chrome a) !! k with
  | None => Returns a
  | Some opt => setTheme io (key opt) a
  end.

(** [setupTheme()]; [read] and [write] settle its two storage accesses. *)
Definition setupTheme (read write : storage_io) (a : App) : app_completion :=
  match read with
  | StorageThrows => Raises a
  | StorageOk =>
      setTheme write
        (default (theme (state (world a))) (saved_item theme_key (world a))) a
  end.

(** *** Keyboard *)

Record KeyEvent := mkKeyEvent {
  pressed : jsstring;        (* e.key *)
  ctrlKey : bool;
  in_form_field : bool       (* e.target.matches('textarea, input, select') *)
}.

Definition digit_index (k : jsstring) : option nat :=
  if bool_decide (k = lit "1") then Some 0%nat
  else if bool_decide (k = lit "2") then Some 1%nat
  else if bool_decide (k = lit "3") then Some 2%nat
  else if bool_decide (k = lit "4") then Some 3%nat
  else None.

(** [handleKeyboardShortcuts(e)]: the completion and whether
    [e.preventDefault()] was called.  [tabs[index].click()] runs the
    click listener of the nav item, [switchTab]; an exception raised in a
    listener is reported by the page and does not reach the caller of
    [click]. *)
Definition handleKeyboardShortcuts (io : storage_io) (e : KeyEvent) (a : App)
  : app_completion * bool :=
  let on_flashcards := bool_decide (currentTab (state (world a)) = lit "flashcards") in
  if in_form_field e then (Returns a, false)
  else match digit_index (pressed e) with
  | Some index => (Returns (app_of (switchTab index a)), false)
  | None =>
      if bool_decide (pressed e = lit "t") then
        if ctrlKey e then
          match toggleTheme io a with
          | Returns a' => (Returns a', true)
          | Raises a' => (Raises a', false)
          end
        else (Returns a, false)
      else if bool_decide (pressed e = lit "Escape") then
        (Returns (mkApp (closeSettings (world a)) (chrome a)), false)
      else if bool_decide (pressed e = lit "ArrowLeft") then
        if on_flashcards
        then (lift (navigateFlashcard (-1) (world a)) (chrome a), false)
        else (Returns a, false)
      else if bool_decide (pressed e = lit "ArrowRight") then
        if on_flashcards
        then (lift (navigateFlashcard 1 (world a)) (chrome a), false)
        else (Returns a, false)
      else if bool_decide (pressed e = lit " ") then
        if on_flashcards then
          match flipFlashcard (world a) with
          | Normal w => (Returns (mkApp w (chrome a)), true)
          | Throws w => (Raises (mkApp w (chrome a)), false)
          end
        else (Returns a, false)
      else (Returns a, false)
  end.

(** *** Start-up, from the constructor on *)

(** [init()].  [cacheDOM] and [bindEvents] build the tables the model
    starts from.  The three storage accesses ([getItem] in [loadSettings],
    [getItem] and [setItem] in [setupTheme]) and the two health requests
    are settled by the arguments.  [None]: the stored settings lie outside
    the typed data model. *)
Definition init (settings_read theme_read theme_write : storage_io)
    (backend ollama : fetch_result) (a : App) : option app_completion :=
  let a := setupInputListeners a in
  match loadSettings settings_read (world a) with
  | OutsideModel => None
  | InModel c =>
      match lift c (chrome a) with
      | Raises a' => Some (Raises a')
      | Returns a' =>
          match setupTheme theme_read theme_write a' with
          | Raises a'' => Some (Raises a'')
          | Returns a'' =>
              Some (Returns (mkApp (initializeApp backend ollama (world a''))
                                   (chrome a'')))
          end
      end
  end.

(** *** What each generation method sends and says *)

Definition endpoint (f : input_field) : jsstring :=
  match f with
  | TopicInput => lit "/explain"
  | NotesInput => lit "/summarize"
  | QuizInput => lit "/quiz"
  | FlashcardsInput => lit "/flashcards"
  end.

Definition empty_message (f : input_field) : jsstring :=
  match f with
  | TopicInput => lit "Please enter a topic to explain"
  | NotesInput => lit "Please enter notes to summarize"
  | QuizInput => lit "Please enter content for quiz"
  | FlashcardsInput => lit "Please enter content for flashcards"
  end.

Definition request_url (r : Request) : jsstring :=
  match r with GET url | POST url _ => url end.

(** A settled [fetch] that makes a generation method take its [catch]
    branch before any rendering: no response, a status outside 200-299,
    or a body that is not JSON. *)
Definition failed (resp : fetch_result) : bool :=
  match resp with
  | NetworkError => true
  | Response status body => negb (response_ok status) || bool_decide (body = None)
  end.

(** The page shows the card under the cursor: redrawing changes nothing. *)
Definition synced (w : World) : Prop := updateFlashcardDisplay w = Normal w.

Definition within_limits (w : World) : Prop :=
  forall f, len (value f (elements w)) <= limit f.

(** *** A concrete page *)

Definition sample_chrome : Chrome :=
  {| tabs := [mkItem (lit "explainer") true; mkItem (lit "summarizer") false;
              mkItem (lit "quiz") false; mkItem (lit "flashcards") false];
     tabContents := [mkItem (lit "explainer") true; mkItem (lit "summarizer") false;
                     mkItem (lit "quiz") false; mkItem (lit "flashcards") false];
     difficultyButtons := [mkItem (lit "beginner") true;
                           mkItem (lit "intermediate") false;
                           mkItem (lit "advanced") false];
     themeOptions := [mkItem (lit "dark") false; mkItem (lit "light") false];
     data_theme := [];
     topicCharCount := mkCounter [] []; notesCharCount := mkCounter [] [];
     quizCharCount := mkCounter [] []; flashcardsCharCount := mkCounter [] [] |}.

Definition sample_app : App := mkApp new_app sample_chrome.

(** *** Shapes of response fields *)

Definition is_array (v : option json) : bool :=
  match v with
  | Some (JArr _) => true
  | _ => false
  end.

(** The properties the template of [renderExplanation] interpolates.  For
    [steps] and [key_points] the items are interpolated one by one; an
    array converts exactly when each of its items does. *)
Definition explanation_properties : list jsstring :=
  [lit "topic"; lit "difficulty"; lit "simple_explanation"; lit "steps";
   lit "analogy"; lit "key_points"].

(** A definition the summary template can draw: its [term] and its
    [definition] can be read and convert to text. *)
Definition drawable_definition (def : json) : Prop :=
  interpolate (get def (lit "term")) = Some true /\
  interpolate (get def (lit "definition")) = Some true.

(** A quiz question the template can draw: an object whose [type],
    [question], [answer] and [explanation] convert to text where present,
    and whose [options] are absent, [null], or an array of values that
    convert. *)
Definition drawable_question (q : json) : bool :=
  match q with
  | JObj ms =>
      forallb (fun key => bool_decide (interpolate (Some (last_member key ms)) = Some true))
              [lit "type"; lit "question"; lit "answer"; lit "explanation"]
      && match last_member (lit "options") ms with
         | None | Some JNull => true
         | Some (JArr options) => forallb converts options
         | Some _ => false
         end
  | _ => false
  end.

(** What the [catch] block of each generation method does. *)
Definition explanation_failed (w : World) : World :=
  showNotification (lit "Generation failed. Check console.") error
    (showError set_explainOutput failed_explanation (log_console (lit "Error:") w)).

Definition summary_failed (w : World) : World :=
  showNotification (lit "Summary failed") error
    (showError set_summaryOutput (lit "Failed to summarize. Try shorter notes.")
       (log_console (lit "Error:") w)).

Definition quiz_failed (w : World) : World :=
  showNotification (lit "Quiz generation failed") error
    (showError set_quizOutput
       (lit "Failed to generate quiz. Try more focused content.")
       (log_console (lit "Error:") w)).

Definition flashcards_failed (w : World) : World :=
  showNotification (lit "Failed to generate flashcards") error
    (log_console (lit "Error:") w).

(** *** Typed sessions

    The deck methods rely on what they are handed being a deck: when the
    backend answers with a [flashcards] that is not an array of cards, or
    storage holds text that parses to something else, the code assigns
    the value to the state all the same, and the model stops
    ([OutsideModel]).  A session is typed when this does not happen. *)

(** [data.flashcards] cannot be read, is falsy (absent, [null], [false],
    the empty string), or is an array of cards. *)
Definition typed_deck_response (resp : fetch_result) : Prop :=
  match resp with
  | Response status (Some data) =>
      response_ok status = true -> response_deck data <> None
  | _ => True
  end.

(** What the event brings from outside is within the model.  The reveal
    callback of start-up is left out of these sessions. *)
Definition typed_event (ev : event) : Prop :=
  match ev with
  | FlashcardsArrive resp => typed_deck_response resp
  | SummaryArrives resp => forall w, summarizeNotes_receive resp w <> OutsideModel
  | QuizArrives resp => forall w, generateQuiz_receive resp w <> OutsideModel
  | TimerFires => False
  | _ => True
  end.

(** The deck item of storage, if it parses, parses to a deck. *)
Definition stored_deck_typed (w : World) : Prop :=
  forall text v,
    saved_item flashcards_key w = Some text ->
    JSON.parse text = Some v ->
    deck_of_json v <> None.

(** Events that can write the deck item of storage. *)
Definition is_save (ev : event) : bool :=
  match ev with
  | SaveDeck _ => true
  | _ => false
  end.

(** [s || fallback] for a string [s]. *)
Definition or_default (s fallback : jsstring) : jsstring :=
  if bool_decide (s = []) then fallback else s.

(** * Properties *)

(** ** The card display *)

Lemma item_in_range {A} (l : list A) (i : Z) :
  0 <= i < len l -> is_Some (item l i).
Proof.
  intros Hi. unfold item, len in *.
  destruct (Z.ltb_spec i 0) as [?|_]; [lia|].
  apply lookup_lt_is_Some. lia.
Qed.

(** Redrawing only writes to the page. *)
Lemma updateFlashcardDisplay_frame (w : World) :
  let w' := world_of (updateFlashcardDisplay w) in
  state w' = state w /\ notifications w' = notifications w /\
  localStorage w' = localStorage w /\ requests w' = requests w /\
  timers w' = timers w /\ console w' = console w /\
  loadingScreen_hidden (elements w') = loadingScreen_hidden (elements w).
Proof.
  unfold updateFlashcardDisplay.
  destruct (len (flashcards (state w)) =? 0); [cbn; tauto|].
  destruct (item _ _); cbn; tauto.
Qed.

(** With the cursor on a card, or no card at all, redrawing returns. *)
Lemma updateFlashcardDisplay_returns (w : World) :
  len (flashcards (state w)) = 0 \/
  0 <= currentFlashcardIndex (state w) < len (flashcards (state w)) ->
  exists w', updateFlashcardDisplay w = Normal w'.
Proof.
  intros H. unfold updateFlashcardDisplay.
  destruct (Z.eqb_spec (len (flashcards (state w))) 0) as [E|E]; [eauto|].
  destruct H as [H|H]; [lia|].
  destruct (item_in_range _ _ H) as [c ->]. eauto.
Qed.

Lemma updateFlashcardDisplay_normal_state (w w' : World) :
  updateFlashcardDisplay w = Normal w' -> state w' = state w.
Proof.
  intros H. pose proof (updateFlashcardDisplay_frame w) as F.
  rewrite H in F. apply F.
Qed.

(** ** Navigation *)

Lemma navigateFlashcard_step (w : World) (direction : Z) :
  let n := len (flashcards (state w)) in
  let i := currentFlashcardIndex (state w) in
  1 <= n -> 0 <= i < n -> direction = 1 \/ direction = -1 ->
  exists w', navigateFlashcard direction w = Normal w' /\
    state w' = set_isFlashcardFlipped false
                 (set_currentFlashcardIndex ((i + direction + n) mod n) (state w)).
Proof.
  intros n i Hn Hi Hd. unfold navigateFlashcard. fold n i.
  destruct (Z.eqb_spec n 0) as [?|_]; [lia|].
  set (j := if i + direction <? 0 then n - 1 else i + direction).
  set (k := if j >=? n then 0 else j).
  assert (Hk : k = (i + direction + n) mod n).
  { subst k j.
    destruct (Z.ltb_spec (i + direction) 0) as [Hlt|Hge].
    - assert (i = 0 /\ direction = -1) as [-> ->] by lia.
      replace (0 + -1 + n) with (n - 1) by lia.
      rewrite Z.mod_small by lia.
      destruct (Z.geb_spec (n - 1) n); [lia|reflexivity].
    - destruct (Z.geb_spec (i + direction) n) as [Hwrap|Hin].
      + assert (i + direction = n) as E by lia.
        rewrite E. replace (n + n) with (0 + 2 * n) by lia.
        rewrite Z.mod_add by lia. symmetry. apply Z.mod_0_l. lia.
      + replace (i + direction + n) with (i + direction + 1 * n) by lia.
        rewrite Z.mod_add by lia. rewrite Z.mod_small by lia. reflexivity. }
  set (w1 := with_state _ _).
  destruct (updateFlashcardDisplay_returns w1) as [w' Hw'].
  { right. subst w1. cbn. fold n. rewrite Hk.
    apply Z.mod_pos_bound. lia. }
  exists w'. split; [exact Hw'|].
  rewrite (updateFlashcardDisplay_normal_state _ _ Hw').
  subst w1. cbn. rewrite Hk. reflexivity.
Qed.

(** [k] steps forward move the cursor by [k] around the deck. *)
Lemma navigateFlashcard_times (k : nat) (w : World) :
  let n := len (flashcards (state w)) in
  let i := currentFlashcardIndex (state w) in
  1 <= n -> 0 <= i < n ->
  exists w', times k (navigateFlashcard 1) w = Normal w' /\
    flashcards (state w') = flashcards (state w) /\
    currentFlashcardIndex (state w') = (i + Z.of_nat k) mod n.
Proof.
  revert w. induction k as [|k IH]; intros w n i Hn Hi.
  - exists w. cbn. repeat split. rewrite Z.add_0_r, Z.mod_small; lia.
  - destruct (navigateFlashcard_step w 1 Hn Hi (or_introl eq_refl))
      as (w1 & Hstep & Hst). fold n i in Hst.
    assert (Hd : flashcards (state w1) = flashcards (state w))
      by (rewrite Hst; reflexivity).
    assert (Hi1 : currentFlashcardIndex (state w1) = (i + 1 + n) mod n)
      by (rewrite Hst; reflexivity).
    destruct (IH w1) as (w' & Hrun & Hdeck & Hidx).
    { rewrite Hd. exact Hn. }
    { rewrite Hd, Hi1. apply Z.mod_pos_bound. lia. }
    exists w'. cbn [times]. rewrite Hstep. cbn [andThen].
    split; [exact Hrun|]. split; [congruence|].
    rewrite Hidx, Hd, Hi1. fold n.
    replace (i + 1 + n) with (i + 1 + 1 * n) by lia.
    rewrite Z.mod_add by lia.
    rewrite Zplus_mod_idemp_l. f_equal. lia.
Qed.

(** C1.  On a deck of length [n >= 1] with the cursor at [i], [0 <= i < n],
    [navigateFlashcard] with direction [+1] or [-1] moves the cursor to
    [(i + direction + n) mod n] and clears the flipped flag, leaving every
    other field of the state as it was; [n] forward steps bring the cursor
    back to [i]; on an empty deck the method changes nothing. *)
Theorem navigateFlashcard_circular (w : World) (direction : Z) :
  let n := len (flashcards (state w)) in
  let i := currentFlashcardIndex (state w) in
  (n = 0 -> navigateFlashcard direction w = Normal w) /\
  (1 <= n -> 0 <= i < n -> direction = 1 \/ direction = -1 ->
   exists w', navigateFlashcard direction w = Normal w' /\
     currentFlashcardIndex (state w') = (i + direction + n) mod n /\
     isFlashcardFlipped (state w') = false /\
     state w' = set_isFlashcardFlipped false
                  (set_currentFlashcardIndex ((i + direction + n) mod n) (state w))) /\
  (1 <= n -> 0 <= i < n ->
   exists w', times (Z.to_nat n) (navigateFlashcard 1) w = Normal w' /\
     currentFlashcardIndex (state w') = i /\
     flashcards (state w') = flashcards (state w)).
Proof.
  intros n i. split; [|split].
  - intros Hn. unfold navigateFlashcard. fold n. rewrite Hn. reflexivity.
  - intros Hn Hi Hd.
    destruct (navigateFlashcard_step w direction Hn Hi Hd) as (w' & Hnav & Hst).
    exists w'. fold n i in Hst. rewrite Hst. cbn. auto.
  - intros Hn Hi.
    destruct (navigateFlashcard_times (Z.to_nat n) w Hn Hi) as (w' & Hrun & Hd & Hidx).
    exists w'. split; [exact Hrun|]. split; [|exact Hd].
    rewrite Hidx. fold n i. rewrite Z2Nat.id by lia.
    replace (i + n) with (i + 1 * n) by lia.
    rewrite Z.mod_add by lia. apply Z.mod_small. lia.
Qed.

Lemma navigateFlashcard_circular_witness :
  (exists w', navigateFlashcard 1 (with_deck sample_deck 2 new_app) = Normal w' /\
     currentFlashcardIndex (state w') = 0 /\
     isFlashcardFlipped (state w') = false) /\
  (exists w', times 3 (navigateFlashcard 1) (with_deck sample_deck 2 new_app) = Normal w' /\
     currentFlashcardIndex (state w') = 2) /\
  navigateFlashcard 1 new_app = Normal new_app.
Proof.
  set (w := with_deck sample_deck 2 new_app).
  destruct (navigateFlashcard_circular w 1) as (_ & Hstep & Hloop).
  destruct (navigateFlashcard_circular new_app 1) as (Hempty & _).
  split; [|split].
  - destruct Hstep as (w' & H1 & H2 & H3 & _);
      [vm_compute; discriminate | vm_compute; split; [discriminate | reflexivity] | left; reflexivity |].
    exists w'. auto.
  - destruct Hloop as (w' & H1 & H2 & _);
      [vm_compute; discriminate | vm_compute; split; [discriminate | reflexivity] |].
    exists w'. auto.
  - apply Hempty. reflexivity.
Defined.

(** ** Flipping *)

Lemma flipFlashcard_toggles (w : World) :
  isFlashcardFlipped (state (world_of (flipFlashcard w))) =
  negb (isFlashcardFlipped (state w)).
Proof.
  unfold flipFlashcard.
  destruct (updateFlashcardDisplay_frame
              (with_state (fun s => set_isFlashcardFlipped
                                      (negb (isFlashcardFlipped s)) s) w)) as (-> & _).
  reflexivity.
Qed.

Lemma set_isFlashcardFlipped_twice (s : AppState) :
  set_isFlashcardFlipped (negb (negb (isFlashcardFlipped s)))
    (set_isFlashcardFlipped (negb (isFlashcardFlipped s)) s) = s.
Proof. destruct s as [? ? ? ? ? []]; reflexivity. Qed.

(** Flipping twice restores the state, whatever the deck. *)
Lemma flipFlashcard_twice (w : World) :
  state (world_of (flipFlashcard (world_of (flipFlashcard w)))) = state w.
Proof.
  unfold flipFlashcard at 1.
  match goal with |- context [updateFlashcardDisplay ?x] =>
    destruct (updateFlashcardDisplay_frame x) as (-> & _) end.
  cbn. unfold flipFlashcard.
  match goal with |- context [updateFlashcardDisplay ?x] =>
    destruct (updateFlashcardDisplay_frame x) as (-> & _) end.
  cbn. apply set_isFlashcardFlipped_twice.
Qed.

(** C2.  The method has no test for the empty deck: right after start-up
    (no card, flag clear) a flip returns normally with the flag set.  The
    card on the page stays unflipped, the state does not stay unchanged. *)
Theorem flipFlashcard_empty_deck_sets_flag :
  flashcards (state new_app) = [] /\
  isFlashcardFlipped (state new_app) = false /\
  exists w', flipFlashcard new_app = Normal w' /\
    isFlashcardFlipped (state w') = true /\
    flashcard_flipped (elements w') = false /\
    flipFlashcard new_app <> Normal new_app.
Proof.
  split; [reflexivity|]. split; [reflexivity|].
  eexists. split; [reflexivity|].
  split; [reflexivity|]. split; [reflexivity|].
  intros H. apply (f_equal (fun c => isFlashcardFlipped (state (world_of c)))) in H.
  vm_compute in H. discriminate.
Qed.

(** ** Shuffling *)

Lemma insert_moves_out {A} (t : list A) (j : nat) (x y : A) :
  t !! j = Some y -> y :: <[j:=x]> t ≡ₚ x :: t.
Proof.
  revert j. induction t as [|h t IH]; intros [|j] Hj; simplify_eq/=.
  - apply Permutation_swap.
  - rewrite Permutation_swap. rewrite (IH _ Hj). apply Permutation_swap.
Qed.

Lemma swap_Permutation {A} (a : list A) (i j : nat) : swap a i j ≡ₚ a.
Proof.
  unfold swap.
  destruct (a !! i) as [x|] eqn:Hi; [|reflexivity].
  destruct (a !! j) as [y|] eqn:Hj; [|reflexivity].
  revert i j Hi Hj. induction a as [|h a IH]; intros [|i] [|j] Hi Hj; simplify_eq/=.
  - reflexivity.
  - apply insert_moves_out. exact Hj.
  - apply insert_moves_out. exact Hi.
  - f_equiv. apply IH; assumption.
Qed.

Lemma shuffle_loop_Permutation {A} (random_index : nat -> nat) (i : nat) (a : list A) :
  shuffle_loop random_index i a ≡ₚ a.
Proof.
  revert a. induction i as [|i IH]; intros a; cbn.
  - reflexivity.
  - rewrite IH. apply swap_Permutation.
Qed.

(** Under the contract of the random source every swap of the loop stays
    inside the array. *)
Lemma shuffle_swaps_in_range (random_index : nat -> nat) (i n : nat) :
  random_index_ok random_index -> (i < n)%nat ->
  (random_index i < n)%nat.
Proof. intros H Hi. specialize (H i). lia. Qed.

(** C3.  For every sequence of random draws (each within its range),
    [shuffleFlashcards] on a non-empty deck leaves a permutation of the
    same cards, puts the cursor on 0 and clears the flipped flag; on an
    empty deck it changes nothing. *)
Theorem shuffleFlashcards_permutes (random_index : nat -> nat) (w : World) :
  random_index_ok random_index ->
  (flashcards (state w) = [] -> shuffleFlashcards random_index w = Normal w) /\
  (flashcards (state w) <> [] ->
   exists w', shuffleFlashcards random_index w = Normal w' /\
     flashcards (state w') ≡ₚ flashcards (state w) /\
     length (flashcards (state w')) = length (flashcards (state w)) /\
     currentFlashcardIndex (state w') = 0 /\
     isFlashcardFlipped (state w') = false).
Proof.
  intros Hrand. unfold shuffleFlashcards. split.
  - intros ->. reflexivity.
  - intros Hne.
    destruct (Z.eqb_spec (len (flashcards (state w))) 0) as [E|_].
    { unfold len in E. destruct (flashcards (state w)); [congruence|discriminate]. }
    set (d' := shuffle_loop random_index _ _).
    assert (Hperm : d' ≡ₚ flashcards (state w)) by apply shuffle_loop_Permutation.
    set (w1 := with_state (set_isFlashcardFlipped false) _).
    destruct (updateFlashcardDisplay_returns w1) as [w2 Hw2].
    { right. subst w1. cbn. unfold len. rewrite Hperm.
      destruct (flashcards (state w)); [congruence|cbn; lia]. }
    rewrite Hw2. cbn [andThen]. eexists. split; [reflexivity|].
    cbn. rewrite (updateFlashcardDisplay_normal_state _ _ Hw2).
    subst w1. cbn. repeat split; [exact Hperm|].
    rewrite Hperm. reflexivity.
Qed.

Lemma shuffleFlashcards_permutes_witness :
  (exists w', shuffleFlashcards Nat.pred (with_deck sample_deck 1 new_app)
                = Normal w' /\
     flashcards (state w') ≡ₚ sample_deck /\
     currentFlashcardIndex (state w') = 0) /\
  shuffleFlashcards Nat.pred new_app = Normal new_app.
Proof.
  assert (Hr : random_index_ok Nat.pred).
  { intros i. lia. }
  split.
  - destruct (shuffleFlashcards_permutes _ (with_deck sample_deck 1 new_app) Hr)
      as (_ & H).
    destruct H as (w' & H1 & H2 & _ & H3 & _); [discriminate|].
    exists w'. auto.
  - destruct (shuffleFlashcards_permutes _ new_app Hr) as (H & _).
    apply H. reflexivity.
Defined.

(** ** Input limits *)

Lemma trim_start_drop (s : jsstring) : exists k, trim_start s = drop k s.
Proof.
  induction s as [|c s [k IH]]; [exists O; reflexivity|].
  cbn. destruct (is_trim_space c); [exists (S k); exact IH | exists O; reflexivity].
Qed.

Lemma trim_start_head (s : jsstring) (c : N) (r : jsstring) :
  trim_start s = c :: r -> is_trim_space c = false.
Proof.
  induction s as [|x s IH]; cbn; [discriminate|].
  destruct (is_trim_space x) eqn:E; [exact IH|]. intros [= -> _]. exact E.
Qed.

Lemma trim_start_nil (s : jsstring) :
  trim_start s = [] -> Forall (fun c => is_trim_space c = true) s.
Proof.
  induction s as [|x s IH]; cbn; [constructor|].
  destruct (is_trim_space x) eqn:E; [|discriminate].
  intros H. constructor; auto.
Qed.

Lemma trim_take (s : jsstring) : exists m, trim s = take m (trim_start s).
Proof.
  unfold trim. destruct (trim_start_drop (rev (trim_start s))) as [k ->].
  exists (length (trim_start s) - k)%nat.
  rewrite skipn_rev. apply rev_involutive.
Qed.

Lemma trim_length (s : jsstring) : (length (trim s) <= length s)%nat.
Proof.
  destruct (trim_take s) as [m ->]. destruct (trim_start_drop s) as [k ->].
  rewrite length_take, length_drop. lia.
Qed.

Lemma trim_head (s : jsstring) (c : N) (r : jsstring) :
  trim s = c :: r -> is_trim_space c = false.
Proof.
  destruct (trim_take s) as [m ->].
  destruct (trim_start s) as [|x u] eqn:E; [destruct m; discriminate|].
  destruct m; [discriminate|]. cbn. intros [= -> _].
  exact (trim_start_head _ _ _ E).
Qed.

Lemma trim_nonempty (c : N) (r : jsstring) :
  is_trim_space c = false -> trim (c :: r) <> [].
Proof.
  intros Hc. unfold trim. cbn [trim_start]. rewrite Hc.
  intros H. apply (f_equal (@rev N)) in H. rewrite rev_involutive in H.
  change (rev []) with (@nil N) in H.
  apply trim_start_nil in H. rewrite Forall_forall in H.
  specialize (H c). rewrite H in Hc; [discriminate|].
  apply list_elem_of_In. apply -> in_rev. left. reflexivity.
Qed.

(** A trimmed text cut to a positive length keeps a visible first unit,
    so trimming it again neither empties nor lengthens it. *)
Lemma trim_of_cut (s : jsstring) (n : Z) :
  1 <= n -> len (trim s) > n ->
  trim (substring0 n (trim s)) <> [] /\
  len (trim (substring0 n (trim s))) <= n /\
  len (substring0 n (trim s)) = n.
Proof.
  intros Hn Hlen. unfold substring0, len in *.
  destruct (trim s) as [|c r] eqn:E; [cbn in Hlen; lia|].
  pose proof (trim_head _ _ _ E) as Hc.
  destruct (Z.to_nat n) as [|k] eqn:Ek; [lia|].
  cbn [take]. split; [apply trim_nonempty; exact Hc|].
  split.
  - pose proof (trim_length (c :: take k r)) as L.
    cbn [length] in *. rewrite length_take in L. lia.
  - cbn [length] in *. rewrite length_take. lia.
Qed.

Lemma limit_positive (f : input_field) : 1 <= limit f.
Proof. destruct f; cbn; lia. Qed.

Lemma len_nil_iff {A} (l : list A) : l = [] <-> len l = 0.
Proof. unfold len. destruct l; cbn; split; intros; (congruence || lia). Qed.

(** The length test of the four generation methods, on a text over the
    limit. *)
Lemma submit_over_limit (f : input_field) (w : World) :
  len (trim (value f (elements w))) > limit f ->
  submit f w =
  Returned (with_elements
              (set_value f (substring0 (limit f) (trim (value f (elements w)))))
              (showNotification (limit_message f) (limit_kind f) w)).
Proof.
  intros H.
  assert (Hne : trim (value f (elements w)) <> []).
  { intros E. rewrite E in H. pose proof (limit_positive f).
    unfold len in H. cbn [length] in H. lia. }
  destruct f;
    unfold submit, generateExplanation_submit, summarizeNotes_submit,
      generateQuiz_submit, generateFlashcards_submit,
      value, limit, limit_message, limit_kind, set_value in *;
    rewrite bool_decide_false by exact Hne;
    match goal with |- context [?a >? ?b] =>
      destruct (Z.gtb_spec a b) as [_|?]; [reflexivity|lia] end.
Qed.

Lemma value_set_value (f : input_field) (v : jsstring) (e : Elements) :
  value f (set_value f v e) = v.
Proof. destruct f; reflexivity. Qed.

(** The same test on a text that fits: the request goes out with the
    trimmed text and the field is left alone. *)
Lemma submit_within_limit (f : input_field) (w : World) :
  trim (value f (elements w)) <> [] ->
  len (trim (value f (elements w))) <= limit f ->
  exists w' r,
    submit f w = Awaiting w' /\
    requests w' = requests w ++ [r] /\
    sent_text r = Some (trim (value f (elements w))) /\
    value f (elements w') = value f (elements w) /\
    notifications w' = notifications w /\
    state w' = state w.
Proof.
  intros Hne Hle.
  destruct f;
    unfold submit, generateExplanation_submit, summarizeNotes_submit,
      generateQuiz_submit, generateFlashcards_submit,
      value, limit in *;
    rewrite bool_decide_false by exact Hne;
    match goal with |- context [?a >? ?b] =>
      destruct (Z.gtb_spec a b) as [?|_]; [lia|] end;
    eexists; eexists; (split; [reflexivity|]); cbn; auto.
Qed.

Lemma validateInput_over_limit (f : input_field) (max : Z) (w : World) :
  len (value f (elements w)) > max ->
  validateInput f max w =
  showNotification
    (lit "Limited to " ++ num max ++ lit " characters for Phi-3 optimization") warning
    (with_elements (set_value f (substring0 max (value f (elements w)))) w).
Proof.
  intros H. unfold validateInput.
  destruct (Z.gtb_spec (len (value f (elements w))) max); [reflexivity|lia].
Qed.

Lemma validateInput_within_limit (f : input_field) (max : Z) (w : World) :
  len (value f (elements w)) <= max -> validateInput f max w = w.
Proof.
  intros H. unfold validateInput.
  destruct (Z.gtb_spec (len (value f (elements w))) max); [lia|reflexivity].
Qed.

Lemma validateInput_truncates (f : input_field) (w : World) :
  len (value f (elements w)) > limit f ->
  value f (elements (validateInput f (limit f) w)) =
    substring0 (limit f) (value f (elements w)) /\
  len (value f (elements (validateInput f (limit f) w))) = limit f /\
  notifications (validateInput f (limit f) w) =
    notifications w ++
    [mkNotification
       (lit "Limited to " ++ num (limit f) ++ lit " characters for Phi-3 optimization")
       warning] /\
  requests (validateInput f (limit f) w) = requests w /\
  validateInput f (limit f) (validateInput f (limit f) w) =
    validateInput f (limit f) w.
Proof.
  intros H. pose proof (limit_positive f) as Hpos.
  assert (Hcut : len (substring0 (limit f) (value f (elements w))) = limit f).
  { unfold substring0, len in *. rewrite length_take. lia. }
  assert (Hv : value f (elements (validateInput f (limit f) w)) =
               substring0 (limit f) (value f (elements w))).
  { rewrite validateInput_over_limit by exact H. apply value_set_value. }
  split; [exact Hv|]. split; [rewrite Hv; exact Hcut|].
  split; [rewrite validateInput_over_limit by exact H; reflexivity|].
  split; [rewrite validateInput_over_limit by exact H; reflexivity|].
  apply validateInput_within_limit. rewrite Hv. lia.
Qed.

(** C4, as the code has it.  When the trimmed text of a field is longer
    than the field's limit (500 topic, 2000 notes, 1000 quiz content, 800
    flashcards content), the generation method writes the trimmed text cut
    to exactly the limit back into the field, raises one notification
    (warning for the topic, info for the others) and returns: no request
    is issued and the state is untouched.  Submitting again sends the
    request, with a text of at most the limit, and leaves the field at
    that length.  A text that fits once trimmed is sent trimmed, with the
    field left as typed.  The input listener [validateInput] cuts a longer
    value to exactly the limit, with a warning, and is idempotent. *)
Theorem over_limit_is_cut_not_sent (f : input_field) (w : World) :
  (len (trim (value f (elements w))) > limit f ->
   exists w1,
     submit f w = Returned w1 /\
     value f (elements w1) = substring0 (limit f) (trim (value f (elements w))) /\
     len (value f (elements w1)) = limit f /\
     notifications w1 =
       notifications w ++ [mkNotification (limit_message f) (limit_kind f)] /\
     requests w1 = requests w /\
     state w1 = state w /\
     exists w2 r t,
       submit f w1 = Awaiting w2 /\
       requests w2 = requests w1 ++ [r] /\
       sent_text r = Some t /\ 0 < len t <= limit f /\
       value f (elements w2) = value f (elements w1)) /\
  (trim (value f (elements w)) <> [] ->
   len (trim (value f (elements w))) <= limit f ->
   exists w1 r,
     submit f w = Awaiting w1 /\
     requests w1 = requests w ++ [r] /\
     sent_text r = Some (trim (value f (elements w))) /\
     value f (elements w1) = value f (elements w) /\
     notifications w1 = notifications w) /\
  (len (value f (elements w)) > limit f ->
   len (value f (elements (validateInput f (limit f) w))) = limit f /\
   notifications (validateInput f (limit f) w) =
     notifications w ++
     [mkNotification
        (lit "Limited to " ++ num (limit f) ++ lit " characters for Phi-3 optimization")
        warning] /\
   requests (validateInput f (limit f) w) = requests w /\
   validateInput f (limit f) (validateInput f (limit f) w) =
     validateInput f (limit f) w).
Proof.
  split; [|split].
  - intros Hlong. pose proof (limit_positive f) as Hpos.
    destruct (trim_of_cut _ _ Hpos Hlong) as (Hne & Hle & Hcut).
    eexists. split; [apply submit_over_limit; exact Hlong|].
    set (w1 := with_elements _ _).
    assert (Hv : value f (elements w1) =
                 substring0 (limit f) (trim (value f (elements w)))).
    { subst w1. cbn. apply value_set_value. }
    split; [exact Hv|]. split; [rewrite Hv; exact Hcut|].
    split; [reflexivity|]. split; [reflexivity|]. split; [reflexivity|].
    destruct (submit_within_limit f w1) as (w2 & r & Hs & Hr & Ht & Hval & _).
    { rewrite Hv. exact Hne. }
    { rewrite Hv. exact Hle. }
    exists w2, r, (trim (value f (elements w1))).
    repeat split; try assumption.
    + rewrite Hv.
      destruct (trim (substring0 (limit f) (trim (value f (elements w)))));
        [congruence|]. unfold len. cbn [length]. lia.
    + rewrite Hv. exact Hle.
  - intros Hne Hle.
    destruct (submit_within_limit f w Hne Hle) as (w1 & r & H1 & H2 & H3 & H4 & H5 & _).
    exists w1, r. auto.
  - intros Hlong.
    destruct (validateInput_truncates f w Hlong) as (_ & H1 & H2 & H3 & H4).
    auto.
Qed.

Lemma over_limit_is_cut_not_sent_witness :
  (exists w1,
     submit TopicInput (with_elements (set_topicInput long_topic) new_app) = Returned w1 /\
     len (topicInput (elements w1)) = 500 /\
     requests w1 = [] /\
     exists w2 r t, submit TopicInput w1 = Awaiting w2 /\
       requests w2 = [r] /\ sent_text r = Some t /\ len t <= 500) /\
  len (topicInput (elements
         (validateInput TopicInput 500
            (with_elements (set_topicInput long_topic) new_app)))) = 500.
Proof.
  destruct (over_limit_is_cut_not_sent TopicInput
              (with_elements (set_topicInput long_topic) new_app)) as (Hs & _ & Hv).
  split.
  - destruct Hs as (w1 & H1 & _ & H2 & _ & H3 & _ & w2 & r & t & H4 & H5 & H6 & H7 & _);
      [vm_compute; reflexivity|].
    exists w1. repeat split; try assumption.
    exists w2, r, t. rewrite H3 in H5. change (limit TopicInput) with 500 in H7.
    repeat split; try assumption. lia.
  - apply Hv. vm_compute. reflexivity.
Defined.

(** C4 as stated fails: a topic of 501 letters is cut to 500 and the
    method returns before [fetch]; no request exists afterwards, whatever
    the backend would have answered. *)
Lemma long_topic_is_not_sent :
  len (trim long_topic) > limit TopicInput /\
  (exists w', generateExplanation_submit
                (with_elements (set_topicInput long_topic) new_app) = Returned w' /\
     requests w' = []) /\
  requests (world_of (generateExplanation (Response 200 (Some (JObj [])))
                        (with_elements (set_topicInput long_topic) new_app))) = [].
Proof.
  split; [vm_compute; reflexivity|].
  split; [eexists; split; vm_compute; reflexivity|].
  vm_compute. reflexivity.
Qed.

(** ** Saving an empty deck *)

(** C10.  With an empty deck [saveFlashcards] only raises the warning
    "No flashcards to save": storage, and with it any deck saved earlier,
    is left as it was, whether or not a write would have gone through. *)
Theorem saveFlashcards_empty_deck_keeps_storage (io : storage_io) (w : World) :
  flashcards (state w) = [] ->
  saveFlashcards io w = showNotification (lit "No flashcards to save") warning w /\
  localStorage (saveFlashcards io w) = localStorage w /\
  notifications (saveFlashcards io w) =
    notifications w ++ [mkNotification (lit "No flashcards to save") warning].
Proof.
  intros H. unfold saveFlashcards. rewrite H. cbn. auto.
Qed.

Lemma saveFlashcards_empty_deck_keeps_storage_witness :
  localStorage
    (saveFlashcards StorageOk
       (store flashcards_key (JSON.stringify_deck sample_deck) new_app))
    !! flashcards_key
  = Some (JSON.stringify_deck sample_deck).
Proof.
  destruct (saveFlashcards_empty_deck_keeps_storage StorageOk
              (store flashcards_key (JSON.stringify_deck sample_deck) new_app))
    as (_ & -> & _); [reflexivity|].
  cbn. apply lookup_insert_eq.
Defined.

(** ** Responses without content *)

Lemma num_0 : num 0 = lit "0".
Proof. reflexivity. Qed.

(** C9.  A 2xx response to the flashcards request whose body has no
    [flashcards] property, or has it [null], is not an error: the deck
    becomes empty, the cursor 0, the flag clear, and the notification of
    kind success reports 0 generated flashcards. *)
Theorem generateFlashcards_without_deck (status : Z) (data : json) (w : World) :
  response_ok status = true ->
  get data (lit "flashcards") = Some None \/
  get data (lit "flashcards") = Some (Some JNull) ->
  exists w',
    generateFlashcards_receive (Response status (Some data)) w = InModel (Normal w') /\
    flashcards (state w') = [] /\
    currentFlashcardIndex (state w') = 0 /\
    isFlashcardFlipped (state w') = false /\
    notifications w' =
      notifications w ++
      [mkNotification (lit "Generated 0 flashcards with Phi-3!") success] /\
    console w' = console w.
Proof.
  intros Hok Hget. unfold generateFlashcards_receive. rewrite Hok. cbn [negb].
  assert (Hdeck : response_deck data = Some (Some [])).
  { unfold response_deck. destruct Hget as [-> | ->]; reflexivity. }
  rewrite Hdeck. eexists. split; [reflexivity|].
  cbn. repeat split; reflexivity.
Qed.

Lemma generateFlashcards_without_deck_witness :
  exists w',
    generateFlashcards_receive
      (Response 200 (Some (JObj [(lit "cards", JArr [])])))
      (with_deck sample_deck 2 new_app) = InModel (Normal w') /\
    flashcards (state w') = [] /\
    notifications w' =
      [mkNotification (lit "Generated 0 flashcards with Phi-3!") success].
Proof.
  destruct (generateFlashcards_without_deck 200 (JObj [(lit "cards", JArr [])])
              (with_deck sample_deck 2 new_app))
    as (w' & H1 & H2 & _ & _ & H3 & _);
    [reflexivity | left; reflexivity |].
  exists w'. auto.
Defined.

(** Every value that holds no object with a property named [toString]
    converts to text; strings, numbers, booleans and [null] do. *)
Lemma primitive_converts (v : json) :
  match v with JArr _ | JObj _ => False | _ => True end -> converts v = true.
Proof. destruct v; intros H; reflexivity || destruct H. Qed.




(** ** Start-up *)



Lemma checkBackend_frame (resp : fetch_result) (w : World) :
  let w' := snd (checkBackend resp w) in
  requests w' = requests w ++ [GET (backendUrl (state w) ++ lit "/health")] /\
  timers w' = timers w /\ notifications w' = notifications w /\
  loadingScreen_hidden (elements w') = loadingScreen_hidden (elements w) /\
  apiUrl (state w') = apiUrl (state w) /\
  connectionStatus (state w') =
    (if fst (checkBackend resp w) then lit "connected" else lit "disconnected").
Proof.
  unfold checkBackend. destruct resp as [|status [data|]]; cbn;
    try destruct (response_ok status); cbn; auto 10.
Qed.

(** The verdict depends on the response alone. *)
Lemma checkBackend_verdict (resp : fetch_result) (w1 w2 : World) :
  fst (checkBackend resp w1) = fst (checkBackend resp w2).
Proof.
  unfold checkBackend. destruct resp as [|status [data|]]; cbn;
    try destruct (response_ok status); reflexivity.
Qed.



(** ** Loading from storage *)

Lemma saved_item_absent (key : jsstring) (w : World) :
  localStorage w !! key = None \/ localStorage w !! key = Some [] ->
  saved_item key w = None.
Proof. unfold saved_item. intros [-> | ->]; reflexivity. Qed.

Lemma saved_item_present (key text : jsstring) (w : World) :
  localStorage w !! key = Some text -> text <> [] ->
  saved_item key w = Some text.
Proof. unfold saved_item. intros -> H. destruct text; congruence. Qed.

(** C5, as the code has it.  Without a usable item in storage both loaders
    leave the state as it is, but they do not report alike.
    [loadSettings]: nothing at all happens when the item is absent or
    empty; text that does not parse is logged with [console.error] and no
    notification is raised.  [loadFlashcards]: an absent or empty item
    raises the info notification "No saved flashcards found"; text that
    does not parse raises the error notification "Failed to load
    flashcards" and is not logged. *)
Theorem loaders_without_usable_data (w : World) :
  (localStorage w !! settings_key = None \/
   localStorage w !! settings_key = Some [] ->
   loadSettings StorageOk w = InModel (Normal w)) /\
  (forall text,
     localStorage w !! settings_key = Some text -> text <> [] ->
     JSON.parse text = None ->
     loadSettings StorageOk w =
       InModel (Normal (log_console (lit "Error loading settings:") w))) /\
  (localStorage w !! flashcards_key = None \/
   localStorage w !! flashcards_key = Some [] ->
   loadFlashcards StorageOk w =
     InModel (Normal (showNotification (lit "No saved flashcards found") info w))) /\
  (forall text,
     localStorage w !! flashcards_key = Some text -> text <> [] ->
     JSON.parse text = None ->
     loadFlashcards StorageOk w =
       InModel (Normal (showNotification (lit "Failed to load flashcards") error w))).
Proof.
  unfold loadSettings, loadFlashcards. repeat split.
  - intros H. rewrite (saved_item_absent _ _ H). reflexivity.
  - intros text H Hne Hparse.
    rewrite (saved_item_present _ _ _ H Hne), Hparse. reflexivity.
  - intros H. rewrite (saved_item_absent _ _ H). reflexivity.
  - intros text H Hne Hparse.
    rewrite (saved_item_present _ _ _ H Hne), Hparse. reflexivity.
Qed.

Lemma loaders_without_usable_data_witness :
  loadSettings StorageOk new_app = InModel (Normal new_app) /\
  loadSettings StorageOk (store settings_key (lit "{oops") new_app) =
    InModel (Normal (log_console (lit "Error loading settings:")
                       (store settings_key (lit "{oops") new_app))) /\
  loadFlashcards StorageOk new_app =
    InModel (Normal (showNotification (lit "No saved flashcards found") info new_app)) /\
  loadFlashcards StorageOk (store flashcards_key (lit "{oops") new_app) =
    InModel (Normal (showNotification (lit "Failed to load flashcards") error
                       (store flashcards_key (lit "{oops") new_app))).
Proof.
  destruct (loaders_without_usable_data new_app) as (H1 & _ & H3 & _).
  destruct (loaders_without_usable_data (store settings_key (lit "{oops") new_app))
    as (_ & H2 & _).
  destruct (loaders_without_usable_data (store flashcards_key (lit "{oops") new_app))
    as (_ & _ & _ & H4).
  split; [apply H1; left; apply lookup_empty|].
  split; [apply (H2 (lit "{oops"));
          [apply lookup_insert_eq | discriminate | vm_compute; reflexivity]|].
  split; [apply H3; left; apply lookup_empty|].
  apply (H4 (lit "{oops"));
    [apply lookup_insert_eq | discriminate | vm_compute; reflexivity].
Defined.

(** C5 as stated fails for the deck: stored text that does not parse is
    surfaced to the user by a notification of kind error, and nothing is
    logged. *)
Lemma malformed_deck_is_reported :
  JSON.parse (lit "{oops") = None /\
  exists w',
    loadFlashcards StorageOk (store flashcards_key (lit "{oops") new_app)
      = InModel (Normal w') /\
    notifications w' = [mkNotification (lit "Failed to load flashcards") error] /\
    console w' = [] /\
    state w' = initial_state.
Proof.
  split; [vm_compute; reflexivity|].
  eexists. split.
  - unfold loadFlashcards.
    rewrite (saved_item_present flashcards_key (lit "{oops"));
      [|apply lookup_insert_eq|discriminate].
    replace (JSON.parse (lit "{oops")) with (@None json) by (vm_compute; reflexivity).
    reflexivity.
  - repeat split.
Qed.

(** ** The deck through [JSON.stringify] and [JSON.parse] *)

Section RoundTrip.

Import JSON.

Lemma hex_value_digit (d : N) : (d < 16)%N -> hex_value (hex_digit d) = Some d.
Proof.
  intros H. unfold hex_value, hex_digit.
  destruct (N.ltb_spec d 10).
  - replace ((48 <=? 48 + d) && (48 + d <=? 57))%N with true.
    + f_equal. lia.
    + symmetry. apply andb_true_iff. split; apply N.leb_le; lia.
  - replace ((48 <=? 87 + d) && (87 + d <=? 57))%N with false.
    + replace ((97 <=? 87 + d) && (87 + d <=? 102))%N with true.
      * f_equal. lia.
      * symmetry. apply andb_true_iff. split; apply N.leb_le; lia.
    + symmetry. apply andb_false_iff. right. apply N.leb_gt. lia.
Qed.

Lemma hex_digits_value (c : N) :
  (c < 65536)%N ->
  (16 * (16 * (16 * (16 * 0 + c / 4096 mod 16) + c / 256 mod 16) + c / 16 mod 16)
   + c mod 16 = c)%N.
Proof.
  intros H.
  assert (c / 4096 < 16)%N by (apply N.Div0.div_lt_upper_bound; lia).
  zify. Z.to_euclidean_division_equations. lia.
Qed.

Lemma lex_step_hex (acc : jsstring) (seen : nat) (v d : N) (toks : list token) :
  (d < 16)%N ->
  lex_step (LUnicode acc seen v) toks (hex_digit d) =
  Some (if (seen =? 3)%nat then LString ((16 * v + d)%N :: acc)
        else LUnicode acc (S seen) (16 * v + d)%N, toks).
Proof.
  intros H. cbn [lex_step]. rewrite (hex_value_digit d H).
  destruct (seen =? 3)%nat; reflexivity.
Qed.

Lemma mod_16_lt (n : N) : (n mod 16 < 16)%N.
Proof. apply N.mod_lt. discriminate. Qed.

(** An escape [\uXXXX] written by the serialiser is read back as the unit
    it stands for. *)
Lemma lex_unicode_escape (c : N) (acc : jsstring) (toks : list token) (tail : jsstring) :
  (c < 65536)%N ->
  lex_run (LString acc) toks (unicode_escape c ++ tail) =
  lex_run (LString (c :: acc)) toks tail.
Proof.
  intros H. unfold unicode_escape. cbn [app].
  change (lex_run (LString acc) toks (92%N :: 117%N :: ?r)) with
    (lex_run (LUnicode acc 0 0%N) toks r).
  cbn [lex_run].
  rewrite (lex_step_hex acc 0 0 _ toks (mod_16_lt _)). cbn [Nat.eqb lex_run].
  rewrite (lex_step_hex acc 1 _ _ toks (mod_16_lt _)). cbn [Nat.eqb lex_run].
  rewrite (lex_step_hex acc 2 _ _ toks (mod_16_lt _)). cbn [Nat.eqb lex_run].
  rewrite (lex_step_hex acc 3 _ _ toks (mod_16_lt _)). cbn [Nat.eqb lex_run].
  rewrite (hex_digits_value c H). reflexivity.
Qed.

Lemma lex_step_raw (c : N) (acc : jsstring) (toks : list token) :
  c <> 34%N -> c <> 92%N -> (32 <= c)%N ->
  lex_step (LString acc) toks c = Some (LString (c :: acc), toks).
Proof.
  intros H1 H2 H3. cbn [lex_step].
  destruct (N.eqb_spec c 34); [congruence|].
  destruct (N.eqb_spec c 92); [congruence|].
  destruct (N.ltb_spec c 32); [lia|reflexivity].
Qed.

Lemma leading_surrogate_range (c : N) :
  is_leading_surrogate c = true -> (55296 <= c <= 56319)%N.
Proof.
  unfold is_leading_surrogate. intros [H1 H2]%andb_true_iff.
  apply N.leb_le in H1, H2. lia.
Qed.

Lemma trailing_surrogate_range (c : N) :
  is_trailing_surrogate c = true -> (56320 <= c <= 57343)%N.
Proof.
  unfold is_trailing_surrogate. intros [H1 H2]%andb_true_iff.
  apply N.leb_le in H1, H2. lia.
Qed.

(** A unit that does not open a surrogate pair. *)
Lemma lex_quote_unit (c : N) (acc : jsstring) (toks : list token) (tail : jsstring) :
  lex_run (LString acc) toks (quote_unit c ++ tail) =
  lex_run (LString (c :: acc)) toks tail.
Proof.
  unfold quote_unit.
  destruct (N.eqb_spec c 8) as [->|?]; [reflexivity|].
  destruct (N.eqb_spec c 9) as [->|?]; [reflexivity|].
  destruct (N.eqb_spec c 10) as [->|?]; [reflexivity|].
  destruct (N.eqb_spec c 12) as [->|?]; [reflexivity|].
  destruct (N.eqb_spec c 13) as [->|?]; [reflexivity|].
  destruct (N.eqb_spec c 34) as [->|?]; [reflexivity|].
  destruct (N.eqb_spec c 92) as [->|?]; [reflexivity|].
  destruct (N.ltb_spec c 32) as [?|?]; cbn [orb].
  - apply lex_unicode_escape. lia.
  - destruct (is_trailing_surrogate c) eqn:E.
    + apply lex_unicode_escape. apply trailing_surrogate_range in E. lia.
    + cbn [app lex_run]. rewrite lex_step_raw by assumption. reflexivity.
Qed.

(** The body of a quoted string is read back unit for unit. *)
Lemma lex_quote_units (s : jsstring) :
  forall (acc : jsstring) (toks : list token) (tail : jsstring),
    lex_run (LString acc) toks (quote_units s ++ tail) =
    lex_run (LString (rev s ++ acc)) toks tail.
Proof.
  remember (length s) as n eqn:Hn. revert s Hn.
  induction n as [n IH] using lt_wf_ind. intros s Hn acc toks tail.
  destruct s as [|c rest]; [reflexivity|].
  cbn [quote_units rev]. rewrite <- app_assoc. cbn [app].
  destruct (is_leading_surrogate c) eqn:Hc.
  - apply leading_surrogate_range in Hc.
    destruct rest as [|d rest'].
    + rewrite lex_unicode_escape by lia. reflexivity.
    + destruct (is_trailing_surrogate d) eqn:Hd.
      * apply trailing_surrogate_range in Hd.
        cbn [app lex_run]. rewrite lex_step_raw by lia.
        rewrite lex_step_raw by lia.
        rewrite (IH (length rest')) by (cbn in Hn; lia || reflexivity).
        cbn [rev]. rewrite <- !app_assoc. reflexivity.
      * rewrite <- app_assoc, lex_unicode_escape by lia.
        rewrite (IH (length (d :: rest'))) by (cbn in *; lia || reflexivity).
        reflexivity.
  - rewrite <- app_assoc, lex_quote_unit.
    rewrite (IH (length rest)) by (cbn in *; lia || reflexivity).
    reflexivity.
Qed.

Lemma lex_quote (s : jsstring) (toks : list token) (tail : jsstring) :
  lex_run LStart toks (quote s ++ tail) = lex_run LStart (TString s :: toks) tail.
Proof.
  unfold quote. rewrite <- !app_assoc. cbn [app lex_run].
  change (lex_step LStart toks 34%N) with (Some (LString [], toks)). cbn iota beta.
  rewrite lex_quote_units. cbn [lex_run].
  change (lex_step (LString (rev s ++ [])) toks 34%N)
    with (Some (LStart, TString (rev (rev s ++ [])) :: toks)).
  cbn iota beta. rewrite app_nil_r, rev_involutive. reflexivity.
Qed.

Lemma lex_punctuation (toks : list token) (tail : jsstring) :
  lex_run LStart toks (lit "{" ++ tail) = lex_run LStart (TLBrace :: toks) tail /\
  lex_run LStart toks (lit "}" ++ tail) = lex_run LStart (TRBrace :: toks) tail /\
  lex_run LStart toks (lit "[" ++ tail) = lex_run LStart (TLBracket :: toks) tail /\
  lex_run LStart toks (lit "]" ++ tail) = lex_run LStart (TRBracket :: toks) tail /\
  lex_run LStart toks (lit ":" ++ tail) = lex_run LStart (TColon :: toks) tail /\
  lex_run LStart toks (lit "," ++ tail) = lex_run LStart (TComma :: toks) tail.
Proof. repeat split. Qed.

Lemma lex_literals (toks : list token) (tail : jsstring) :
  lex_run LStart toks (lit "null" ++ tail) = lex_run LStart (TNull :: toks) tail /\
  lex_run LStart toks (lit "true" ++ tail) = lex_run LStart (TTrue :: toks) tail /\
  lex_run LStart toks (lit "false" ++ tail) = lex_run LStart (TFalse :: toks) tail.
Proof. repeat split. Qed.

Lemma lex_scalar (v : scalar) (toks : list token) (tail : jsstring) :
  lex_run LStart toks (stringify_scalar v ++ tail) =
  lex_run LStart (scalar_token v :: toks) tail.
Proof.
  destruct v as [|[|]|s]; cbn [stringify_scalar scalar_token].
  - apply lex_literals.
  - apply lex_literals.
  - apply lex_literals.
  - apply lex_quote.
Qed.

Lemma lex_property (p : jsstring * scalar) (toks : list token) (tail : jsstring) :
  lex_run LStart toks (stringify_property p ++ tail) =
  lex_run LStart (rev (property_tokens p) ++ toks) tail.
Proof.
  unfold stringify_property, property_tokens. rewrite <- !app_assoc.
  rewrite lex_quote.
  match goal with |- lex_run LStart ?t (lit ":" ++ ?r) = _ =>
    destruct (lex_punctuation t r) as (_ & _ & _ & _ & -> & _) end.
  rewrite lex_scalar. reflexivity.
Qed.

(** Parts that lex to their tokens do so when joined by commas. *)
Lemma lex_join {A} (write : A -> jsstring) (tokens : A -> list token) :
  (forall a toks tail,
     lex_run LStart toks (write a ++ tail) =
     lex_run LStart (rev (tokens a) ++ toks) tail) ->
  forall (l : list A) toks tail,
    lex_run LStart toks (join (map write l) ++ tail) =
    lex_run LStart (rev (separated (map tokens l)) ++ toks) tail.
Proof.
  intros Hpart l. induction l as [|a l IH]; intros toks tail; [reflexivity|].
  destruct l as [|b l].
  - apply Hpart.
  - change (join (map write (a :: b :: l)))
      with (write a ++ lit "," ++ join (map write (b :: l))).
    change (separated (map tokens (a :: b :: l)))
      with (tokens a ++ TComma :: separated (map tokens (b :: l))).
    rewrite <- !app_assoc, Hpart.
    match goal with |- lex_run LStart ?t (lit "," ++ ?r) = _ =>
      destruct (lex_punctuation t r) as (_ & _ & _ & _ & _ & ->) end.
    rewrite IH. f_equal.
    rewrite rev_app_distr. cbn [rev]. rewrite <- !app_assoc. reflexivity.
Qed.

Lemma lex_card (c : Flashcard) (toks : list token) (tail : jsstring) :
  lex_run LStart toks (stringify_card c ++ tail) =
  lex_run LStart (rev (card_tokens c) ++ toks) tail.
Proof.
  unfold stringify_card, card_tokens. rewrite <- !app_assoc.
  match goal with |- lex_run LStart ?t (lit "{" ++ ?r) = _ =>
    destruct (lex_punctuation t r) as (-> & _) end.
  rewrite (lex_join stringify_property property_tokens lex_property).
  match goal with |- lex_run LStart ?t (lit "}" ++ ?r) = _ =>
    destruct (lex_punctuation t r) as (_ & -> & _) end.
  f_equal. cbn [rev]. rewrite rev_app_distr. cbn [rev app].
  rewrite <- !app_assoc. reflexivity.
Qed.

(** The serialised deck lexes to its token list. *)
Lemma lex_stringify_deck (d : list Flashcard) :
  lex (stringify_deck d) = Some (deck_tokens d).
Proof.
  unfold lex, stringify_deck, deck_tokens.
  match goal with |- lex_run LStart ?t (lit "[" ++ ?r) = _ =>
    destruct (lex_punctuation t r) as (_ & _ & -> & _) end.
  rewrite (lex_join stringify_card card_tokens lex_card).
  replace (lit "]") with (lit "]" ++ []) by apply app_nil_r.
  match goal with |- lex_run LStart ?t (lit "]" ++ ?r) = _ =>
    destruct (lex_punctuation t r) as (_ & _ & _ & -> & _) end.
  cbn [lex_run lex_end]. f_equal.
  cbn [rev]. rewrite rev_app_distr, rev_involutive. reflexivity.
Qed.

Lemma separated_cons {A} (tokens : A -> list token) (a : A) (l : list A) :
  separated (map tokens (a :: l)) =
  tokens a ++ flat_map (fun x => TComma :: tokens x) l.
Proof.
  revert a. induction l as [|b l IH]; intros a.
  - cbn [map separated flat_map]. rewrite app_nil_r. reflexivity.
  - change (separated (map tokens (a :: b :: l)))
      with (tokens a ++ TComma :: separated (map tokens (b :: l))).
    rewrite IH. reflexivity.
Qed.

Lemma parse_scalar (v : scalar) (stk : list frame) (rest : list token) :
  parse_run (PValue stk) (scalar_token v :: rest) =
  parse_run (PDone (json_of_scalar v) stk) rest.
Proof. destruct v as [|[|]|s]; reflexivity. Qed.

Lemma parse_more_properties (ps : list (jsstring * scalar)) :
  forall (ms : list (jsstring * json)) (k : jsstring) (v : json)
         (stk : list frame) (rest : list token),
    parse_run (PDone v (FObj ms k :: stk))
      (flat_map (fun p => TComma :: property_tokens p) ps ++ TRBrace :: rest) =
    parse_run (PDone (JObj (rev ((k, v) :: ms) ++ map json_of_property ps)) stk) rest.
Proof.
  induction ps as [|[k' v'] ps IH]; intros ms k v stk rest.
  - cbn [flat_map map app]. rewrite app_nil_r. reflexivity.
  - cbn [flat_map property_tokens app fst snd].
    change (parse_run (PDone v (FObj ms k :: stk))
              (TComma :: TString k' :: TColon :: scalar_token v' :: ?r))
      with (parse_run (PValue (FObj ((k, v) :: ms) k' :: stk)) (scalar_token v' :: r)).
    rewrite parse_scalar, IH. cbn [rev map json_of_property fst snd].
    rewrite <- !app_assoc. reflexivity.
Qed.

Lemma parse_card (c : Flashcard) (stk : list frame) (rest : list token) :
  parse_run (PValue stk) (card_tokens c ++ rest) =
  parse_run (PDone (json_of_card c) stk) rest.
Proof.
  unfold card_tokens, json_of_card.
  destruct (properties c) as [|[k v] ps]; [reflexivity|].
  rewrite separated_cons. cbn [property_tokens fst snd app].
  rewrite <- !app_assoc.
  change (parse_run (PValue stk)
            (TLBrace :: TString k :: TColon :: scalar_token v :: ?r))
    with (parse_run (PValue (FObj [] k :: stk)) (scalar_token v :: r)).
  rewrite parse_scalar. cbn [app].
  rewrite parse_more_properties. reflexivity.
Qed.

Lemma parse_more_cards (d : list Flashcard) :
  forall (v : json) (acc : list json),
    parse_run (PDone v [FArr acc])
      (flat_map (fun c => TComma :: card_tokens c) d ++ [TRBracket]) =
    Some (JArr (rev (v :: acc) ++ map json_of_card d)).
Proof.
  induction d as [|c d IH]; intros v acc.
  - cbn. rewrite app_nil_r. reflexivity.
  - cbn [flat_map]. rewrite <- app_assoc.
    change (parse_run (PDone v [FArr acc]) ((TComma :: card_tokens c) ++ ?r))
      with (parse_run (PValue [FArr (v :: acc)]) (card_tokens c ++ r)).
    rewrite parse_card, IH. cbn [rev map]. rewrite <- !app_assoc. reflexivity.
Qed.

(** The token list of a deck parses to the deck as a value. *)
Lemma parse_deck_tokens (d : list Flashcard) :
  parse_run (PValue []) (deck_tokens d) = Some (json_of_deck d).
Proof.
  unfold deck_tokens, json_of_deck. destruct d as [|c d]; [reflexivity|].
  rewrite separated_cons, <- app_assoc.
  change (parse_run (PValue []) (TLBracket :: card_tokens c ++ ?r))
    with (parse_run (PValue [FArr []]) (card_tokens c ++ r)).
  rewrite parse_card, parse_more_cards. reflexivity.
Qed.

(** A card is determined by its properties. *)
Lemma card_eq (c1 c2 : Flashcard) : properties c1 = properties c2 -> c1 = c2.
Proof.
  destruct c1 as [ps1 H1], c2 as [ps2 H2]. cbn. intros ->.
  f_equal. apply proof_irrel.
Qed.

Lemma own_properties_of_card (ps : list (jsstring * scalar)) :
  mapM own_property (map json_of_property ps) = Some ps.
Proof.
  induction ps as [|[k v] ps IH]; [reflexivity|].
  cbn [map mapM]. change (own_property (json_of_property (k, v)))
    with (match scalar_of_json (json_of_scalar v) with
          | Some v' => Some (k, v')
          | None => None
          end).
  destruct v; cbn; rewrite IH; reflexivity.
Qed.

Lemma card_of_json_of_card (c : Flashcard) : card_of_json (json_of_card c) = Some c.
Proof.
  unfold card_of_json, json_of_card. rewrite own_properties_of_card.
  destruct (decide (Is_true (is_card (properties c)))) as [H|H].
  - f_equal. apply card_eq. reflexivity.
  - destruct H. apply is_Flashcard.
Qed.

Lemma deck_of_json_of_deck (d : list Flashcard) : deck_of_json (json_of_deck d) = Some d.
Proof.
  unfold deck_of_json, json_of_deck.
  induction d as [|c d IH]; [reflexivity|].
  cbn [map mapM]. rewrite card_of_json_of_card. cbn. rewrite IH. reflexivity.
Qed.

(** Parsing what [JSON.stringify] wrote for a deck gives the deck back. *)
Lemma parse_stringify_deck (d : list Flashcard) :
  parse (stringify_deck d) = Some (json_of_deck d) /\
  deck_of_json (json_of_deck d) = Some d.
Proof.
  split; [|apply deck_of_json_of_deck].
  unfold parse. rewrite lex_stringify_deck. apply parse_deck_tokens.
Qed.

(** A card holds a string under [question] and under [answer]. *)
Lemma card_strings (c : Flashcard) :
  property (lit "question") (properties c) = Some (SStr (question c)) /\
  property (lit "answer") (properties c) = Some (SStr (answer c)).
Proof.
  pose proof (is_Flashcard c) as H. unfold is_card in H.
  apply Is_true_true in H. rewrite !andb_true_iff in H.
  destruct H as [[_ Hq] Ha]. unfold question, answer.
  destruct (property (lit "question") (properties c)) as [[| |q]|]; try discriminate.
  destruct (property (lit "answer") (properties c)) as [[| |a]|]; try discriminate.
  split; reflexivity.
Qed.

End RoundTrip.

(** ** Saving then loading *)

Lemma stringify_deck_nonempty (d : list Flashcard) : JSON.stringify_deck d <> [].
Proof. unfold JSON.stringify_deck. discriminate. Qed.

(** C8.  Let [saveFlashcards] have stored a non-empty deck.  In every
    world whose storage still holds the item it wrote (the world right
    after the save, or a later one in which the deck in memory has been
    shuffled, cleared or replaced), [loadFlashcards] returns normally
    with the saved deck: the same cards with all their properties,
    question and answer included, in the same order, the cursor on 0 and
    the flag clear.  The save and the load each raise their success
    report, and the load writes nothing. *)
Theorem save_then_load_restores_deck (w w1 : World) :
  flashcards (state w) <> [] ->
  localStorage w1 !! flashcards_key =
    localStorage (saveFlashcards StorageOk w) !! flashcards_key ->
  exists w',
    loadFlashcards StorageOk w1 = InModel (Normal w') /\
    flashcards (state w') = flashcards (state w) /\
    map question (flashcards (state w')) = map question (flashcards (state w)) /\
    map answer (flashcards (state w')) = map answer (flashcards (state w)) /\
    currentFlashcardIndex (state w') = 0 /\
    isFlashcardFlipped (state w') = false /\
    localStorage w' = localStorage w1 /\
    notifications (saveFlashcards StorageOk w) =
      notifications w ++
      [mkNotification
         (lit "Saved " ++ num (len (flashcards (state w))) ++ lit " flashcards")
         success] /\
    notifications w' =
      notifications w1 ++
      [mkNotification
         (lit "Loaded " ++ num (len (flashcards (state w))) ++ lit " flashcards")
         success].
Proof.
  intros Hne. set (d := flashcards (state w)) in *.
  assert (Hlen : 1 <= len d).
  { unfold len. destruct d; [congruence|cbn; lia]. }
  unfold saveFlashcards. fold d.
  destruct (Z.eqb_spec (len d) 0) as [?|_]; [lia|].
  cbn [localStorage showNotification store notifications].
  rewrite lookup_insert_eq. intros Hstored.
  assert (Hitem : saved_item flashcards_key w1 = Some (JSON.stringify_deck d)).
  { apply saved_item_present; [exact Hstored|apply stringify_deck_nonempty]. }
  unfold loadFlashcards. rewrite Hitem.
  destruct (parse_stringify_deck d) as [-> ->].
  destruct (updateFlashcardDisplay_returns (replace_deck d w1)) as [w2 Hw2].
  { right. cbn. lia. }
  rewrite Hw2. cbn [andThen try_catch_outcome try_catch].
  eexists. split; [reflexivity|].
  pose proof (updateFlashcardDisplay_frame (replace_deck d w1)) as F.
  rewrite Hw2 in F. cbn [world_of] in F.
  destruct F as (Hst & Hnot & Hsto & _).
  cbn. rewrite Hst, Hnot, Hsto. cbn.
  repeat split.
Qed.

Lemma save_then_load_restores_deck_witness :
  flashcards
    (state (world_of
       (clearFlashcards true
          (saveFlashcards StorageOk (with_deck received_deck 1 new_app))))) = [] /\
  exists w',
    loadFlashcards StorageOk
      (world_of
         (clearFlashcards true
            (saveFlashcards StorageOk (with_deck received_deck 1 new_app))))
      = InModel (Normal w') /\
    flashcards (state w') = received_deck /\
    currentFlashcardIndex (state w') = 0.
Proof.
  split; [vm_compute; reflexivity|].
  destruct (save_then_load_restores_deck (with_deck received_deck 1 new_app)
              (world_of
                 (clearFlashcards true
                    (saveFlashcards StorageOk (with_deck received_deck 1 new_app)))))
    as (w' & H1 & H2 & _ & _ & H3 & _);
    [discriminate | vm_compute; reflexivity |].
  exists w'. auto.
Defined.

(** ** The cursor invariant *)

Lemma cursor_valid_replace (d : list Flashcard) (w : World) :
  cursor_valid (state (replace_deck d w)).
Proof.
  unfold cursor_valid. cbn. destruct d as [|c d]; [left; auto|right].
  unfold len. cbn. lia.
Qed.

Lemma cursor_valid_display (w : World) :
  cursor_valid (state w) ->
  exists w', updateFlashcardDisplay w = Normal w' /\ state w' = state w.
Proof.
  intros H. destruct (updateFlashcardDisplay_returns w) as [w' Hw'].
  - destruct H as [[-> _]|H]; [left; reflexivity|right; exact H].
  - exists w'. split; [exact Hw'|].
    apply (updateFlashcardDisplay_normal_state _ _ Hw').
Qed.

Lemma shuffle_loop_length {A} (r : nat -> nat) (i : nat) (a : list A) :
  length (shuffle_loop r i a) = length a.
Proof. apply Permutation_length, shuffle_loop_Permutation. Qed.

(** Every handler keeps the cursor valid. *)
Lemma react_keeps_cursor (ev : event) (w w' : World) :
  react ev w = Some w' -> cursor_valid (state w) -> cursor_valid (state w').
Proof.
  intros Hreact Hc.
  destruct ev; cbn in Hreact.
  - (* Navigate *)
    injection Hreact as <-. unfold navigateFlashcard.
    destruct (Z.eqb_spec (len (flashcards (state w))) 0) as [E|E]; [exact Hc|].
    match goal with |- context [updateFlashcardDisplay ?x] =>
      destruct (updateFlashcardDisplay_frame x) as (-> & _) end.
    right. cbn.
    destruct (Z.ltb_spec (currentFlashcardIndex (state w) + direction) 0);
      match goal with |- context [?a >=? ?b] => destruct (Z.geb_spec a b) end;
      unfold len in *; lia.
  - (* Flip *)
    injection Hreact as <-. unfold flipFlashcard.
    match goal with |- context [updateFlashcardDisplay ?x] =>
      destruct (updateFlashcardDisplay_frame x) as (-> & _) end.
    exact Hc.
  - (* Shuffle *)
    injection Hreact as <-. unfold shuffleFlashcards.
    destruct (Z.eqb_spec (len (flashcards (state w))) 0) as [E|E]; [exact Hc|].
    match goal with |- context [updateFlashcardDisplay ?x] =>
      pose proof (updateFlashcardDisplay_frame x) as (Hst & _);
      destruct (updateFlashcardDisplay x) end; cbn in *; rewrite Hst;
      right; cbn; unfold len in *; rewrite shuffle_loop_length; lia.
  - (* Mark *)
    injection Hreact as <-. unfold markFlashcardDifficulty.
    destruct (len (flashcards (state w)) =? 0); exact Hc.
  - (* Clear *)
    injection Hreact as <-. unfold clearFlashcards.
    destruct (len (flashcards (state w)) =? 0); [exact Hc|].
    destruct confirmed; [|exact Hc].
    destruct (cursor_valid_display _ (cursor_valid_replace [] w)) as (w1 & -> & Hs).
    cbn. rewrite Hs. apply cursor_valid_replace.
  - (* SaveDeck *)
    injection Hreact as <-. unfold saveFlashcards.
    destruct (len (flashcards (state w)) =? 0); [exact Hc|]. destruct io; exact Hc.
  - (* LoadDeck *)
    unfold loadFlashcards in Hreact. destruct io; cbn in Hreact.
    + destruct (saved_item flashcards_key w); cbn in Hreact.
      * destruct (JSON.parse _) as [v|]; cbn in Hreact.
        -- destruct (deck_of_json v) as [d|]; [|discriminate].
           destruct (cursor_valid_display _ (cursor_valid_replace d w))
             as (w1 & E & Hs).
           rewrite E in Hreact. cbn in Hreact. injection Hreact as <-. cbn.
           rewrite Hs. apply cursor_valid_replace.
        -- injection Hreact as <-. exact Hc.
      * injection Hreact as <-. exact Hc.
    + injection Hreact as <-. exact Hc.
  - (* Typed *)
    injection Hreact as <-. unfold validateInput.
    match goal with |- context [if ?b then _ else _] => destruct b end;
      destruct f; exact Hc.
  - (* Submit *)
    injection Hreact as <-.
    destruct f; unfold submit, generateExplanation_submit, summarizeNotes_submit,
      generateQuiz_submit, generateFlashcards_submit;
      repeat case_match; exact Hc.
  - (* ExplanationArrives *)
    injection Hreact as <-.
    unfold generateExplanation_receive, renderExplanation, try_catch, andThen.
    repeat case_match; simplify_eq; exact Hc.
  - (* SummaryArrives *)
    unfold summarizeNotes_receive, renderSummary, try_catch_outcome, try_catch, andThen
      in Hreact.
    repeat case_match; simplify_eq; exact Hc.
  - (* QuizArrives *)
    unfold generateQuiz_receive, renderQuiz, try_catch_outcome, try_catch, andThen
      in Hreact.
    repeat case_match; simplify_eq; exact Hc.
  - (* FlashcardsArrive *)
    unfold generateFlashcards_receive in Hreact.
    destruct resp as [|status [data|]]; cbn in Hreact;
      try (injection Hreact as <-; exact Hc).
    + destruct (response_ok status); cbn in Hreact;
        [|injection Hreact as <-; exact Hc].
      destruct (response_deck data) as [[d|]|]; cbn in Hreact;
        [|injection Hreact as <-; exact Hc|discriminate].
      destruct (cursor_valid_display _ (cursor_valid_replace d w)) as (w1 & E & Hs).
      rewrite E in Hreact. cbn in Hreact. injection Hreact as <-. cbn.
      rewrite Hs. apply cursor_valid_replace.
    + destruct (response_ok status); cbn in Hreact; injection Hreact as <-; exact Hc.
  - injection Hreact as <-. exact Hc.
  - injection Hreact as <-. exact Hc.
  - injection Hreact as <-. unfold saveSettings. destruct io; exact Hc.
  - destruct (timers w) as [|[delay cb] rest]; [discriminate|].
    injection Hreact as <-. destruct cb as [[|]]; exact Hc.
Qed.

(** From a state with a valid cursor no handler ends in an uncaught
    exception: redrawing always finds its card. *)
Lemma handlers_return (w : World) :
  cursor_valid (state w) ->
  (forall d, exists w', navigateFlashcard d w = Normal w') /\
  (exists w', flipFlashcard w = Normal w') /\
  (forall r, exists w', shuffleFlashcards r w = Normal w') /\
  (forall c, exists w', clearFlashcards c w = Normal w').
Proof.
  intros Hc. repeat split.
  - intros d. unfold navigateFlashcard.
    destruct (Z.eqb_spec (len (flashcards (state w))) 0) as [E|E]; [eauto|].
    apply updateFlashcardDisplay_returns. right. cbn.
    destruct (Z.ltb_spec (currentFlashcardIndex (state w) + d) 0);
      match goal with |- context [?a >=? ?b] => destruct (Z.geb_spec a b) end;
      unfold len in *; lia.
  - unfold flipFlashcard. apply updateFlashcardDisplay_returns. cbn.
    destruct Hc as [[-> _]|H]; [left; reflexivity|right; exact H].
  - intros r. unfold shuffleFlashcards.
    destruct (Z.eqb_spec (len (flashcards (state w))) 0) as [E|E]; [eauto|].
    match goal with |- context [updateFlashcardDisplay ?x] =>
      destruct (updateFlashcardDisplay_returns x) as [w1 ->] end; [|cbn; eauto].
    right. cbn. unfold len in *. rewrite shuffle_loop_length. lia.
  - intros c. unfold clearFlashcards.
    destruct (len (flashcards (state w)) =? 0); [eauto|].
    destruct c; [|eauto].
    destruct (cursor_valid_display _ (cursor_valid_replace [] w)) as (w1 & -> & _).
    cbn. eauto.
Qed.

(** ** The embedding at work *)

Example parse_accepts :
  JSON.parse (lit " [1, -2.5e+3, true, null, {}, []] ") =
  Some (JArr [JNum (lit "1"); JNum (lit "-2.5e+3"); JBool true; JNull;
              JObj []; JArr []]).
Proof. vm_compute. reflexivity. Qed.

Example parse_rejects :
  JSON.parse (lit "") = None /\
  JSON.parse (lit "{oops") = None /\
  JSON.parse (lit "[1,]") = None /\
  JSON.parse (lit "01") = None /\
  JSON.parse (lit "nul") = None /\
  JSON.parse (lit "[1] 2") = None /\
  JSON.parse (lit "'a'") = None.
Proof. vm_compute. repeat split. Qed.

Example parse_settings_text :
  JSON.parse (JSON.stringify_settings (lit "light") (lit "llama3") (lit "http://host:1")) =
  Some (JObj [(lit "theme", JStr (lit "light")); (lit "model", JStr (lit "llama3"));
              (lit "apiUrl", JStr (lit "http://host:1"))]).
Proof. vm_compute. reflexivity. Qed.

Example stringify_escapes :
  JSON.quote [97; 34; 10; 7; 55357; 56960; 55357]%N =
  ([34; 97; 92; 34; 92; 110] ++ lit "\u0007" ++ [55357; 56960] ++ lit "\ud83d" ++ [34])%N.
Proof. vm_compute. reflexivity. Qed.

(** A deck is written as it was received: the order of the properties of
    each card is kept, and so are the properties the application never
    reads. *)
Example stringify_received_deck :
  JSON.stringify_deck received_deck =
  quoted "[{'answer':'A','question':'Q','hint':'h'},{'question':'What is ATP?','starred':true,'answer':'Energy currency of the cell','source':null}]".
Proof. vm_compute. reflexivity. Qed.

Example deck_of_received_text :
  exists d,
    (JSON.parse (quoted "[{'answer':'A','question':'Q','hint':'h'}]")
       ≫= deck_of_json) = Some d /\
    map question d = [lit "Q"] /\ map answer d = [lit "A"] /\
    JSON.stringify_deck d = quoted "[{'answer':'A','question':'Q','hint':'h'}]".
Proof. eexists. split; [vm_compute; reflexivity|]. vm_compute. repeat split. Qed.

(** Values that are not cards of the model: a card without a string
    answer, a card with a number, a card with a repeated key, a card with
    a key written with digits, and a deck that is not an array. *)
Example values_outside_the_deck_model :
  (JSON.parse (quoted "[{'question':'Q'}]") ≫= deck_of_json) = None /\
  (JSON.parse (quoted "[{'question':'Q','answer':'A','n':1}]") ≫= deck_of_json) = None /\
  (JSON.parse (quoted "[{'question':'Q','answer':'A','answer':'B'}]")
     ≫= deck_of_json) = None /\
  (JSON.parse (quoted "[{'question':'Q','answer':'A','7':'x'}]") ≫= deck_of_json) = None /\
  (JSON.parse (quoted "{'question':'Q','answer':'A'}") ≫= deck_of_json) = None /\
  (JSON.parse (lit "null") ≫= deck_of_json) = None.
Proof. vm_compute. repeat split. Qed.

(** Conversion to text: only an object with a property named [toString],
    on its own or inside an array, makes it throw. *)
Example converts_examples :
  converts (JStr (lit "easy")) = true /\
  converts (JNum (lit "3")) = true /\
  converts JNull = true /\
  converts (JObj [(lit "level", JNum (lit "3"))]) = true /\
  converts (JArr [JNull; JArr [JObj []]]) = true /\
  converts (JObj [(lit "toString", JBool true)]) = false /\
  converts (JArr [JStr (lit "a"); JObj [(lit "toString", JNull)]]) = false.
Proof. repeat split. Qed.

Example trim_both_ends :
  trim ([32; 9; 160]%N ++ lit "a b" ++ [10; 8232; 32]%N) = lit "a b".
Proof. vm_compute. reflexivity. Qed.

Example loadSettings_applies_saved_settings :
  exists w',
    loadSettings StorageOk
      (store settings_key
         (JSON.stringify_settings (lit "light") (lit "llama3") (lit "http://host:1"))
         new_app) = InModel (Normal w') /\
    theme (state w') = lit "light" /\ model (state w') = lit "llama3" /\
    apiUrl (state w') = lit "http://host:1" /\ isPhi3 (state w') = false /\
    modelSelect (elements w') = lit "llama3".
Proof.
  eexists. split.
  - unfold loadSettings.
    rewrite (saved_item_present settings_key
               (JSON.stringify_settings (lit "light") (lit "llama3") (lit "http://host:1")));
      [|apply lookup_insert_eq|discriminate].
    replace (JSON.parse _) with
      (Some (JObj [(lit "theme", JStr (lit "light")); (lit "model", JStr (lit "llama3"));
                   (lit "apiUrl", JStr (lit "http://host:1"))]))
      by (symmetry; apply parse_settings_text).
    reflexivity.
  - repeat split.
Qed.

(** A quiz response without [questions] passes [renderQuiz] and then
    fails on [data.questions.length]: the error path. *)
Example generateQuiz_missing_questions :
  exists w',
    generateQuiz_receive (Response 200 (Some (JObj []))) new_app = InModel (Normal w') /\
    quizOutput (elements w') =
      ErrorState (lit "Failed to generate quiz. Try more focused content.") /\
    notifications w' = [mkNotification (lit "Quiz generation failed") error] /\
    console w' = [lit "Error:"].
Proof. eexists. split; [reflexivity|]. repeat split. Qed.

(** A flashcards response whose body is [null]: reading [data.flashcards]
    throws. *)
Example generateFlashcards_null_body :
  exists w',
    generateFlashcards_receive (Response 200 (Some JNull))
      (with_deck sample_deck 1 new_app) = InModel (Normal w') /\
    flashcards (state w') = sample_deck /\
    notifications w' = [mkNotification (lit "Failed to generate flashcards") error].
Proof. eexists. split; [reflexivity|]. repeat split. Qed.

Example shuffle_three_cards :
  flashcards (state (world_of
     (shuffleFlashcards Nat.pred (with_deck sample_deck 1 new_app)))) =
  match sample_deck with
  | [a; b; c] => [c; a; b]
  | _ => []
  end.
Proof. vm_compute. reflexivity. Qed.

Example submit_sends_trimmed_topic :
  exists w',
    generateExplanation_submit
      (with_elements (set_topicInput (lit "  Photosynthesis ")) new_app) = Awaiting w' /\
    requests w' =
      [POST (lit "http://localhost:8000/explain")
            (ExplainBody (lit "Photosynthesis") (lit "beginner") (lit "phi3:mini"))] /\
    explainOutput (elements w') = LoadingState (lit "Generating with Phi-3 Mini...").
Proof. eexists. split; [vm_compute; reflexivity|]. repeat split. Qed.

Example reveal_after_startup :
  exists w',
    run [TimerFires]
        (initializeApp (Response 200 (Some (JObj []))) NetworkError new_app) = Some w' /\
    loadingScreen_hidden (elements w') = true /\
    notifications w' =
      [mkNotification
         (lit "Concepta ready! Using mock responses (Start Ollama for AI)") warning].
Proof. eexists. split; [vm_compute; reflexivity|]. repeat split. Qed.

(** * Further properties *)

(** ** Submitting *)

(** X1.  A field that is empty or holds only white space is not sent: the
    method raises its warning and returns; no request is issued and
    neither the state nor the page changes. *)
Theorem blank_input_is_not_sent (f : input_field) (w : World) :
  trim (value f (elements w)) = [] ->
  submit f w = Returned (showNotification (empty_message f) warning w) /\
  requests (submitted (submit f w)) = requests w /\
  elements (submitted (submit f w)) = elements w /\
  state (submitted (submit f w)) = state w.
Proof.
  intros H.
  assert (E : submit f w = Returned (showNotification (empty_message f) warning w)).
  { destruct f;
      unfold submit, generateExplanation_submit, summarizeNotes_submit,
        generateQuiz_submit, generateFlashcards_submit, value in *;
      rewrite H; reflexivity. }
  rewrite E. repeat split.
Qed.

Lemma blank_input_is_not_sent_witness :
  submit NotesInput (with_elements (set_notesInput [32; 9; 10; 160]%N) new_app) =
  Returned (showNotification (lit "Please enter notes to summarize") warning
              (with_elements (set_notesInput [32; 9; 10; 160]%N) new_app)).
Proof.
  apply (blank_input_is_not_sent NotesInput
           (with_elements (set_notesInput [32; 9; 10; 160]%N) new_app)).
  vm_compute. reflexivity.
Defined.

Lemma submit_cases (f : input_field) (w : World) :
  (trim (value f (elements w)) = [] /\
   submit f w = Returned (showNotification (empty_message f) warning w)) \/
  (len (trim (value f (elements w))) > limit f /\
   submit f w =
   Returned (with_elements
               (set_value f (substring0 (limit f) (trim (value f (elements w)))))
               (showNotification (limit_message f) (limit_kind f) w))) \/
  (trim (value f (elements w)) <> [] /\
   len (trim (value f (elements w))) <= limit f /\
   exists w' r,
     submit f w = Awaiting w' /\
     requests w' = requests w ++ [r] /\
     request_url r = backendUrl (state w) ++ endpoint f /\
     sent_text r = Some (trim (value f (elements w))) /\
     elements w' = (match f with
                    | TopicInput => set_explainOutput
                                      (LoadingState (lit "Generating with Phi-3 Mini..."))
                    | NotesInput => set_summaryOutput
                                      (LoadingState (lit "Summarizing with Phi-3..."))
                    | QuizInput => set_quizOutput
                                     (LoadingState (lit "Creating quiz with Phi-3..."))
                    | FlashcardsInput => fun e => e
                    end) (elements w) /\
     notifications w' = notifications w /\
     state w' = state w /\ localStorage w' = localStorage w).
Proof.
  destruct (decide (trim (value f (elements w)) = [])) as [E|Hne].
  - left. split; [exact E|].
    destruct f;
      unfold submit, generateExplanation_submit, summarizeNotes_submit,
        generateQuiz_submit, generateFlashcards_submit, value in *;
      rewrite E; reflexivity.
  - destruct (Z_gt_le_dec (len (trim (value f (elements w)))) (limit f)) as [Hgt|Hle].
    + right; left. split; [exact Hgt|]. apply submit_over_limit. exact Hgt.
    + right; right. split; [exact Hne|]. split; [exact Hle|].
      destruct f;
        unfold submit, generateExplanation_submit, summarizeNotes_submit,
          generateQuiz_submit, generateFlashcards_submit, value, limit in *;
        rewrite bool_decide_false by exact Hne;
        match goal with |- context [?a >? ?b] =>
          destruct (Z.gtb_spec a b) as [?|_]; [lia|] end;
        eexists; eexists; (split; [reflexivity|]); cbn;
        repeat split; destruct (elements w); reflexivity.
Qed.

(** X2.  Whatever the page holds, a generation method that calls [fetch]
    issues exactly one request, a POST to its endpoint of the backend,
    with the trimmed text of its field, which is neither empty nor longer
    than the field's limit; state, notifications and storage are as
    before.  A method that returns instead issues no request. *)
Theorem sent_text_is_trimmed_and_within_limit (f : input_field) (w w' : World) :
  (submit f w = Awaiting w' ->
   exists r,
     requests w' = requests w ++ [r] /\
     request_url r = backendUrl (state w) ++ endpoint f /\
     sent_text r = Some (trim (value f (elements w))) /\
     0 < len (trim (value f (elements w))) <= limit f /\
     state w' = state w /\ notifications w' = notifications w /\
     localStorage w' = localStorage w) /\
  (submit f w = Returned w' -> requests w' = requests w).
Proof.
  destruct (submit_cases f w) as [[E ->]|[[Hgt ->]|(Hne & Hle & w1 & r & -> & H)]].
  - split; [discriminate|]. intros [= <-]. reflexivity.
  - split; [discriminate|]. intros [= <-]. reflexivity.
  - split; [|discriminate]. intros [= <-].
    destruct H as (H1 & H2 & H3 & _ & H5 & H6 & H7).
    exists r. repeat split; try assumption.
    destruct (trim (value f (elements w))); [congruence|].
    unfold len. cbn [length]. lia.
Qed.

Lemma sent_text_is_trimmed_and_within_limit_witness :
  exists r,
    requests (submitted (submit TopicInput
                (with_elements (set_topicInput (lit "  Photosynthesis ")) new_app))) = [r] /\
    sent_text r = Some (lit "Photosynthesis").
Proof.
  destruct (sent_text_is_trimmed_and_within_limit TopicInput
              (with_elements (set_topicInput (lit "  Photosynthesis ")) new_app)
              (submitted (submit TopicInput
                 (with_elements (set_topicInput (lit "  Photosynthesis ")) new_app))))
    as [H _].
  destruct H as (r & H1 & _ & H2 & _); [vm_compute; reflexivity|].
  exists r. split; [exact H1|]. rewrite H2. vm_compute. reflexivity.
Defined.

(** ** Answers of the backend *)

Lemma failed_cases (resp : fetch_result) :
  failed resp = true ->
  resp = NetworkError \/
  (exists status body, resp = Response status body /\ response_ok status = false) \/
  (exists status, resp = Response status None /\ response_ok status = true).
Proof.
  destruct resp as [|status body]; [auto|]. cbn.
  destruct (response_ok status) eqn:E; cbn.
  - intros H. apply bool_decide_eq_true in H. subst. right; right. eauto.
  - intros _. right; left. eauto.
Qed.

(** X3.  A generation call whose request fails (no response, a status
    outside 200-299, or a body that is not JSON) ends normally in its
    [catch] block: the error is logged, the output region of the method
    (the flashcards method has none) shows the error panel, one
    notification of kind error is raised, and the state, the deck
    included, and storage are untouched. *)
Theorem failed_request_is_reported (resp : fetch_result) (w : World) :
  failed resp = true ->
  generateExplanation_receive resp w = Normal (explanation_failed w) /\
  summarizeNotes_receive resp w = InModel (Normal (summary_failed w)) /\
  generateQuiz_receive resp w = InModel (Normal (quiz_failed w)) /\
  generateFlashcards_receive resp w = InModel (Normal (flashcards_failed w)) /\
  state (flashcards_failed w) = state w /\
  localStorage (flashcards_failed w) = localStorage w /\
  cardQuestion (elements (flashcards_failed w)) = cardQuestion (elements w).
Proof.
  intros H.
  unfold generateExplanation_receive, summarizeNotes_receive, generateQuiz_receive,
    generateFlashcards_receive.
  destruct (failed_cases resp H) as [->|[(status & body & -> & E)|(status & -> & E)]];
    try rewrite E; cbn; repeat split.
Qed.

Lemma failed_request_is_reported_witness :
  generateQuiz_receive (Response 503 (Some (JObj []))) new_app =
    InModel (Normal (quiz_failed new_app)) /\
  generateFlashcards_receive NetworkError (with_deck sample_deck 1 new_app) =
    InModel (Normal (flashcards_failed (with_deck sample_deck 1 new_app))).
Proof.
  destruct (failed_request_is_reported (Response 503 (Some (JObj []))) new_app)
    as (_ & _ & H1 & _); [reflexivity|].
  destruct (failed_request_is_reported NetworkError (with_deck sample_deck 1 new_app))
    as (_ & _ & _ & H2 & _); [reflexivity|].
  split; assumption.
Defined.

(** Redrawing twice is redrawing once. *)
Lemma display_synced (w w1 : World) :
  updateFlashcardDisplay w = Normal w1 -> synced w1.
Proof.
  unfold synced, updateFlashcardDisplay.
  destruct (len (flashcards (state w)) =? 0) eqn:E.
  - intros [= <-]. cbn. rewrite E. reflexivity.
  - destruct (item (flashcards (state w)) (currentFlashcardIndex (state w))) eqn:I;
      [|discriminate].
    intros [= <-]. cbn. rewrite E, I. reflexivity.
Qed.

(** Being in sync is a matter of the state and the page alone. *)
Lemma synced_ext (w w' : World) :
  state w' = state w -> elements w' = elements w -> synced w -> synced w'.
Proof.
  destruct w as [s e n l r t c], w' as [s' e' n' l' r' t' c']. cbn.
  intros -> ->. unfold synced, updateFlashcardDisplay, with_elements.
  cbn [state elements notifications localStorage requests timers console].
  destruct (len (flashcards s) =? 0).
  - intros H. apply (f_equal (fun c => elements (world_of c))) in H.
    cbn [world_of elements] in H. rewrite H. reflexivity.
  - destruct (item (flashcards s) (currentFlashcardIndex s)); [|discriminate].
    intros H. apply (f_equal (fun c => elements (world_of c))) in H.
    cbn [world_of elements] in H. rewrite H. reflexivity.
Qed.

Lemma replace_deck_display (d : list Flashcard) (w : World) :
  exists w',
    updateFlashcardDisplay (replace_deck d w) = Normal w' /\
    state w' = state (replace_deck d w) /\
    notifications w' = notifications w /\ localStorage w' = localStorage w /\
    requests w' = requests w /\ console w' = console w /\
    synced w'.
Proof.
  destruct (cursor_valid_display _ (cursor_valid_replace d w)) as (w' & E & Hs).
  exists w'. split; [exact E|]. split; [exact Hs|].
  pose proof (updateFlashcardDisplay_frame (replace_deck d w)) as F.
  rewrite E in F. cbn in F. destruct F as (_ & F1 & F2 & F3 & _ & F5 & _).
  repeat split; try assumption. exact (display_synced _ _ E).
Qed.

(** X4.  A 2xx answer whose [flashcards] is an array of cards (objects
    that [is_card] admits) replaces the deck by these cards, in order,
    with the cursor on 0 and the flag clear; the page shows the first
    card, the notification of kind success gives the number of cards, and
    nothing is written to storage. *)
Theorem generated_deck_replaces_deck
    (status : Z) (data : json) (cards : list json) (d : list Flashcard) (w : World) :
  response_ok status = true ->
  get data (lit "flashcards") = Some (Some (JArr cards)) ->
  deck_of_json (JArr cards) = Some d ->
  exists w',
    generateFlashcards_receive (Response status (Some data)) w = InModel (Normal w') /\
    flashcards (state w') = d /\
    currentFlashcardIndex (state w') = 0 /\
    isFlashcardFlipped (state w') = false /\
    synced w' /\
    localStorage w' = localStorage w /\
    notifications w' =
      notifications w ++
      [mkNotification (lit "Generated " ++ num (len d) ++ lit " flashcards with Phi-3!")
                      success].
Proof.
  intros Hok Hget Hdeck. unfold generateFlashcards_receive, response_deck.
  rewrite Hok, Hget. cbn [negb truthy].
  change (default JNull (Some (JArr cards))) with (JArr cards). rewrite Hdeck.
  destruct (replace_deck_display d w) as (w1 & E & Hst & Hn & Hl & _ & _ & Hsync).
  rewrite E. cbn [andThen try_catch_outcome try_catch].
  eexists. split; [reflexivity|].
  cbn. rewrite Hst, Hn, Hl. repeat split.
  apply (synced_ext w1); [reflexivity|reflexivity|exact Hsync].
Qed.

Lemma generated_deck_replaces_deck_witness :
  exists w',
    generateFlashcards_receive
      (Response 201 (Some (JObj [(lit "flashcards", json_of_deck sample_deck)])))
      new_app = InModel (Normal w') /\
    flashcards (state w') = sample_deck /\
    localStorage w' = ∅.
Proof.
  destruct (generated_deck_replaces_deck 201
              (JObj [(lit "flashcards", json_of_deck sample_deck)])
              (map json_of_card sample_deck) sample_deck new_app)
    as (w' & H1 & H2 & _ & _ & _ & H3 & _);
    [reflexivity | reflexivity | reflexivity |].
  exists w'. auto.
Defined.

Lemma and_then_bools (a b : bool) : and_then (Some a) (Some b) = Some (a && b).
Proof. destruct a; reflexivity. Qed.

Lemma interpolate_bool (v : option (option json)) : exists b, interpolate v = Some b.
Proof. destruct v as [[v|]|]; eexists; reflexivity. Qed.

Lemma interpolate_length_get (data : json) :
  interpolate_length (Some data) = interpolate (get data (lit "length")).
Proof. destruct data; reflexivity. Qed.

Lemma all_list_items (vs : list json) :
  all_evaluate list_item vs = Some (forallb converts vs).
Proof.
  induction vs as [|v vs IH]; [reflexivity|].
  cbn [all_evaluate forallb]. unfold list_item at 1. rewrite IH.
  apply and_then_bools.
Qed.

(** [v.map(item => `${item}`)] returns exactly when [v] is an array that
    converts to text. *)
Lemma map_call_list_item (v : option json) :
  map_call list_item v = Some (is_array v && bool_decide (interpolate (Some v) = Some true)).
Proof.
  destruct v as [[| | | |vs|]|]; try reflexivity.
  cbn [map_call is_array andb]. rewrite all_list_items.
  change (interpolate (Some (Some (JArr vs)))) with (Some (forallb converts vs)).
  destruct (forallb converts vs); reflexivity.
Qed.

Lemma default_get (data : json) (key : jsstring) :
  Some (default None (get data key)) = get data key \/ get data key = None.
Proof. destruct (get data key); auto. Qed.

(** X5.  A 2xx answer to the explanation request is drawn, with a
    notification of kind success, exactly when its [steps] and its
    [key_points] are arrays and each of the six properties the template
    interpolates converts to text.  When one of the two lists is missing
    or is not an array, or one property cannot be read (the body is
    [null]) or does not convert (it holds an object with a property named
    [toString]), the call ends in its error panel like a failed
    request. *)
Theorem explanation_needs_both_lists (status : Z) (data : json) (w : World) :
  response_ok status = true ->
  (is_array (default None (get data (lit "steps"))) &&
   is_array (default None (get data (lit "key_points"))) = true ->
   (forall key, key ∈ explanation_properties ->
      interpolate (get data key) = Some true) ->
   generateExplanation_receive (Response status (Some data)) w =
   Normal (showNotification (lit "Explanation generated with Phi-3!") success
             (with_elements (set_explainOutput (Explanation data)) w))) /\
  (is_array (default None (get data (lit "steps"))) &&
   is_array (default None (get data (lit "key_points"))) = false \/
   (exists key, key ∈ explanation_properties /\
      interpolate (get data key) = Some false) ->
   generateExplanation_receive (Response status (Some data)) w =
   Normal (explanation_failed w)).
Proof.
  intros Hok. unfold generateExplanation_receive, renderExplanation.
  rewrite Hok. cbn [negb]. rewrite !map_call_list_item.
  assert (Hin : forall key, key ∈ explanation_properties <->
            key = lit "topic" \/ key = lit "difficulty" \/
            key = lit "simple_explanation" \/ key = lit "steps" \/
            key = lit "analogy" \/ key = lit "key_points").
  { intros key. unfold explanation_properties.
    rewrite !elem_of_cons, elem_of_nil. tauto. }
  destruct (interpolate_bool (get data (lit "topic"))) as [b1 H1].
  destruct (interpolate_bool (get data (lit "difficulty"))) as [b2 H2].
  destruct (interpolate_bool (get data (lit "simple_explanation"))) as [b3 H3].
  destruct (interpolate_bool (get data (lit "analogy"))) as [b4 H4].
  destruct (interpolate_bool (get data (lit "steps"))) as [b5 H5].
  destruct (interpolate_bool (get data (lit "key_points"))) as [b6 H6].
  assert (Hs : is_array (default None (get data (lit "steps"))) = true ->
               interpolate (Some (default None (get data (lit "steps")))) = Some b5).
  { intros Ha. destruct (default_get data (lit "steps")) as [-> | E]; [exact H5|].
    rewrite E in Ha. discriminate. }
  assert (Hk : is_array (default None (get data (lit "key_points"))) = true ->
               interpolate (Some (default None (get data (lit "key_points")))) = Some b6).
  { intros Ha. destruct (default_get data (lit "key_points")) as [-> | E]; [exact H6|].
    rewrite E in Ha. discriminate. }
  rewrite H1, H2, H3, H4.
  assert (Es : is_array (default None (get data (lit "steps"))) &&
               bool_decide (interpolate (Some (default None (get data (lit "steps"))))
                            = Some true) =
               is_array (default None (get data (lit "steps"))) && b5).
  { destruct (is_array (default None (get data (lit "steps")))) eqn:As; [|reflexivity].
    rewrite (Hs eq_refl). destruct b5; reflexivity. }
  assert (Ek : is_array (default None (get data (lit "key_points"))) &&
               bool_decide (interpolate (Some (default None (get data (lit "key_points"))))
                            = Some true) =
               is_array (default None (get data (lit "key_points"))) && b6).
  { destruct (is_array (default None (get data (lit "key_points")))) eqn:Ak;
      [|reflexivity].
    rewrite (Hk eq_refl). destruct b6; reflexivity. }
  rewrite Es, Ek. clear Es Ek Hs Hk.
  destruct (is_array (default None (get data (lit "steps")))) as [|];
    destruct (is_array (default None (get data (lit "key_points")))) as [|];
    (split;
     [ intros Harr Hall; try discriminate;
       rewrite (Hall (lit "topic")) in H1 by (apply Hin; tauto);
       rewrite (Hall (lit "difficulty")) in H2 by (apply Hin; tauto);
       rewrite (Hall (lit "simple_explanation")) in H3 by (apply Hin; tauto);
       rewrite (Hall (lit "analogy")) in H4 by (apply Hin; tauto);
       rewrite (Hall (lit "steps")) in H5 by (apply Hin; tauto);
       rewrite (Hall (lit "key_points")) in H6 by (apply Hin; tauto);
       simplify_eq; reflexivity
     | intros [Harr | (key & Hkey & Hfalse)];
       [ try discriminate; destruct b1, b2, b3, b4, b5, b6; reflexivity
       | apply Hin in Hkey;
         destruct Hkey as [ -> | [ -> | [ -> | [ -> | [ -> | -> ] ] ] ] ];
         rewrite Hfalse in *; simplify_eq;
         repeat match goal with b : bool |- _ => destruct b end; reflexivity ] ]).
Qed.

Lemma explanation_needs_both_lists_witness :
  generateExplanation_receive
    (Response 200 (Some (JObj [(lit "topic", JStr (lit "ATP"));
                               (lit "steps", JArr [JStr (lit "first")]);
                               (lit "key_points", JArr [])]))) new_app =
  Normal (showNotification (lit "Explanation generated with Phi-3!") success
            (with_elements
               (set_explainOutput
                  (Explanation (JObj [(lit "topic", JStr (lit "ATP"));
                                      (lit "steps", JArr [JStr (lit "first")]);
                                      (lit "key_points", JArr [])]))) new_app)) /\
  generateExplanation_receive
    (Response 200 (Some (JObj [(lit "topic", JObj [(lit "toString", JNull)]);
                               (lit "steps", JArr [JStr (lit "first")]);
                               (lit "key_points", JArr [])]))) new_app =
  Normal (explanation_failed new_app).
Proof.
  split.
  - apply (explanation_needs_both_lists 200); [reflexivity|reflexivity|].
    intros key Hkey. unfold explanation_properties in Hkey.
    rewrite !elem_of_cons, elem_of_nil in Hkey.
    destruct Hkey as [-> | [-> | [-> | [-> | [-> | [-> | []]]]]]]; reflexivity.
  - apply (explanation_needs_both_lists 200); [reflexivity|].
    right. exists (lit "topic"). split; [|reflexivity].
    unfold explanation_properties. apply elem_of_cons. left. reflexivity.
Defined.

Lemma all_definition_items (vs : list json) :
  Forall drawable_definition vs -> all_evaluate definition_item vs = Some true.
Proof.
  induction 1 as [|v vs [Ht Hd] _ IH]; [reflexivity|].
  cbn [all_evaluate]. unfold definition_item at 1. rewrite Ht, Hd. exact IH.
Qed.

(** X6.  A 2xx answer to the summary request is drawn, with a
    notification of kind success, when its [key_points], [definitions] and
    [exam_tips] are arrays (empty ones included), its [length], its
    [summary], every key point and every tip convert to text, and every
    definition has a [term] and a [definition] that can be read and
    convert.  When [key_points] is missing or [null], or when [length] or
    [summary] cannot be read or does not convert, the call ends in its
    error panel, whatever else the answer holds. *)
Theorem summary_needs_its_lists (status : Z) (data : json) (w : World) :
  response_ok status = true ->
  (forall points definitions tips,
     get data (lit "key_points") = Some (Some (JArr points)) ->
     get data (lit "definitions") = Some (Some (JArr definitions)) ->
     get data (lit "exam_tips") = Some (Some (JArr tips)) ->
     interpolate (get data (lit "length")) = Some true ->
     interpolate (get data (lit "summary")) = Some true ->
     forallb converts points = true ->
     Forall drawable_definition definitions ->
     forallb converts tips = true ->
     summarizeNotes_receive (Response status (Some data)) w =
     InModel (Normal (showNotification (lit "Notes summarized!") success
                        (with_elements (set_summaryOutput (Summary data)) w)))) /\
  (get data (lit "key_points") = Some None \/
   get data (lit "key_points") = Some (Some JNull) \/
   interpolate (get data (lit "length")) = Some false \/
   interpolate (get data (lit "summary")) = Some false ->
   summarizeNotes_receive (Response status (Some data)) w =
   InModel (Normal (summary_failed w))).
Proof.
  intros Hok. unfold summarizeNotes_receive, renderSummary. rewrite Hok.
  cbn [negb]. rewrite interpolate_length_get. split.
  - intros points definitions tips -> -> -> -> -> Hp Hd Ht.
    cbn [from_option id optional_list and_then].
    rewrite !all_list_items, Hp, Ht, (all_definition_items _ Hd). reflexivity.
  - destruct (interpolate_bool (get data (lit "length"))) as [b1 H1].
    destruct (interpolate_bool (get data (lit "summary"))) as [b2 H2].
    rewrite H1, H2.
    intros [-> | [-> | [E | E]]]; simplify_eq;
      repeat match goal with b : bool |- _ => destruct b end; reflexivity.
Qed.

Lemma summary_needs_its_lists_witness :
  summarizeNotes_receive
    (Response 200 (Some (JObj [(lit "summary", JStr (lit "short"));
                               (lit "key_points", JArr []);
                               (lit "definitions",
                                JArr [JObj [(lit "term", JStr (lit "ATP"));
                                            (lit "definition", JStr (lit "energy"))]]);
                               (lit "exam_tips", JArr [JStr (lit "sleep")])]))) new_app =
  InModel (Normal (showNotification (lit "Notes summarized!") success
     (with_elements
        (set_summaryOutput
           (Summary (JObj [(lit "summary", JStr (lit "short"));
                           (lit "key_points", JArr []);
                           (lit "definitions",
                            JArr [JObj [(lit "term", JStr (lit "ATP"));
                                        (lit "definition", JStr (lit "energy"))]]);
                           (lit "exam_tips", JArr [JStr (lit "sleep")])]))) new_app))) /\
  summarizeNotes_receive
    (Response 200 (Some (JObj [(lit "summary", JObj [(lit "toString", JNull)]);
                               (lit "key_points", JArr []);
                               (lit "definitions", JArr []);
                               (lit "exam_tips", JArr [])]))) new_app =
  InModel (Normal (summary_failed new_app)).
Proof.
  split.
  - destruct (summary_needs_its_lists 200
                (JObj [(lit "summary", JStr (lit "short"));
                       (lit "key_points", JArr []);
                       (lit "definitions",
                        JArr [JObj [(lit "term", JStr (lit "ATP"));
                                    (lit "definition", JStr (lit "energy"))]]);
                       (lit "exam_tips", JArr [JStr (lit "sleep")])]) new_app)
      as [H _]; [reflexivity|].
    apply (H [] [JObj [(lit "term", JStr (lit "ATP"));
                       (lit "definition", JStr (lit "energy"))]]
             [JStr (lit "sleep")]); try reflexivity.
    repeat constructor.
  - destruct (summary_needs_its_lists 200
                (JObj [(lit "summary", JObj [(lit "toString", JNull)]);
                       (lit "key_points", JArr []);
                       (lit "definitions", JArr []);
                       (lit "exam_tips", JArr [])]) new_app)
      as [_ H]; [reflexivity|].
    apply H. right. right. right. reflexivity.
Defined.

Lemma interpolate_truthy_converts (v : option json) :
  interpolate (Some v) = Some true -> interpolate_truthy (Some v) = Some true.
Proof.
  intros H. unfold interpolate_truthy. destruct (truthy v) as [[|]|]; auto.
Qed.

Lemma drawable_question_item (q : json) :
  drawable_question q = true -> question_item q = Some true.
Proof.
  destruct q as [| | | | |ms]; try discriminate.
  unfold drawable_question, question_item. cbn [get forallb].
  rewrite !andb_true_iff, !bool_decide_eq_true.
  intros [(Ht & Hq & Ha & He & _) Ho].
  rewrite (interpolate_truthy_converts _ Ht), Hq, Ha,
          (interpolate_truthy_converts _ He).
  destruct (last_member (lit "options") ms) as [[| | | |opts|]|]; try discriminate;
    cbn; try reflexivity.
  rewrite all_list_items, Ho. reflexivity.
Qed.

Lemma all_drawable (qs : list json) :
  forallb drawable_question qs = true ->
  all_evaluate question_item qs = Some true.
Proof.
  induction qs as [|q qs IH]; [reflexivity|]. cbn.
  intros [Hq Hqs]%andb_true_iff.
  rewrite (drawable_question_item _ Hq). cbn. auto.
Qed.

Lemma interpolate_length_bool (v : option json) :
  exists b, interpolate_length v = Some b.
Proof.
  destruct v as [[| | | | |ms]|]; try (eexists; reflexivity).
  apply interpolate_bool.
Qed.

(** X7.  A 2xx answer to the quiz request whose [difficulty] converts to
    text and whose [questions] is a non-empty array of questions that can
    be drawn (see [drawable_question]) is shown with one item per
    question, and the notification of kind success gives their number.
    When the first question is [null], or when [difficulty] cannot be
    read or does not convert, the call ends in its error panel. *)
Theorem quiz_with_questions (status : Z) (data : json) (w : World) :
  response_ok status = true ->
  (forall qs,
     get data (lit "questions") = Some (Some (JArr qs)) ->
     qs <> [] ->
     interpolate (get data (lit "difficulty")) = Some true ->
     forallb drawable_question qs = true ->
     generateQuiz_receive (Response status (Some data)) w =
     InModel (Normal
       (showNotification
          (lit "Quiz generated with " ++ num (len qs) ++ lit " questions!") success
          (with_elements
             (set_quizOutput
                (Quiz (len qs) (default None (get data (lit "difficulty")))
                      (Questions qs))) w)))) /\
  (forall qs,
     get data (lit "questions") = Some (Some (JArr (JNull :: qs))) ->
     generateQuiz_receive (Response status (Some data)) w =
     InModel (Normal (quiz_failed w))) /\
  (interpolate (get data (lit "difficulty")) = Some false ->
   generateQuiz_receive (Response status (Some data)) w =
   InModel (Normal (quiz_failed w))).
Proof.
  intros Hok. unfold generateQuiz_receive, renderQuiz, questions_length.
  rewrite Hok. cbn [negb]. split; [|split].
  - intros qs -> Hne -> Hall. cbn [truthy interpolate_length and_then].
    destruct (Z.eqb_spec (len qs) 0) as [E|_].
    { apply len_nil_iff in E. congruence. }
    rewrite (all_drawable _ Hall). reflexivity.
  - intros qs ->. cbn [truthy interpolate_length and_then].
    destruct (interpolate_bool (get data (lit "difficulty"))) as [[|] ->];
      [|reflexivity].
    destruct (Z.eqb_spec (len (JNull :: qs)) 0) as [E|_].
    { apply len_nil_iff in E. discriminate. }
    reflexivity.
  - intros ->. destruct (get data (lit "questions")) as [qs|]; [|reflexivity].
    destruct (truthy qs) as [[|]|];
      try destruct (interpolate_length_bool qs) as [[|] ->]; reflexivity.
Qed.

Lemma quiz_with_questions_witness :
  exists w',
    generateQuiz_receive
      (Response 200 (Some (JObj [(lit "questions",
          JArr [JObj [(lit "question", JStr (lit "2+2?"));
                      (lit "options", JArr [JStr (lit "3"); JStr (lit "4")]);
                      (lit "answer", JStr (lit "4"))];
                JObj [(lit "question", JStr (lit "Why?"));
                      (lit "answer", JStr (lit "Because"))]])])))
      new_app = InModel (Normal w') /\
    notifications w' =
      [mkNotification (lit "Quiz generated with 2 questions!") success].
Proof.
  destruct (quiz_with_questions 200
    (JObj [(lit "questions",
          JArr [JObj [(lit "question", JStr (lit "2+2?"));
                      (lit "options", JArr [JStr (lit "3"); JStr (lit "4")]);
                      (lit "answer", JStr (lit "4"))];
                JObj [(lit "question", JStr (lit "Why?"));
                      (lit "answer", JStr (lit "Because"))]])]) new_app)
    as [H _]; [reflexivity|].
  eexists. split.
  - apply H; [reflexivity|discriminate|reflexivity|reflexivity].
  - reflexivity.
Defined.

(** ** The deck *)

(** X8.  [clearFlashcards] does nothing when the deck is empty or the
    dialog is declined.  Confirmed on a non-empty deck it empties the
    deck, puts the cursor on 0, clears the flag, shows the two placeholder
    texts with the counters 0 / 0 and raises the info notification
    "Flashcards cleared"; storage is not touched. *)
Theorem clearFlashcards_effects (w : World) :
  clearFlashcards false w = Normal w /\
  (flashcards (state w) = [] -> clearFlashcards true w = Normal w) /\
  (flashcards (state w) <> [] ->
   exists w',
     clearFlashcards true w = Normal w' /\
     flashcards (state w') = [] /\
     currentFlashcardIndex (state w') = 0 /\
     isFlashcardFlipped (state w') = false /\
     cardQuestion (elements w') = lit "<p>Generate or load flashcards to begin.</p>" /\
     cardAnswer (elements w') = lit "<p>Flip to see answer.</p>" /\
     currentCard (elements w') = lit "0" /\ totalCards (elements w') = lit "0" /\
     flashcard_flipped (elements w') = false /\
     localStorage w' = localStorage w /\
     notifications w' =
       notifications w ++ [mkNotification (lit "Flashcards cleared") info]).
Proof.
  unfold clearFlashcards. split; [|split].
  - destruct (len (flashcards (state w)) =? 0); reflexivity.
  - intros ->. reflexivity.
  - intros Hne.
    destruct (Z.eqb_spec (len (flashcards (state w))) 0) as [E|_].
    { apply len_nil_iff in E. congruence. }
    eexists. split; [reflexivity|]. repeat split.
Qed.

Lemma clearFlashcards_effects_witness :
  exists w',
    clearFlashcards true (with_deck sample_deck 1 new_app) = Normal w' /\
    flashcards (state w') = [] /\
    notifications w' = [mkNotification (lit "Flashcards cleared") info].
Proof.
  destruct (clearFlashcards_effects (with_deck sample_deck 1 new_app))
    as (_ & _ & H).
  destruct H as (w' & H1 & H2 & _ & _ & _ & _ & _ & _ & _ & _ & H3); [discriminate|].
  exists w'. auto.
Defined.

(** A world whose storage holds a serialised deck loads it. *)
Lemma load_stored_deck (d : list Flashcard) (w : World) :
  localStorage w !! flashcards_key = Some (JSON.stringify_deck d) ->
  exists w',
    loadFlashcards StorageOk w = InModel (Normal w') /\
    state w' = state (replace_deck d w) /\
    synced w' /\
    localStorage w' = localStorage w /\
    notifications w' =
      notifications w ++
      [mkNotification (lit "Loaded " ++ num (len d) ++ lit " flashcards") success].
Proof.
  intros H. unfold loadFlashcards.
  rewrite (saved_item_present _ _ _ H (stringify_deck_nonempty d)).
  destruct (parse_stringify_deck d) as [-> ->].
  destruct (replace_deck_display d w) as (w1 & E & Hst & Hn & Hl & _ & _ & Hsync).
  rewrite E. cbn [andThen try_catch_outcome try_catch].
  eexists. split; [reflexivity|]. cbn. rewrite Hst, Hn, Hl. repeat split.
  apply (synced_ext w1); [reflexivity|reflexivity|exact Hsync].
Qed.

(** Only saving the deck writes the deck item. *)
Lemma react_keeps_deck_item (ev : event) (w w' : World) :
  react ev w = Some w' -> is_save ev = false ->
  localStorage w' !! flashcards_key = localStorage w !! flashcards_key.
Proof.
  intros Hreact Hsave.
  destruct ev; try discriminate; cbn in Hreact;
    try (destruct f);
    unfold navigateFlashcard, flipFlashcard, shuffleFlashcards,
      markFlashcardDifficulty, clearFlashcards, loadFlashcards,
      validateInput, submit, generateExplanation_submit, summarizeNotes_submit,
      generateQuiz_submit, generateFlashcards_submit,
      generateExplanation_receive, summarizeNotes_receive, generateQuiz_receive,
      generateFlashcards_receive, renderExplanation, renderSummary, renderQuiz,
      openSettings, closeSettings, saveSettings, run_timer,
      try_catch_outcome, try_catch, andThen, updateFlashcardDisplay in Hreact;
    repeat case_match; simplify_eq; cbn; auto.
  all: apply lookup_insert_ne; discriminate.
Qed.

Lemma run_keeps_deck_item (evs : list event) (w w' : World) :
  run evs w = Some w' -> forallb (fun ev => negb (is_save ev)) evs = true ->
  localStorage w' !! flashcards_key = localStorage w !! flashcards_key.
Proof.
  revert w. induction evs as [|ev evs IH]; intros w; cbn.
  - intros [= ->] _. reflexivity.
  - destruct (react ev w) as [w1|] eqn:E; [|discriminate].
    intros Hrun [Hev Hevs]%andb_true_iff.
    rewrite (IH _ Hrun Hevs). apply (react_keeps_deck_item _ _ _ E).
    destruct (is_save ev); [discriminate|reflexivity].
Qed.

(** X9.  A saved deck outlives whatever is done to the deck in memory:
    after a successful save of a non-empty deck and any sequence of
    handlers other than a save (clearing, generating other cards,
    shuffling, changing settings, ...), loading restores the saved cards
    in their saved order, with the cursor on 0 and the flag clear. *)
Theorem saved_deck_survives (evs : list event) (w w' : World) :
  flashcards (state w) <> [] ->
  forallb (fun ev => negb (is_save ev)) evs = true ->
  run evs (saveFlashcards StorageOk w) = Some w' ->
  exists w'',
    loadFlashcards StorageOk w' = InModel (Normal w'') /\
    flashcards (state w'') = flashcards (state w) /\
    currentFlashcardIndex (state w'') = 0 /\
    isFlashcardFlipped (state w'') = false.
Proof.
  intros Hne Hevs Hrun.
  assert (Hitem : localStorage (saveFlashcards StorageOk w) !! flashcards_key =
                  Some (JSON.stringify_deck (flashcards (state w)))).
  { unfold saveFlashcards.
    destruct (Z.eqb_spec (len (flashcards (state w))) 0) as [E|_].
    { apply len_nil_iff in E. congruence. }
    cbn. apply lookup_insert_eq. }
  rewrite <- (run_keeps_deck_item _ _ _ Hrun Hevs) in Hitem.
  destruct (load_stored_deck _ _ Hitem) as (w'' & H1 & H2 & _).
  exists w''. split; [exact H1|]. rewrite H2. repeat split.
Qed.

Lemma saved_deck_survives_witness :
  exists w'',
    loadFlashcards StorageOk
      (default new_app
         (run [Shuffle Nat.pred; Clear true; SaveSettings StorageOk]
              (saveFlashcards StorageOk (with_deck sample_deck 2 new_app))))
      = InModel (Normal w'') /\
    flashcards (state w'') = sample_deck.
Proof.
  destruct (saved_deck_survives [Shuffle Nat.pred; Clear true; SaveSettings StorageOk]
              (with_deck sample_deck 2 new_app)
              (default new_app
                 (run [Shuffle Nat.pred; Clear true; SaveSettings StorageOk]
                      (saveFlashcards StorageOk (with_deck sample_deck 2 new_app)))))
    as (w'' & H1 & H2 & _); [discriminate | reflexivity | reflexivity |].
  exists w''. split; assumption.
Defined.

(** X10.  Saving a non-empty deck never changes the state.  When the write
    throws, the only effect is the error notification "Failed to save
    flashcards" and storage is as before; when it goes through, the deck
    item holds the serialised deck (every card with all its properties,
    in the order it was received with) and every other item is as
    before. *)
Theorem saveFlashcards_effects (io : storage_io) (w : World) :
  flashcards (state w) <> [] ->
  state (saveFlashcards io w) = state w /\
  (io = StorageThrows ->
   saveFlashcards io w = showNotification (lit "Failed to save flashcards") error w) /\
  (io = StorageOk ->
   localStorage (saveFlashcards io w) !! flashcards_key =
     Some (JSON.stringify_deck (flashcards (state w))) /\
   (forall k, k <> flashcards_key ->
      localStorage (saveFlashcards io w) !! k = localStorage w !! k) /\
   notifications (saveFlashcards io w) =
     notifications w ++
     [mkNotification
        (lit "Saved " ++ num (len (flashcards (state w))) ++ lit " flashcards")
        success]).
Proof.
  intros Hne. unfold saveFlashcards.
  destruct (Z.eqb_spec (len (flashcards (state w))) 0) as [E|_].
  { apply len_nil_iff in E. congruence. }
  split; [destruct io; reflexivity|]. split; intros ->; [reflexivity|].
  cbn. split; [apply lookup_insert_eq|]. split; [|reflexivity].
  intros k Hk. apply lookup_insert_ne. congruence.
Qed.

Lemma saveFlashcards_effects_witness :
  saveFlashcards StorageThrows (with_deck received_deck 0 new_app) =
    showNotification (lit "Failed to save flashcards") error
      (with_deck received_deck 0 new_app) /\
  localStorage (saveFlashcards StorageOk (with_deck received_deck 0 new_app))
    !! flashcards_key =
  Some (quoted "[{'answer':'A','question':'Q','hint':'h'},{'question':'What is ATP?','starred':true,'answer':'Energy currency of the cell','source':null}]").
Proof.
  destruct (saveFlashcards_effects StorageThrows (with_deck received_deck 0 new_app))
    as (_ & H1 & _); [discriminate|].
  destruct (saveFlashcards_effects StorageOk (with_deck received_deck 0 new_app))
    as (_ & _ & H2); [discriminate|].
  split; [apply H1; reflexivity|].
  destruct (H2 eq_refl) as (-> & _). vm_compute. reflexivity.
Defined.

(** Within the model [loadFlashcards] returns normally. *)
Lemma loadFlashcards_returns (io : storage_io) (w : World) (c : completion) :
  loadFlashcards io w = InModel c -> exists w', c = Normal w'.
Proof.
  unfold loadFlashcards. destruct io; cbn; [|intros [= <-]; eauto].
  destruct (saved_item flashcards_key w) as [saved|]; cbn; [|intros [= <-]; eauto].
  destruct (JSON.parse saved) as [v|]; cbn; [|intros [= <-]; eauto].
  destruct (deck_of_json v) as [d|]; [|discriminate].
  destruct (replace_deck_display d w) as (w1 & E & _).
  rewrite E. cbn. intros [= <-]. eauto.
Qed.



(** ** The page follows the state *)

(** Being in sync only looks at the deck, the cursor, the flag and the
    five elements of the card. *)
Lemma synced_fields (w w' : World) :
  flashcards (state w') = flashcards (state w) ->
  currentFlashcardIndex (state w') = currentFlashcardIndex (state w) ->
  isFlashcardFlipped (state w') = isFlashcardFlipped (state w) ->
  cardQuestion (elements w') = cardQuestion (elements w) ->
  cardAnswer (elements w') = cardAnswer (elements w) ->
  currentCard (elements w') = currentCard (elements w) ->
  totalCards (elements w') = totalCards (elements w) ->
  flashcard_flipped (elements w') = flashcard_flipped (elements w) ->
  synced w -> synced w'.
Proof.
  intros Hd Hi Hf H1 H2 H3 H4 H5. unfold synced, updateFlashcardDisplay.
  rewrite Hd, Hi, Hf.
  destruct w' as [s' e' n' l' r' t' c'].
  cbn [state elements] in *. unfold with_elements.
  cbn [state elements notifications localStorage requests timers console].
  destruct (len (flashcards (state w)) =? 0).
  - intros H. apply (f_equal (fun c => elements (world_of c))) in H.
    cbn [world_of elements] in H. do 2 f_equal.
    rewrite <- H in H1, H2, H3, H4, H5.
    destruct e'. cbn in *. subst. reflexivity.
  - destruct (item (flashcards (state w)) (currentFlashcardIndex (state w)));
      [|discriminate].
    intros H. apply (f_equal (fun c => elements (world_of c))) in H.
    cbn [world_of elements] in H. do 2 f_equal.
    rewrite <- H in H1, H2, H3, H4, H5.
    destruct e'. cbn [cardQuestion cardAnswer currentCard totalCards
      flashcard_flipped set_card_display] in *. subst. reflexivity.
Qed.

Lemma synced_after (w w1 : World) (k : World -> World) :
  updateFlashcardDisplay w = Normal w1 ->
  state (k w1) = state w1 -> elements (k w1) = elements w1 ->
  synced (k w1).
Proof.
  intros E Hs He. apply (synced_ext w1); [exact Hs|exact He|].
  exact (display_synced _ _ E).
Qed.

(** Every handler leaves the page in sync with the state. *)
Lemma react_keeps_synced (ev : event) (w w' : World) :
  react ev w = Some w' ->
  cursor_valid (state w) -> synced w -> synced w'.
Proof.
  intros Hreact Hc Hs.
  pose proof (handlers_return w Hc) as (Hnav & Hflip & Hshuf & Hclear).
  destruct ev; cbn in Hreact.
  - (* Navigate *)
    destruct (Hnav direction) as [w1 E]. rewrite E in Hreact.
    injection Hreact as <-. unfold navigateFlashcard in E.
    destruct (len (flashcards (state w)) =? 0).
    + injection E as <-. exact Hs.
    + exact (display_synced _ _ E).
  - (* Flip *)
    destruct Hflip as [w1 E]. rewrite E in Hreact. injection Hreact as <-.
    exact (display_synced _ _ E).
  - (* Shuffle *)
    destruct (Hshuf random_index) as [w1 E]. rewrite E in Hreact.
    injection Hreact as <-. unfold shuffleFlashcards in E.
    destruct (len (flashcards (state w)) =? 0).
    + injection E as <-. exact Hs.
    + match type of E with context [updateFlashcardDisplay ?x] =>
        destruct (updateFlashcardDisplay x) as [w2|w2] eqn:U end;
        [|discriminate].
      cbn in E. injection E as <-.
      apply (synced_after _ _ (showNotification _ _) U); reflexivity.
  - (* Mark *)
    injection Hreact as <-. unfold markFlashcardDifficulty.
    destruct (len (flashcards (state w)) =? 0); [exact Hs|].
    apply (synced_ext w); [reflexivity|reflexivity|exact Hs].
  - (* Clear *)
    destruct (Hclear confirmed) as [w1 E]. rewrite E in Hreact.
    injection Hreact as <-. unfold clearFlashcards in E.
    destruct (len (flashcards (state w)) =? 0); [injection E as <-; exact Hs|].
    destruct confirmed; [|injection E as <-; exact Hs].
    match type of E with context [updateFlashcardDisplay ?x] =>
      destruct (updateFlashcardDisplay x) as [w2|w2] eqn:U end; [|discriminate].
    cbn in E. injection E as <-.
    apply (synced_after _ _ (showNotification _ _) U); reflexivity.
  - (* SaveDeck *)
    injection Hreact as <-. unfold saveFlashcards.
    destruct (len (flashcards (state w)) =? 0); [|destruct io];
      (apply (synced_ext w); [reflexivity|reflexivity|exact Hs]).
  - (* LoadDeck *)
    unfold loadFlashcards in Hreact. destruct io; cbn in Hreact.
    + destruct (saved_item flashcards_key w); cbn in Hreact.
      * destruct (JSON.parse _) as [v|]; cbn in Hreact.
        -- destruct (deck_of_json v) as [d|]; [|discriminate].
           destruct (replace_deck_display d w) as (w1 & E & _).
           rewrite E in Hreact. cbn in Hreact. injection Hreact as <-.
           apply (synced_after _ _ (showNotification _ _) E); reflexivity.
        -- injection Hreact as <-.
           apply (synced_ext w); [reflexivity|reflexivity|exact Hs].
      * injection Hreact as <-.
        apply (synced_ext w); [reflexivity|reflexivity|exact Hs].
    + injection Hreact as <-.
      apply (synced_ext w); [reflexivity|reflexivity|exact Hs].
  - (* Typed *)
    injection Hreact as <-. unfold validateInput.
    match goal with |- context [if ?b then _ else _] => destruct b end;
      destruct f; (match goal with H : synced ?x |- _ =>
         eapply (synced_fields x); [reflexivity..|exact H] end).
  - (* Submit *)
    injection Hreact as <-.
    destruct f; unfold submit, generateExplanation_submit, summarizeNotes_submit,
      generateQuiz_submit, generateFlashcards_submit;
      repeat case_match; (match goal with H : synced ?x |- _ =>
         eapply (synced_fields x); [reflexivity..|exact H] end).
  - (* ExplanationArrives *)
    injection Hreact as <-.
    unfold generateExplanation_receive, renderExplanation, try_catch, andThen.
    repeat case_match; simplify_eq;
      (match goal with H : synced ?x |- _ =>
         eapply (synced_fields x); [reflexivity..|exact H] end).
  - (* SummaryArrives *)
    unfold summarizeNotes_receive, renderSummary, try_catch_outcome, try_catch, andThen
      in Hreact.
    repeat case_match; simplify_eq;
      (match goal with H : synced ?x |- _ =>
         eapply (synced_fields x); [reflexivity..|exact H] end).
  - (* QuizArrives *)
    unfold generateQuiz_receive, renderQuiz, try_catch_outcome, try_catch, andThen
      in Hreact.
    repeat case_match; simplify_eq;
      (match goal with H : synced ?x |- _ =>
         eapply (synced_fields x); [reflexivity..|exact H] end).
  - (* FlashcardsArrive *)
    unfold generateFlashcards_receive in Hreact.
    destruct resp as [|status [data|]]; cbn in Hreact.
    + injection Hreact as <-. match goal with H : synced ?x |- _ =>
         eapply (synced_fields x); [reflexivity..|exact H] end.
    + destruct (response_ok status); cbn in Hreact;
        [|injection Hreact as <-;
          match goal with H : synced ?x |- _ =>
         eapply (synced_fields x); [reflexivity..|exact H] end].
      destruct (response_deck data) as [[d|]|]; cbn in Hreact;
        [|injection Hreact as <-;
          match goal with H : synced ?x |- _ =>
         eapply (synced_fields x); [reflexivity..|exact H] end
         |discriminate].
      destruct (replace_deck_display d w) as (w1 & E & _).
      rewrite E in Hreact. cbn in Hreact. injection Hreact as <-.
      apply (synced_after _ _ (showNotification _ _) E); reflexivity.
    + destruct (response_ok status); cbn in Hreact; injection Hreact as <-;
        (match goal with H : synced ?x |- _ =>
         eapply (synced_fields x); [reflexivity..|exact H] end).
  - injection Hreact as <-. match goal with H : synced ?x |- _ =>
         eapply (synced_fields x); [reflexivity..|exact H] end.
  - injection Hreact as <-. match goal with H : synced ?x |- _ =>
         eapply (synced_fields x); [reflexivity..|exact H] end.
  - injection Hreact as <-. unfold saveSettings.
    destruct io; (match goal with H : synced ?x |- _ =>
         eapply (synced_fields x); [reflexivity..|exact H] end).
  - destruct (timers w) as [|[delay cb] rest]; [discriminate|].
    injection Hreact as <-. destruct cb as [[|]];
      (match goal with H : synced ?x |- _ =>
         eapply (synced_fields x); [reflexivity..|exact H] end).
Qed.

(** What being in sync means for the user. *)
Lemma synced_shows (w : World) :
  synced w ->
  (flashcards (state w) = [] ->
   cardQuestion (elements w) = lit "<p>Generate or load flashcards to begin.</p>" /\
   cardAnswer (elements w) = lit "<p>Flip to see answer.</p>" /\
   currentCard (elements w) = lit "0" /\ totalCards (elements w) = lit "0" /\
   flashcard_flipped (elements w) = false) /\
  (flashcards (state w) <> [] ->
   exists card,
     item (flashcards (state w)) (currentFlashcardIndex (state w)) = Some card /\
     cardQuestion (elements w) = lit "<p>" ++ question card ++ lit "</p>" /\
     cardAnswer (elements w) = lit "<p>" ++ answer card ++ lit "</p>" /\
     currentCard (elements w) = num (currentFlashcardIndex (state w) + 1) /\
     totalCards (elements w) = num (len (flashcards (state w))) /\
     flashcard_flipped (elements w) = isFlashcardFlipped (state w)).
Proof.
  unfold synced, updateFlashcardDisplay. intros H. split.
  - intros E. rewrite E in H. cbn [len length Z.of_nat Z.eqb] in H.
    apply (f_equal (fun c => elements (world_of c))) in H.
    cbn [world_of elements with_elements] in H. rewrite <- H. repeat split.
  - intros Hne.
    destruct (Z.eqb_spec (len (flashcards (state w))) 0) as [E|_].
    { apply len_nil_iff in E. congruence. }
    destruct (item (flashcards (state w)) (currentFlashcardIndex (state w)))
      as [card|]; [|discriminate].
    exists card. split; [reflexivity|].
    apply (f_equal (fun c => elements (world_of c))) in H.
    cbn [world_of elements with_elements] in H. rewrite <- H. repeat split.
Qed.

Lemma run_keeps_cursor_and_sync (evs : list event) (w w' : World) :
  run evs w = Some w' ->
  cursor_valid (state w) -> synced w ->
  cursor_valid (state w') /\ synced w'.
Proof.
  revert w. induction evs as [|ev evs IH]; intros w; cbn.
  - intros [= ->]. auto.
  - destruct (react ev w) as [w1|] eqn:E; [|discriminate].
    intros Hrun Hc Hs. apply (IH w1 Hrun).
    + exact (react_keeps_cursor _ _ _ E Hc).
    + exact (react_keeps_synced _ _ _ E Hc Hs).
Qed.

(** *** Typed sessions run *)

Lemma react_typed (ev : event) (w : World) :
  typed_event ev -> stored_deck_typed w -> exists w', react ev w = Some w'.
Proof.
  intros Hev Hst. destruct ev; cbn [react]; try (eexists; reflexivity).
  - (* LoadDeck *)
    unfold loadFlashcards. destruct io; [|eexists; reflexivity].
    destruct (saved_item flashcards_key w) as [saved|] eqn:Es;
      [|eexists; reflexivity].
    destruct (JSON.parse saved) as [v|] eqn:Ep; [|eexists; reflexivity].
    destruct (deck_of_json v) as [d|] eqn:Ed; [eexists; reflexivity|].
    destruct (Hst saved v Es Ep Ed).
  - (* SummaryArrives *)
    destruct (summarizeNotes_receive resp w) eqn:E; [eexists; reflexivity|].
    destruct (Hev w E).
  - (* QuizArrives *)
    destruct (generateQuiz_receive resp w) eqn:E; [eexists; reflexivity|].
    destruct (Hev w E).
  - (* FlashcardsArrive *)
    unfold generateFlashcards_receive.
    destruct resp as [|status [data|]]; [eexists; reflexivity| |].
    + cbn in Hev. destruct (response_ok status); [|eexists; reflexivity].
      destruct (response_deck data) as [[d|]|]; try (eexists; reflexivity).
      destruct (Hev eq_refl eq_refl).
    + destruct (response_ok status); eexists; reflexivity.
  - (* TimerFires *)
    destruct Hev.
Qed.

Lemma stored_deck_typed_ext (w w' : World) :
  localStorage w' !! flashcards_key = localStorage w !! flashcards_key ->
  stored_deck_typed w -> stored_deck_typed w'.
Proof.
  unfold stored_deck_typed, saved_item. intros ->. auto.
Qed.

Lemma react_keeps_stored_deck (ev : event) (w w' : World) :
  react ev w = Some w' -> stored_deck_typed w -> stored_deck_typed w'.
Proof.
  intros Hreact Hst. destruct (is_save ev) eqn:Hsave.
  - destruct ev; try discriminate. cbn in Hreact. injection Hreact as <-.
    unfold saveFlashcards.
    destruct (len (flashcards (state w)) =? 0);
      [apply (stored_deck_typed_ext w); [reflexivity|exact Hst]|].
    destruct io; [|apply (stored_deck_typed_ext w); [reflexivity|exact Hst]].
    intros text v Hitem Hparse.
    rewrite (saved_item_present _ (JSON.stringify_deck (flashcards (state w)))) in Hitem;
      [|cbn; apply lookup_insert_eq|apply stringify_deck_nonempty].
    injection Hitem as <-.
    destruct (parse_stringify_deck (flashcards (state w))) as [Hp Hd].
    rewrite Hp in Hparse. injection Hparse as <-. rewrite Hd. discriminate.
  - apply (stored_deck_typed_ext w); [|exact Hst].
    exact (react_keeps_deck_item _ _ _ Hreact Hsave).
Qed.

(** A typed session stays within the model. *)
Lemma typed_session_runs (evs : list event) (w : World) :
  Forall typed_event evs -> stored_deck_typed w ->
  exists w', run evs w = Some w' /\ stored_deck_typed w'.
Proof.
  intros Hevs. revert w. induction Hevs as [|ev evs Hev _ IH]; intros w Hst.
  - exists w. split; [reflexivity|exact Hst].
  - destruct (react_typed ev w Hev Hst) as [w1 E].
    destruct (IH w1 (react_keeps_stored_deck _ _ _ E Hst)) as (w' & Hrun & Hst').
    exists w'. split; [|exact Hst']. cbn [run]. rewrite E. exact Hrun.
Qed.

(** X12.  As long as every deck the application is handed, by the
    backend or by storage, is an array of cards (a typed session), the
    card on the page is the card under the cursor after every handler:
    from a world with a valid cursor whose page is in sync, a typed
    sequence of handlers runs to a world where, if the deck is not empty,
    the page shows the question and the answer of the card under the
    cursor, its position counted from 1, the size of the deck, and is
    flipped exactly when the flag is set; if the deck is empty, the page
    shows the two placeholder texts, 0 / 0, and is not flipped whatever
    the flag. *)
Theorem page_shows_current_card (evs : list event) (w : World) :
  cursor_valid (state w) -> synced w ->
  stored_deck_typed w -> Forall typed_event evs ->
  exists w',
    run evs w = Some w' /\
    (flashcards (state w') = [] ->
     cardQuestion (elements w') = lit "<p>Generate or load flashcards to begin.</p>" /\
     cardAnswer (elements w') = lit "<p>Flip to see answer.</p>" /\
     currentCard (elements w') = lit "0" /\ totalCards (elements w') = lit "0" /\
     flashcard_flipped (elements w') = false) /\
    (flashcards (state w') <> [] ->
     exists card,
       item (flashcards (state w')) (currentFlashcardIndex (state w')) = Some card /\
       cardQuestion (elements w') = lit "<p>" ++ question card ++ lit "</p>" /\
       cardAnswer (elements w') = lit "<p>" ++ answer card ++ lit "</p>" /\
       currentCard (elements w') = num (currentFlashcardIndex (state w') + 1) /\
       totalCards (elements w') = num (len (flashcards (state w'))) /\
       flashcard_flipped (elements w') = isFlashcardFlipped (state w')).
Proof.
  intros Hc Hs Hst Hevs.
  destruct (typed_session_runs evs w Hevs Hst) as (w' & Hrun & _).
  exists w'. split; [exact Hrun|].
  destruct (run_keeps_cursor_and_sync _ _ _ Hrun Hc Hs) as [_ Hs'].
  exact (synced_shows _ Hs').
Qed.

Lemma empty_storage_typed (w : World) :
  localStorage w !! flashcards_key = None -> stored_deck_typed w.
Proof.
  intros H text v Hitem. unfold saved_item in Hitem. rewrite H in Hitem.
  discriminate.
Qed.

Lemma page_shows_current_card_witness :
  exists w' card,
    run [FlashcardsArrive
           (Response 200 (Some (JObj [(lit "flashcards", json_of_deck received_deck)])));
         Navigate 1; Flip]
        (world_of (updateFlashcardDisplay new_app)) = Some w' /\
    received_deck !! 1%nat = Some card /\
    cardQuestion (elements w') = lit "<p>" ++ question card ++ lit "</p>" /\
    flashcard_flipped (elements w') = true.
Proof.
  destruct (page_shows_current_card
              [FlashcardsArrive
                 (Response 200
                    (Some (JObj [(lit "flashcards", json_of_deck received_deck)])));
               Navigate 1; Flip]
              (world_of (updateFlashcardDisplay new_app)))
    as (w' & Hrun & _ & H).
  - left. split; reflexivity.
  - vm_compute. reflexivity.
  - apply empty_storage_typed. reflexivity.
  - repeat constructor. intros _. vm_compute. discriminate.
  - pose proof Hrun as E. vm_compute in E. injection E as E.
    destruct H as (card & H1 & H2 & _ & _ & _ & H3).
    { rewrite <- E. vm_compute. discriminate. }
    exists w', card. split; [exact Hrun|].
    split; [|split; [exact H2|]].
    + rewrite <- E in H1. vm_compute in H1. vm_compute. exact H1.
    + rewrite H3, <- E. vm_compute. reflexivity.
Defined.

Lemma run_keeps_cursor (evs : list event) (w w' : World) :
  run evs w = Some w' -> cursor_valid (state w) -> cursor_valid (state w').
Proof.
  revert w. induction evs as [|ev evs IH]; intros w; cbn.
  - intros [= ->]. auto.
  - destruct (react ev w) as [w1|] eqn:E; [|discriminate].
    intros Hrun Hc. apply (IH w1 Hrun). exact (react_keeps_cursor _ _ _ E Hc).
Qed.

(** X13.  As long as every deck the application is handed, by the
    backend or by storage, is an array of cards, the cursor is always on
    a card: starting from a world where the cursor is valid (on a card,
    or 0 with an empty deck), as after construction, a typed sequence of
    handlers runs to a world where
    [0 <= currentFlashcardIndex < flashcards.length], or the deck is
    empty and the cursor is 0. *)
Theorem cursor_stays_on_a_card (evs : list event) (w : World) :
  cursor_valid (state w) ->
  stored_deck_typed w -> Forall typed_event evs ->
  exists w',
    run evs w = Some w' /\
    ((flashcards (state w') = [] /\ currentFlashcardIndex (state w') = 0) \/
     0 <= currentFlashcardIndex (state w') < len (flashcards (state w'))).
Proof.
  intros Hc Hst Hevs.
  destruct (typed_session_runs evs w Hevs Hst) as (w' & Hrun & _).
  exists w'. split; [exact Hrun|]. exact (run_keeps_cursor _ _ _ Hrun Hc).
Qed.

Lemma cursor_stays_on_a_card_witness :
  exists w',
    run [FlashcardsArrive
           (Response 200 (Some (JObj [(lit "flashcards", json_of_deck sample_deck)])));
         Navigate (-1); Shuffle Nat.pred; Navigate 1; Navigate 1; Navigate 1]
        new_app = Some w' /\
    currentFlashcardIndex (state w') = 0 /\
    len (flashcards (state w')) = 3.
Proof.
  destruct (cursor_stays_on_a_card
              [FlashcardsArrive
                 (Response 200 (Some (JObj [(lit "flashcards", json_of_deck sample_deck)])));
               Navigate (-1); Shuffle Nat.pred; Navigate 1; Navigate 1; Navigate 1]
              new_app)
    as (w' & Hrun & H).
  - left. split; reflexivity.
  - apply empty_storage_typed. reflexivity.
  - repeat constructor. intros _. vm_compute. discriminate.
  - exists w'. split; [exact Hrun|].
    pose proof Hrun as E. vm_compute in E. injection E as E.
    rewrite <- E. vm_compute. split; reflexivity.
Defined.

(** X14.  As long as every deck the application is handed, by the
    backend or by storage, is an array of cards, no deck handler ends in
    an uncaught exception: a typed sequence of handlers from a valid
    cursor runs to its end, and in the world it reaches
    [navigateFlashcard] in either direction, [flipFlashcard],
    [shuffleFlashcards] with any draws, [clearFlashcards] with any answer
    and [loadFlashcards] return normally; the card read by
    [updateFlashcardDisplay] always exists. *)
Theorem deck_handlers_return (evs : list event) (w : World) :
  cursor_valid (state w) ->
  stored_deck_typed w -> Forall typed_event evs ->
  exists w',
    run evs w = Some w' /\
    (forall d, exists w'', navigateFlashcard d w' = Normal w'') /\
    (exists w'', flipFlashcard w' = Normal w'') /\
    (forall r, exists w'', shuffleFlashcards r w' = Normal w'') /\
    (forall c, exists w'', clearFlashcards c w' = Normal w'') /\
    (forall io, exists w'', loadFlashcards io w' = InModel (Normal w'')).
Proof.
  intros Hc Hst Hevs.
  destruct (typed_session_runs evs w Hevs Hst) as (w' & Hrun & Hst').
  exists w'. split; [exact Hrun|].
  pose proof (run_keeps_cursor _ _ _ Hrun Hc) as Hc'.
  destruct (handlers_return w' Hc') as (H1 & H2 & H3 & H4).
  do 4 (split; [assumption|]).
  intros io.
  destruct (react_typed (LoadDeck io) w' I Hst') as [w'' E]. cbn [react] in E.
  destruct (loadFlashcards io w') as [c|] eqn:El; [|discriminate].
  destruct (loadFlashcards_returns io w' c El) as [w3 ->].
  exists w3. reflexivity.
Qed.

Lemma deck_handlers_return_witness :
  exists w' w'',
    run [LoadDeck StorageOk; Navigate (-1)]
        (store flashcards_key (JSON.stringify_deck received_deck) new_app) = Some w' /\
    flipFlashcard w' = Normal w''.
Proof.
  destruct (deck_handlers_return [LoadDeck StorageOk; Navigate (-1)]
              (store flashcards_key (JSON.stringify_deck received_deck) new_app))
    as (w' & Hrun & _ & [w'' H] & _).
  - left. split; reflexivity.
  - intros text v H1 H2. vm_compute in H1. injection H1 as <-.
    vm_compute in H2. injection H2 as <-. vm_compute. discriminate.
  - repeat constructor.
  - exists w', w''. split; assumption.
Defined.

(** ** Input fields stay within their limits *)

Lemma input_field_eq_dec (f g : input_field) : {f = g} + {f <> g}.
Proof. decide equality. Defined.

Lemma value_set_value_other (f g : input_field) (v : jsstring) (e : Elements) :
  f <> g -> value g (set_value f v e) = value g e.
Proof. destruct f, g; intros H; try reflexivity; congruence. Qed.

Lemma typed_within_limit (f : input_field) (text : jsstring) (w : World) :
  len (value f (elements
         (validateInput f (limit f) (with_elements (set_value f text) w))))
  <= limit f.
Proof.
  pose proof (limit_positive f) as Hpos.
  destruct (Z_gt_le_dec (len (value f (elements (with_elements (set_value f text) w))))
              (limit f)) as [Hgt|Hle].
  - destruct (validateInput_truncates f _ Hgt) as (_ & -> & _). lia.
  - rewrite validateInput_within_limit by exact Hle. exact Hle.
Qed.

Lemma typed_other_field (f g : input_field) (text : jsstring) (w : World) :
  f <> g ->
  value g (elements (validateInput f (limit f) (with_elements (set_value f text) w)))
  = value g (elements w).
Proof.
  intros Hne. unfold validateInput.
  match goal with |- context [if ?b then _ else _] => destruct b end; cbn;
    rewrite ?value_set_value_other by exact Hne; reflexivity.
Qed.

Lemma react_keeps_limits (ev : event) (w w' : World) :
  react ev w = Some w' -> within_limits w -> within_limits w'.
Proof.
  intros Hreact Hlim g.
  destruct ev; cbn in Hreact.
  8: { injection Hreact as <-. destruct (input_field_eq_dec f g) as [->|Hne].
       - apply typed_within_limit.
       - rewrite (typed_other_field f g text w Hne). apply Hlim. }
  8: { injection Hreact as <-.
       destruct (submit_cases f w) as [[_ ->]|[[Hgt ->]|(_ & _ & w1 & r & -> & H)]].
       - apply Hlim.
       - cbn. destruct (input_field_eq_dec f g) as [->|Hne].
         + rewrite value_set_value.
           destruct (trim_of_cut _ _ (limit_positive g) Hgt) as (_ & _ & ->). lia.
         + rewrite (value_set_value_other f g _ _ Hne). apply Hlim.
       - destruct H as (_ & _ & _ & He & _). cbn [submitted]. rewrite He.
         specialize (Hlim g). destruct f, g; exact Hlim. }
  all: specialize (Hlim g);
    unfold navigateFlashcard, flipFlashcard, shuffleFlashcards,
      markFlashcardDifficulty, clearFlashcards, saveFlashcards, loadFlashcards,
      generateExplanation_receive, summarizeNotes_receive, generateQuiz_receive,
      generateFlashcards_receive, renderExplanation, renderSummary, renderQuiz,
      openSettings, closeSettings, saveSettings, run_timer,
      try_catch_outcome, try_catch, andThen, updateFlashcardDisplay in Hreact;
    repeat case_match; simplify_eq; destruct g; exact Hlim.
Qed.

(** X15.  No field ever holds more than its limit once the user has typed
    in it: after an [input] event the field is at most its limit long
    (500, 2000, 1000, 800), whatever was typed or pasted, and when every
    field is within its limit no sequence of handlers takes one beyond
    it. *)
Theorem fields_stay_within_limits (evs : list event) (w w' : World) :
  (forall f text,
     len (value f (elements
            (validateInput f (limit f) (with_elements (set_value f text) w))))
     <= limit f) /\
  (within_limits w -> run evs w = Some w' -> within_limits w').
Proof.
  split; [intros f text; apply typed_within_limit|].
  revert w. induction evs as [|ev evs IH]; intros w Hlim; cbn.
  - intros [= <-]. exact Hlim.
  - destruct (react ev w) as [w1|] eqn:E; [|discriminate].
    intros Hrun. apply (IH w1); [|exact Hrun].
    exact (react_keeps_limits _ _ _ E Hlim).
Qed.

Lemma fields_stay_within_limits_witness :
  len (topicInput (elements (default new_app
         (run [Typed TopicInput long_topic; Submit TopicInput;
               Typed NotesInput (lit "  notes  "); Submit NotesInput]
              new_app)))) <= 500.
Proof.
  destruct (fields_stay_within_limits
              [Typed TopicInput long_topic; Submit TopicInput;
               Typed NotesInput (lit "  notes  "); Submit NotesInput]
              new_app
              (default new_app
                 (run [Typed TopicInput long_topic; Submit TopicInput;
                       Typed NotesInput (lit "  notes  "); Submit NotesInput]
                      new_app))) as [_ H].
  apply (H (fun f => ltac:(destruct f; vm_compute; discriminate))
           ltac:(vm_compute; reflexivity) TopicInput).
Defined.

(** ** Connection and start-up *)

(** X16.  [checkBackend] answers [true] exactly for a 2xx response whose
    body is JSON; a 2xx response with another body counts as a failure,
    like a network error, and both are logged, while a status outside
    200-299 is not.  The connection status becomes "connected" or
    "disconnected" accordingly, the status text reads "Phi-3 Ready" (or
    "Connected" for another model) or "Disconnected", the dot carries the
    class of the status.  One request is issued; deck, notifications and
    storage are untouched. *)
Theorem checkBackend_sets_connection (resp : fetch_result) (w : World) :
  fst (checkBackend resp w) =
    match resp with
    | Response status (Some _) => response_ok status
    | _ => false
    end /\
  connectionStatus (state (snd (checkBackend resp w))) =
    (if fst (checkBackend resp w) then lit "connected" else lit "disconnected") /\
  statusText (elements (snd (checkBackend resp w))) =
    (if fst (checkBackend resp w)
     then (if isPhi3 (state w) then lit "Phi-3 Ready" else lit "Connected")
     else lit "Disconnected") /\
  statusDot (elements (snd (checkBackend resp w))) =
    (if fst (checkBackend resp w)
     then [lit "status-dot"; lit "connected"] ++
          (if isPhi3 (state w) then [lit "phi3-connected"] else [])
     else [lit "status-dot"; lit "disconnected"]) /\
  console (snd (checkBackend resp w)) =
    console w ++
    match resp with
    | NetworkError => [lit "Backend check failed:"]
    | Response status None =>
        if response_ok status then [lit "Backend check failed:"] else []
    | Response _ (Some _) => []
    end /\
  requests (snd (checkBackend resp w)) =
    requests w ++ [GET (backendUrl (state w) ++ lit "/health")] /\
  flashcards (state (snd (checkBackend resp w))) = flashcards (state w) /\
  notifications (snd (checkBackend resp w)) = notifications w /\
  localStorage (snd (checkBackend resp w)) = localStorage w.
Proof.
  unfold checkBackend.
  destruct resp as [|status [data|]]; try destruct (response_ok status);
    cbn; rewrite ?app_nil_r; repeat split;
    destruct (isPhi3 (state w)); reflexivity.
Qed.

Lemma checkOllama_verdict (resp : fetch_result) (w1 w2 : World) :
  fst (checkOllama resp w1) = fst (checkOllama resp w2).
Proof. destruct resp; reflexivity. Qed.

(** X17.  Once the backend answered, start-up always completes, whether
    or not the inference engine answers: the request to the engine
    follows, the reveal callback is queued with a delay of 1000, and when
    it runs the overlay is hidden, scrolling is enabled and exactly one
    notification is raised, of kind success when the engine answered 2xx
    and of kind warning otherwise.  Until then the status line reads
    "Loading Phi-3 Mini..." or gives the instructions for starting the
    engine. *)
Theorem startup_completes_without_engine
    (backend ollama : fetch_result) (w : World) :
  fst (checkBackend backend w) = true ->
  timers w = [] ->
  timers (initializeApp backend ollama w) =
    [(1000, RevealApp (fst (checkOllama ollama w)))] /\
  loadingStatus (elements (initializeApp backend ollama w)) =
    (if fst (checkOllama ollama w)
     then StatusText (lit "Loading Phi-3 Mini...") else ollama_instructions) /\
  loadingScreen_hidden (elements (initializeApp backend ollama w)) =
    loadingScreen_hidden (elements w) /\
  notifications (initializeApp backend ollama w) = notifications w /\
  exists w',
    run [TimerFires] (initializeApp backend ollama w) = Some w' /\
    loadingScreen_hidden (elements w') = true /\
    body_overflow (elements w') = lit "auto" /\
    timers w' = [] /\
    connectionStatus (state w') = lit "connected" /\
    notifications w' =
      notifications w ++
      [if fst (checkOllama ollama w)
       then mkNotification
              (lit "Concepta ready! Using Phi-3 Mini (3.8B) " ++ [55357; 56960]%N)
              success
       else mkNotification
              (lit "Concepta ready! Using mock responses (Start Ollama for AI)")
              warning].
Proof.
  intros Hok Ht.
  pose proof (checkBackend_frame backend
                (with_elements (set_loadingStatus
                   (StatusText (lit "Checking backend connection..."))) w))
    as (_ & Htim & Hnot & Hhid & _ & Hconn).
  cbn in Htim, Hnot, Hhid.
  rewrite (checkBackend_verdict backend w
             (with_elements (set_loadingStatus
                (StatusText (lit "Checking backend connection..."))) w)) in Hok.
  unfold initializeApp.
  destruct (checkBackend backend (with_elements _ w)) as [ok w1] eqn:E.
  cbn [fst snd] in *. subst ok. cbn [negb].
  set (w2 := with_elements (set_loadingStatus (StatusText (lit "Checking Ollama..."))) w1).
  rewrite (checkOllama_verdict ollama w w2).
  destruct (checkOllama ollama w2) as [ollamaOk w3] eqn:O.
  assert (Hw3 : w3 = issue (GET (apiUrl (state w2) ++ lit "/api/tags")) w2).
  { unfold checkOllama in O. destruct ollama; injection O as _ <-; reflexivity. }
  cbn [fst]. subst w3 w2.
  destruct ollamaOk; cbn; rewrite ?Htim, ?Ht, ?Hnot, ?Hhid;
    (do 4 (split; [reflexivity|])); eexists; (split; [reflexivity|]);
    cbn; rewrite ?Hnot, ?Hconn; repeat split.
Qed.

Lemma startup_completes_without_engine_witness :
  exists w',
    run [TimerFires]
        (initializeApp (Response 200 (Some (JObj []))) NetworkError new_app) = Some w' /\
    loadingScreen_hidden (elements w') = true /\
    notifications w' =
      [mkNotification
         (lit "Concepta ready! Using mock responses (Start Ollama for AI)") warning].
Proof.
  destruct (startup_completes_without_engine
              (Response 200 (Some (JObj []))) NetworkError new_app)
    as (_ & _ & _ & _ & w' & H1 & H2 & _ & _ & _ & H3);
    [reflexivity | reflexivity |].
  exists w'. auto.
Defined.

(** ** Settings *)

Lemma lex_settings (t m a : jsstring) :
  JSON.lex (JSON.stringify_settings t m a) =
  Some [JSON.TLBrace; JSON.TString (lit "theme"); JSON.TColon; JSON.TString t;
        JSON.TComma; JSON.TString (lit "model"); JSON.TColon; JSON.TString m;
        JSON.TComma; JSON.TString (lit "apiUrl"); JSON.TColon; JSON.TString a;
        JSON.TRBrace].
Proof.
  unfold JSON.lex, JSON.stringify_settings.
  repeat first
    [ rewrite lex_quote
    | match goal with
      | |- JSON.lex_run JSON.LStart ?k (lit "{" ++ ?r) = _ =>
          destruct (lex_punctuation k r) as (-> & _)
      | |- JSON.lex_run JSON.LStart ?k (lit ":" ++ ?r) = _ =>
          destruct (lex_punctuation k r) as (_ & _ & _ & _ & -> & _)
      | |- JSON.lex_run JSON.LStart ?k (lit "," ++ ?r) = _ =>
          destruct (lex_punctuation k r) as (_ & _ & _ & _ & _ & ->)
      end ].
  reflexivity.
Qed.

(** The settings text written by [saveSettings] parses to its three
    properties. *)
Lemma parse_stringify_settings (t m a : jsstring) :
  JSON.parse (JSON.stringify_settings t m a) =
  Some (JObj [(lit "theme", JStr t); (lit "model", JStr m); (lit "apiUrl", JStr a)]).
Proof. unfold JSON.parse. rewrite lex_settings. reflexivity. Qed.

Lemma setting_or_string (s fallback : jsstring) :
  setting_or (Some (JStr s)) fallback = Some (or_default s fallback).
Proof.
  unfold setting_or, or_default, truthy.
  destruct (bool_decide (s = [])); reflexivity.
Qed.

(** X18.  Settings saved by [saveSettings] come back on the next page
    load: in any world whose storage holds the item written by a
    successful save (state and page may be fresh), [loadSettings] sets
    theme, model and API address to the saved ones, puts model and
    address into the two form fields, and sets the Phi-3 mark exactly
    when the model name starts with "phi3".  A value saved as the empty
    string comes back as its default ("dark", "phi3:mini",
    "http://localhost:11434"). *)
Theorem saved_settings_are_restored (w w1 : World) :
  localStorage w1 !! settings_key =
    localStorage (saveSettings StorageOk w) !! settings_key ->
  exists w',
    loadSettings StorageOk w1 = InModel (Normal w') /\
    theme (state w') = or_default (theme (state w)) (lit "dark") /\
    model (state w') = or_default (modelSelect (elements w)) (lit "phi3:mini") /\
    apiUrl (state w') =
      or_default (apiUrlField (elements w)) (lit "http://localhost:11434") /\
    isPhi3 (state w') = startsWith (lit "phi3") (model (state w')) /\
    modelSelect (elements w') = model (state w') /\
    apiUrlField (elements w') = apiUrl (state w') /\
    flashcards (state w') = flashcards (state w1) /\
    notifications w' = notifications w1.
Proof.
  intros H.
  assert (Hitem : localStorage w1 !! settings_key =
                  Some (JSON.stringify_settings (theme (state w))
                          (modelSelect (elements w)) (apiUrlField (elements w)))).
  { rewrite H. unfold saveSettings. cbn. apply lookup_insert_eq. }
  unfold loadSettings.
  rewrite (saved_item_present _ _ _ Hitem) by (unfold JSON.stringify_settings; discriminate).
  rewrite parse_stringify_settings. unfold apply_settings.
  change (get (JObj ?ms) ?k) with (Some (last_member k ms)).
  cbn [from_option id].
  change (last_member (lit "theme") _) with (Some (JStr (theme (state w)))).
  change (last_member (lit "model") _) with (Some (JStr (modelSelect (elements w)))).
  change (last_member (lit "apiUrl") _) with (Some (JStr (apiUrlField (elements w)))).
  rewrite !setting_or_string.
  eexists. split; [reflexivity|]. repeat split.
Qed.

Lemma saved_settings_are_restored_witness :
  exists w',
    loadSettings StorageOk
      (store settings_key
         (JSON.stringify_settings (lit "dark") (lit "llama3") [])
         new_app) = InModel (Normal w') /\
    model (state w') = lit "llama3" /\
    apiUrl (state w') = lit "http://localhost:11434" /\
    isPhi3 (state w') = false.
Proof.
  destruct (saved_settings_are_restored
              (with_elements (set_settings_fields (lit "llama3") []) new_app)
              (store settings_key
                 (JSON.stringify_settings (lit "dark") (lit "llama3") []) new_app))
    as (w' & H1 & _ & H2 & H3 & H4 & _).
  { cbn. rewrite !lookup_insert_eq. reflexivity. }
  exists w'. split; [exact H1|]. split; [exact H2|]. split; [exact H3|].
  rewrite H4, H2. reflexivity.
Defined.

(** X19.  [saveSettings] takes model and API address from the two form
    fields.  When the write goes through, the state holds them, the Phi-3
    mark follows the model name, the dialog is closed, the notification
    names the model, and the request that probes the inference engine
    goes to the address just saved; the theme and the saved deck are
    untouched.  When the write throws, nothing changes but the error
    notification "Failed to save settings": the state keeps the old model
    and address, the dialog stays as it is and no request is issued. *)
Theorem saveSettings_effects (w : World) :
  (model (state (saveSettings StorageOk w)) = modelSelect (elements w) /\
   apiUrl (state (saveSettings StorageOk w)) = apiUrlField (elements w) /\
   isPhi3 (state (saveSettings StorageOk w)) =
     startsWith (lit "phi3") (modelSelect (elements w)) /\
   theme (state (saveSettings StorageOk w)) = theme (state w) /\
   settingsModal_active (elements (saveSettings StorageOk w)) = false /\
   requests (saveSettings StorageOk w) =
     requests w ++ [GET (apiUrlField (elements w) ++ lit "/api/tags")] /\
   notifications (saveSettings StorageOk w) =
     notifications w ++
     [mkNotification (lit "Using " ++ modelSelect (elements w)) success] /\
   localStorage (saveSettings StorageOk w) !! settings_key =
     Some (JSON.stringify_settings (theme (state w)) (modelSelect (elements w))
             (apiUrlField (elements w))) /\
   localStorage (saveSettings StorageOk w) !! flashcards_key =
     localStorage w !! flashcards_key) /\
  (state (saveSettings StorageThrows w) = state w /\
   elements (saveSettings StorageThrows w) = elements w /\
   requests (saveSettings StorageThrows w) = requests w /\
   localStorage (saveSettings StorageThrows w) = localStorage w /\
   notifications (saveSettings StorageThrows w) =
     notifications w ++ [mkNotification (lit "Failed to save settings") error]).
Proof.
  unfold saveSettings. cbn. repeat split.
  - apply lookup_insert_eq.
  - apply lookup_insert_ne. discriminate.
Qed.



(** ** Theme *)

Lemma activate_matching_spec (id : jsstring) (items : list Item) :
  map key (activate_matching id items) = map key items /\
  forall it, it ∈ activate_matching id items -> (active it = true <-> key it = id).
Proof.
  unfold activate_matching. split.
  - rewrite map_map. reflexivity.
  - intros it Hin. apply list_elem_of_In, in_map_iff in Hin as (x & <- & _). cbn.
    apply bool_decide_eq_true.
Qed.

(** X21.  [setTheme] makes the given theme the theme of the state and of
    the document and stores it under its own key; the theme options keep
    their order and exactly those whose theme is the given one are
    active.  When the write throws, state and document already carry the
    new theme, but the options are not refreshed, nothing is stored and
    the exception leaves the method. *)
Theorem setTheme_effects (t : jsstring) (a : App) :
  (exists a',
     setTheme StorageOk t a = Returns a' /\
     theme (state (world a')) = t /\
     data_theme (chrome a') = t /\
     localStorage (world a') !! theme_key = Some t /\
     map key (themeOptions (chrome a')) = map key (themeOptions (chrome a)) /\
     (forall opt, opt ∈ themeOptions (chrome a') ->
        (active opt = true <-> key opt = t)) /\
     flashcards (state (world a')) = flashcards (state (world a)) /\
     model (state (world a')) = model (state (world a))) /\
  (exists a',
     setTheme StorageThrows t a = Raises a' /\
     theme (state (world a')) = t /\
     data_theme (chrome a') = t /\
     themeOptions (chrome a') = themeOptions (chrome a) /\
     localStorage (world a') = localStorage (world a)).
Proof.
  unfold setTheme. split; eexists; (split; [reflexivity|]); cbn.
  - destruct (activate_matching_spec t (themeOptions (chrome a))) as [Hk Ha].
    repeat split; try assumption; try apply lookup_insert_eq; apply Ha; assumption.
  - repeat split.
Qed.

(** X22.  [toggleTheme] switches "dark" to "light" and any other theme,
    "light" or not, to "dark".  Starting from "dark" or "light", two
    toggles bring back the starting theme, in the state, on the document
    and in storage. *)
Theorem toggleTheme_twice (a : App) :
  exists a1 a2,
    toggleTheme StorageOk a = Returns a1 /\
    toggleTheme StorageOk a1 = Returns a2 /\
    (theme (state (world a)) = lit "dark" -> theme (state (world a1)) = lit "light") /\
    (theme (state (world a)) <> lit "dark" -> theme (state (world a1)) = lit "dark") /\
    (theme (state (world a)) = lit "dark" \/ theme (state (world a)) = lit "light" ->
     theme (state (world a2)) = theme (state (world a)) /\
     data_theme (chrome a2) = theme (state (world a)) /\
     localStorage (world a2) !! theme_key = Some (theme (state (world a)))).
Proof.
  unfold toggleTheme, setTheme. eexists. eexists.
  split; [reflexivity|]. split; [reflexivity|]. cbn.
  destruct (decide (theme (state (world a)) = lit "dark")) as [E|E].
  - rewrite (bool_decide_true _ E). cbn.
    split; [reflexivity|]. split; [congruence|]. intros _.
    rewrite E. repeat split. apply lookup_insert_eq.
  - rewrite (bool_decide_false _ E). cbn.
    split; [congruence|]. split; [reflexivity|]. intros [?|E2]; [congruence|].
    rewrite E2. repeat split. apply lookup_insert_eq.
Qed.

Lemma setTheme_effects_witness :
  exists a',
    setTheme StorageOk (lit "light") sample_app = Returns a' /\
    themeOptions (chrome a') = [mkItem (lit "dark") false; mkItem (lit "light") true].
Proof.
  destruct (setTheme_effects (lit "light") sample_app) as [(a' & H & _) _].
  exists a'. split; [exact H|].
  vm_compute in H. injection H as <-. vm_compute. reflexivity.
Defined.

Lemma toggleTheme_twice_witness :
  exists a1 a2,
    toggleTheme StorageOk sample_app = Returns a1 /\
    toggleTheme StorageOk a1 = Returns a2 /\
    theme (state (world a1)) = lit "light" /\
    theme (state (world a2)) = lit "dark".
Proof.
  destruct (toggleTheme_twice sample_app) as (a1 & a2 & H1 & H2 & H3 & _ & H4).
  exists a1, a2. split; [exact H1|]. split; [exact H2|].
  split; [apply H3; reflexivity|]. apply H4. left. reflexivity.
Defined.

(** ** Start-up from the constructor *)

Lemma loadSettings_frame (io : storage_io) (w : World) (c : completion) :
  loadSettings io w = InModel c ->
  exists w',
    c = Normal w' /\
    notifications w' = notifications w /\
    requests w' = requests w /\
    localStorage w' = localStorage w /\
    timers w' = timers w /\
    loadingScreen_hidden (elements w') = loadingScreen_hidden (elements w) /\
    loadingStatus (elements w') = loadingStatus (elements w).
Proof.
  unfold loadSettings, apply_settings, try_catch_outcome, try_catch.
  intros H. repeat case_match; simplify_eq;
    (eexists; split; [reflexivity|]; repeat split).
Qed.

Lemma initializeApp_frame (backend ollama : fetch_result) (w : World) :
  theme (state (initializeApp backend ollama w)) = theme (state w) /\
  localStorage (initializeApp backend ollama w) = localStorage w.
Proof.
  unfold initializeApp, checkBackend, checkOllama.
  destruct backend as [|status [data|]]; try destruct (response_ok status);
    cbn; try (split; reflexivity);
    destruct ollama as [|status2 body2]; try destruct (response_ok status2);
    cbn; split; reflexivity.
Qed.

(** X23.  At start-up the theme stored under its own key wins over the
    theme of the saved settings: when storage is readable and writable
    and holds a non-empty theme item, [init] ends with that theme in the
    state, on the document and in storage, whatever the settings item
    holds.  Without a theme item the theme left by [loadSettings] is
    used and is stored under the theme key at once. *)
Theorem stored_theme_wins
    (settings_read : storage_io) (backend ollama : fetch_result)
    (a : App) (c : app_completion) :
  init settings_read StorageOk StorageOk backend ollama a = Some c ->
  exists a',
    c = Returns a' /\
    data_theme (chrome a') = theme (state (world a')) /\
    localStorage (world a') !! theme_key = Some (theme (state (world a'))) /\
    (forall t, saved_item theme_key (world a) = Some t ->
       theme (state (world a')) = t) /\
    (saved_item theme_key (world a) = None ->
     forall c0, loadSettings settings_read (world a) = InModel c0 ->
       theme (state (world a')) = theme (state (world_of c0))).
Proof.
  unfold init.
  change (world (setupInputListeners a)) with (world a).
  destruct (loadSettings settings_read (world a)) as [c0|] eqn:L; [|discriminate].
  destruct (loadSettings_frame _ _ _ L) as (w1 & -> & _ & _ & Hl & _).
  cbn [lift]. unfold setupTheme, setTheme.
  assert (Hs : saved_item theme_key w1 = saved_item theme_key (world a)).
  { unfold saved_item. rewrite Hl. reflexivity. }
  cbn [world]. rewrite Hs. intros [= <-].
  eexists. split; [reflexivity|]. cbn [world chrome].
  destruct (initializeApp_frame backend ollama
              (store theme_key
                 (default (theme (state w1)) (saved_item theme_key (world a)))
                 (with_state
                    (set_theme (default (theme (state w1))
                                  (saved_item theme_key (world a)))) w1)))
    as [-> ->].
  cbn. split; [reflexivity|]. split; [apply lookup_insert_eq|]. split.
  - intros t ->. reflexivity.
  - intros -> c1 [= <-]. reflexivity.
Qed.

Lemma stored_theme_wins_witness :
  exists a',
    init StorageOk StorageOk StorageOk NetworkError NetworkError
      (mkApp (store theme_key (lit "light")
                (store settings_key
                   (JSON.stringify_settings (lit "dark") (lit "phi3:mini") (lit "http://h"))
                   new_app))
             sample_chrome) = Some (Returns a') /\
    theme (state (world a')) = lit "light".
Proof.
  assert (L : loadSettings StorageOk
                (store theme_key (lit "light")
                   (store settings_key
                      (JSON.stringify_settings (lit "dark") (lit "phi3:mini")
                         (lit "http://h")) new_app))
              = InModel (Normal
                  (with_elements (set_settings_fields (lit "phi3:mini") (lit "http://h"))
                     (with_state (set_settings (lit "dark") (lit "phi3:mini")
                                    (lit "http://h") true)
                        (store theme_key (lit "light")
                           (store settings_key
                              (JSON.stringify_settings (lit "dark") (lit "phi3:mini")
                                 (lit "http://h")) new_app)))))).
  { unfold loadSettings.
    rewrite (saved_item_present settings_key
               (JSON.stringify_settings (lit "dark") (lit "phi3:mini") (lit "http://h")));
      [|cbn; rewrite lookup_insert_ne by discriminate; apply lookup_insert_eq
       |discriminate].
    rewrite parse_stringify_settings. reflexivity. }
  destruct (init StorageOk StorageOk StorageOk NetworkError NetworkError
      (mkApp (store theme_key (lit "light")
                (store settings_key
                   (JSON.stringify_settings (lit "dark") (lit "phi3:mini") (lit "http://h"))
                   new_app))
             sample_chrome)) as [c|] eqn:E.
  - destruct (stored_theme_wins _ _ _ _ _ E) as (a' & -> & _ & _ & H & _).
    exists a'. split; [reflexivity|]. apply H.
    apply saved_item_present; [cbn; apply lookup_insert_eq|discriminate].
  - unfold init in E. change (world (setupInputListeners ?x)) with (world x) in E.
    cbn [world] in E. rewrite L in E. discriminate E.
Defined.

(** X24.  When the theme item of storage cannot be read, or the theme
    cannot be written, [init] ends in an uncaught exception before the
    start-up sequence begins: no request goes out, no callback is queued,
    and the loading overlay and its status line stay as they are. *)
Theorem init_stops_without_theme_storage
    (settings_read theme_read theme_write : storage_io)
    (backend ollama : fetch_result) (a : App) (c : app_completion) :
  theme_read = StorageThrows \/ theme_write = StorageThrows ->
  init settings_read theme_read theme_write backend ollama a = Some c ->
  exists a',
    c = Raises a' /\
    requests (world a') = requests (world a) /\
    timers (world a') = timers (world a) /\
    loadingScreen_hidden (elements (world a')) =
      loadingScreen_hidden (elements (world a)) /\
    loadingStatus (elements (world a')) = loadingStatus (elements (world a)).
Proof.
  intros Hio. unfold init.
  change (world (setupInputListeners a)) with (world a).
  destruct (loadSettings settings_read (world a)) as [c0|] eqn:L; [|discriminate].
  destruct (loadSettings_frame _ _ _ L) as (w1 & -> & _ & Hr & _ & Ht & Hh & Hs).
  cbn [lift]. unfold setupTheme, setTheme.
  destruct theme_read; [destruct theme_write; [destruct Hio; discriminate|]|];
    intros [= <-]; eexists; (split; [reflexivity|]); cbn; auto.
Qed.

Lemma init_stops_without_theme_storage_witness :
  exists a',
    init StorageThrows StorageThrows StorageOk
      (Response 200 (Some (JObj []))) (Response 200 None) sample_app
      = Some (Raises a') /\
    requests (world a') = [] /\
    loadingScreen_hidden (elements (world a')) = false.
Proof.
  destruct (init_stops_without_theme_storage StorageThrows StorageThrows StorageOk
              (Response 200 (Some (JObj []))) (Response 200 None) sample_app
              (Raises (mkApp (log_console (lit "Error loading settings:") new_app)
                             (chrome (setupInputListeners sample_app)))))
    as (a' & H1 & H2 & _ & H3 & _); [left; reflexivity | reflexivity |].
  exists a'. rewrite <- H1. split; [reflexivity|]. split; assumption.
Defined.

(** ** Tabs, difficulty, keyboard, counters *)

Lemma activate_only_spec (k : nat) (items : list Item) :
  map key (activate_only k items) = map key items /\
  forall i it, activate_only k items !! i = Some it -> (active it = true <-> i = k).
Proof.
  unfold activate_only. split.
  - apply list_eq. intros i. rewrite !list_lookup_fmap, list_lookup_imap.
    destruct (items !! i); reflexivity.
  - intros i it. rewrite list_lookup_imap.
    destruct (items !! i); [|discriminate]. cbn. intros [= <-]. cbn.
    apply bool_decide_eq_true.
Qed.

(** X25.  A click on a nav item makes its [data-tab] the current tab,
    leaves that nav item as the only active one, and activates exactly
    the content panels whose id is that tab; the nav items keep their
    order.  When the tab is "flashcards" the card is redrawn from the
    state.  Deck, cursor and flag are not changed. *)
Theorem switchTab_activates (k : nat) (tab : Item) (a : App) :
  tabs (chrome a) !! k = Some tab ->
  cursor_valid (state (world a)) ->
  exists a',
    switchTab k a = Returns a' /\
    currentTab (state (world a')) = key tab /\
    map key (tabs (chrome a')) = map key (tabs (chrome a)) /\
    (forall i it, tabs (chrome a') !! i = Some it -> (active it = true <-> i = k)) /\
    (forall it, it ∈ tabContents (chrome a') ->
       (active it = true <-> key it = key tab)) /\
    (key tab = lit "flashcards" -> synced (world a')) /\
    flashcards (state (world a')) = flashcards (state (world a)) /\
    currentFlashcardIndex (state (world a')) = currentFlashcardIndex (state (world a)) /\
    isFlashcardFlipped (state (world a')) = isFlashcardFlipped (state (world a)).
Proof.
  intros Htab Hc. unfold switchTab. rewrite Htab.
  destruct (activate_only_spec k (tabs (chrome a))) as [Hk Ha].
  destruct (activate_matching_spec (key tab) (tabContents (chrome a))) as [_ Hm].
  destruct (decide (key tab = lit "flashcards")) as [E|E].
  - rewrite (bool_decide_true _ E).
    destruct (cursor_valid_display
                (with_state (set_currentTab (key tab)) (world a))) as (w1 & U & Hs).
    { exact Hc. }
    rewrite U. cbn [lift]. eexists. split; [reflexivity|]. cbn [world chrome].
    rewrite Hs. cbn. repeat split; try assumption; try (apply Ha; assumption);
      try (apply Hm; assumption).
    intros _. exact (display_synced _ _ U).
  - rewrite (bool_decide_false _ E).
    eexists. split; [reflexivity|]. cbn.
    repeat split; try assumption; try (apply Ha; assumption);
      try (apply Hm; assumption).
    intros ?. congruence.
Qed.

Lemma switchTab_activates_witness :
  exists a',
    switchTab 3 sample_app = Returns a' /\
    currentTab (state (world a')) = lit "flashcards" /\
    cardQuestion (elements (world a')) =
      lit "<p>Generate or load flashcards to begin.</p>".
Proof.
  destruct (switchTab_activates 3 (mkItem (lit "flashcards") false) sample_app)
    as (a' & H1 & H2 & _ & _ & _ & H3 & _);
    [reflexivity | left; split; reflexivity |].
  exists a'. split; [exact H1|]. split; [exact H2|].
  destruct (synced_shows _ (H3 eq_refl)) as [H _].
  apply H. vm_compute in H1. injection H1 as <-. reflexivity.
Defined.

(** X26.  Shortcuts that do nothing: while the focus is in a text field
    or a selector no key has any effect; outside the flashcards tab the
    two arrows and the space bar have no effect; [t] without Ctrl has no
    effect.  In all these cases the default action of the key is kept. *)
Theorem idle_shortcuts (io : storage_io) (e : KeyEvent) (a : App) :
  in_form_field e = true \/
  (currentTab (state (world a)) <> lit "flashcards" /\
   (pressed e = lit "ArrowLeft" \/ pressed e = lit "ArrowRight" \/
    pressed e = lit " ")) \/
  (pressed e = lit "t" /\ ctrlKey e = false) ->
  handleKeyboardShortcuts io e a = (Returns a, false).
Proof.
  unfold handleKeyboardShortcuts.
  intros [H|[[Htab Hkey]|[Hkey Hctrl]]].
  - rewrite H. reflexivity.
  - destruct (in_form_field e); [reflexivity|].
    rewrite (bool_decide_false _ Htab).
    destruct Hkey as [ -> | [ -> | -> ] ]; reflexivity.
  - destruct (in_form_field e); [reflexivity|].
    rewrite Hkey, Hctrl. reflexivity.
Qed.

Lemma idle_shortcuts_witness :
  handleKeyboardShortcuts StorageOk (mkKeyEvent (lit " ") false true)
    (mkApp (with_state (set_currentTab (lit "flashcards"))
              (with_deck sample_deck 0 new_app)) sample_chrome)
  = (Returns (mkApp (with_state (set_currentTab (lit "flashcards"))
                       (with_deck sample_deck 0 new_app)) sample_chrome), false).
Proof. apply idle_shortcuts. left. reflexivity. Defined.

(** X27.  The digit keys 1 to 4 act as a click on the nav item of that
    position: the tab of that item becomes the current tab; when the page
    has no nav item at that position the key does nothing.  The default
    action of the key is kept. *)
Theorem digit_switches_tab (io : storage_io) (e : KeyEvent) (k : nat) (a : App) :
  in_form_field e = false ->
  digit_index (pressed e) = Some k ->
  cursor_valid (state (world a)) ->
  snd (handleKeyboardShortcuts io e a) = false /\
  (forall tab, tabs (chrome a) !! k = Some tab ->
     exists a',
       handleKeyboardShortcuts io e a = (Returns a', false) /\
       switchTab k a = Returns a' /\
       currentTab (state (world a')) = key tab) /\
  (tabs (chrome a) !! k = None ->
   handleKeyboardShortcuts io e a = (Returns a, false)).
Proof.
  intros Hf Hd Hc. unfold handleKeyboardShortcuts. rewrite Hf, Hd.
  split; [reflexivity|]. split.
  - intros tab Htab. unfold switchTab. rewrite Htab.
    destruct (bool_decide (key tab = lit "flashcards")).
    + destruct (cursor_valid_display
                  (with_state (set_currentTab (key tab)) (world a))) as (w1 & U & Hs).
      { exact Hc. }
      rewrite U. cbn. eexists. split; [reflexivity|]. split; [reflexivity|].
      cbn. rewrite Hs. reflexivity.
    + eexists. split; [reflexivity|]. split; reflexivity.
  - intros Hnone. unfold switchTab. rewrite Hnone. reflexivity.
Qed.

Lemma digit_switches_tab_witness :
  exists a',
    handleKeyboardShortcuts StorageOk (mkKeyEvent (lit "3") false false) sample_app
      = (Returns a', false) /\
    currentTab (state (world a')) = lit "quiz".
Proof.
  destruct (digit_switches_tab StorageOk (mkKeyEvent (lit "3") false false) 2 sample_app)
    as (_ & H & _); [reflexivity | reflexivity | left; split; reflexivity |].
  destruct (H (mkItem (lit "quiz") false)) as (a' & H1 & _ & H2); [reflexivity|].
  exists a'. split; assumption.
Defined.

(** X28.  On the flashcards tab, with the focus outside any field and the
    cursor on a card, the right arrow followed by the left arrow comes
    back to the same card, shown unflipped; neither key has its default
    action prevented. *)
Theorem arrows_are_inverse (io : storage_io) (a : App) :
  currentTab (state (world a)) = lit "flashcards" ->
  0 <= currentFlashcardIndex (state (world a)) < len (flashcards (state (world a))) ->
  exists a1 a2,
    handleKeyboardShortcuts io (mkKeyEvent (lit "ArrowRight") false false) a
      = (Returns a1, false) /\
    handleKeyboardShortcuts io (mkKeyEvent (lit "ArrowLeft") false false) a1
      = (Returns a2, false) /\
    currentFlashcardIndex (state (world a1)) =
      (currentFlashcardIndex (state (world a)) + 1)
        mod len (flashcards (state (world a))) /\
    currentFlashcardIndex (state (world a2)) = currentFlashcardIndex (state (world a)) /\
    flashcards (state (world a2)) = flashcards (state (world a)) /\
    isFlashcardFlipped (state (world a2)) = false /\
    currentTab (state (world a2)) = lit "flashcards".
Proof.
  intros Htab Hi.
  set (n := len (flashcards (state (world a)))) in *.
  set (i := currentFlashcardIndex (state (world a))) in *.
  assert (Hn : 1 <= n) by lia.
  destruct (navigateFlashcard_step (world a) 1 Hn Hi (or_introl eq_refl))
    as (w1 & N1 & S1). fold n i in S1.
  assert (Hj : (i + 1 + n) mod n = (i + 1) mod n).
  { replace (i + 1 + n) with (i + 1 + 1 * n) by lia. apply Z.mod_add. lia. }
  rewrite Hj in S1.
  assert (Hd1 : flashcards (state w1) = flashcards (state (world a)))
    by (rewrite S1; reflexivity).
  assert (Hi1 : currentFlashcardIndex (state w1) = (i + 1) mod n)
    by (rewrite S1; reflexivity).
  assert (Hr1 : 0 <= currentFlashcardIndex (state w1) < len (flashcards (state w1))).
  { rewrite Hd1, Hi1. apply Z.mod_pos_bound. lia. }
  assert (Hn1 : 1 <= len (flashcards (state w1))) by (rewrite Hd1; exact Hn).
  destruct (navigateFlashcard_step w1 (-1) Hn1 Hr1 (or_intror eq_refl))
    as (w2 & N2 & S2). rewrite Hd1, Hi1 in S2. fold n in S2.
  exists (mkApp w1 (chrome a)), (mkApp w2 (chrome a)).
  unfold handleKeyboardShortcuts. cbn [in_form_field pressed world chrome].
  assert (Ht1 : currentTab (state w1) = lit "flashcards")
    by (rewrite S1; exact Htab).
  rewrite Htab, Ht1.
  split; [vm_compute digit_index; cbn; rewrite N1; reflexivity|].
  split; [vm_compute digit_index; cbn; rewrite N2; reflexivity|].
  split; [exact Hi1|]. rewrite S2. cbn. rewrite S1. cbn.
  repeat split; try assumption.
  destruct (Z_lt_le_dec (i + 1) n) as [Hlt|Hge].
  - rewrite (Z.mod_small (i + 1) n) by lia.
    replace (i + 1 + -1 + n) with (i + 1 * n) by lia.
    rewrite Z.mod_add by lia. apply Z.mod_small. lia.
  - assert (E : i + 1 = n) by lia. rewrite E.
    rewrite Z.mod_same by lia.
    replace (0 + -1 + n) with (n - 1) by lia. rewrite Z.mod_small by lia. lia.
Qed.

Lemma arrows_are_inverse_witness :
  exists a1 a2,
    handleKeyboardShortcuts StorageOk (mkKeyEvent (lit "ArrowRight") false false)
      (mkApp (with_state (set_currentTab (lit "flashcards"))
                (with_deck sample_deck 2 new_app)) sample_chrome)
      = (Returns a1, false) /\
    handleKeyboardShortcuts StorageOk (mkKeyEvent (lit "ArrowLeft") false false) a1
      = (Returns a2, false) /\
    currentFlashcardIndex (state (world a1)) = 0 /\
    currentFlashcardIndex (state (world a2)) = 2.
Proof.
  destruct (arrows_are_inverse StorageOk
              (mkApp (with_state (set_currentTab (lit "flashcards"))
                        (with_deck sample_deck 2 new_app)) sample_chrome))
    as (a1 & a2 & H1 & H2 & H3 & H4 & _);
    [reflexivity | vm_compute; split; [discriminate|reflexivity] |].
  exists a1, a2. repeat split; assumption.
Defined.

(** X29.  A click on a difficulty button makes its level the current
    difficulty and the button the only active one, and issues no request:
    the level travels with the next explanation request, whose body
    carries it together with the trimmed topic and the model. *)
Theorem difficulty_goes_with_next_request (k : nat) (btn : Item) (a : App) :
  difficultyButtons (chrome a) !! k = Some btn ->
  currentDifficulty (state (world (setDifficulty k a))) = key btn /\
  requests (world (setDifficulty k a)) = requests (world a) /\
  (forall i it, difficultyButtons (chrome (setDifficulty k a)) !! i = Some it ->
     (active it = true <-> i = k)) /\
  (forall w1, generateExplanation_submit (world (setDifficulty k a)) = Awaiting w1 ->
     requests w1 =
       requests (world a) ++
       [POST (backendUrl (state (world a)) ++ lit "/explain")
             (ExplainBody (trim (topicInput (elements (world a)))) (key btn)
                          (model (state (world a))))]).
Proof.
  intros Hbtn. unfold setDifficulty. rewrite Hbtn. cbn [world chrome].
  destruct (activate_only_spec k (difficultyButtons (chrome a))) as [_ Ha].
  split; [reflexivity|]. split; [reflexivity|]. split; [exact Ha|].
  intros w1. unfold generateExplanation_submit.
  destruct (bool_decide _); [discriminate|].
  destruct (_ >? _); [discriminate|]. intros [= <-]. reflexivity.
Qed.

Lemma difficulty_goes_with_next_request_witness :
  exists w1,
    generateExplanation_submit
      (world (setDifficulty 2
                (mkApp (with_elements (set_topicInput (lit "Osmosis")) new_app)
                       sample_chrome))) = Awaiting w1 /\
    requests w1 =
      [POST (lit "http://localhost:8000/explain")
            (ExplainBody (lit "Osmosis") (lit "advanced") (lit "phi3:mini"))].
Proof.
  destruct (difficulty_goes_with_next_request 2 (mkItem (lit "advanced") false)
              (mkApp (with_elements (set_topicInput (lit "Osmosis")) new_app)
                     sample_chrome)) as (_ & _ & _ & H); [reflexivity|].
  eexists. split; [vm_compute; reflexivity|].
  vm_compute. reflexivity.
Defined.

Lemma counter_set_counter (f : input_field) (n : Counter) (c : Chrome) :
  counter f (set_counter f n c) = n.
Proof. destruct f; reflexivity. Qed.

(** X30.  After an [input] event the counter of the field reads "typed
    length / limit" and is marked "error" above nine tenths of the limit,
    "warning" above seven tenths.  The counter is drawn before the text
    is cut: when more than the limit was typed, the field holds exactly
    the limit while its counter still shows the typed length. *)
Theorem counter_shows_typed_length (f : input_field) (text : jsstring) (a : App) :
  textContent (counter f (chrome (input_event f text a))) =
    num (len text) ++ lit "/" ++ num (limit f) /\
  className (counter f (chrome (input_event f text a))) =
    lit "char-count" ::
    (if 10 * len text >? 9 * limit f then [lit "error"]
     else if 10 * len text >? 7 * limit f then [lit "warning"] else []) /\
  (len text > limit f ->
   value f (elements (world (input_event f text a))) = substring0 (limit f) text /\
   len (value f (elements (world (input_event f text a)))) = limit f /\
   className (counter f (chrome (input_event f text a))) =
     [lit "char-count"; lit "error"]) /\
  (len text <= limit f ->
   value f (elements (world (input_event f text a))) = text).
Proof.
  unfold input_event, update_counter. cbn [world chrome].
  rewrite counter_set_counter. cbn [textContent className elements with_elements].
  rewrite value_set_value.
  split; [reflexivity|]. split; [reflexivity|]. split.
  - intros Hgt. pose proof (limit_positive f) as Hpos.
    assert (Hv : len (value f (elements (with_elements (set_value f text) (world a))))
                 > limit f).
    { cbn. rewrite value_set_value. exact Hgt. }
    destruct (validateInput_truncates f _ Hv) as (-> & -> & _).
    cbn. rewrite value_set_value. repeat split.
    destruct (Z.gtb_spec (10 * len text) (9 * limit f)); [reflexivity|lia].
  - intros Hle. rewrite validateInput_within_limit.
    + cbn. apply value_set_value.
    + cbn. rewrite value_set_value. exact Hle.
Qed.

Lemma counter_shows_typed_length_witness :
  textContent (topicCharCount (chrome (input_event TopicInput long_topic sample_app)))
    = lit "501/500" /\
  len (topicInput (elements (world (input_event TopicInput long_topic sample_app))))
    = 500.
Proof.
  destruct (counter_shows_typed_length TopicInput long_topic sample_app)
    as (H1 & _ & H2 & _).
  destruct H2 as (_ & H2 & _); [vm_compute; reflexivity|].
  split; [|exact H2].
  change (topicCharCount ?c) with (counter TopicInput c). rewrite H1.
  vm_compute. reflexivity.
Defined.
